(** * BVHBuilder: a shallow embedding of the BVH construction engine

    Source: [src/components/layout/RightSideBar/AssetsTab.jsx], classes
    [CWBVHNode], [TriangleInfo] and [BVHBuilder].

    JavaScript numbers are IEEE-754 binary64 values.  They are modelled by
    [spec_float] of the Standard Library with precision 53 and maximal
    exponent 1024, so every arithmetic operation below rounds exactly as the
    program does, and NaN, the infinities and the two zeros are values of the
    type.  Integers that the program only ever uses as array lengths, bin
    counts or 32-bit bit patterns are [nat] or [Z].

    An exception of the program is a result of the embedded function
    ([Throws]); the functions that cannot throw are plain functions.  The
    arrays that the builder keeps between calls ([binCounts], [binBounds],
    [tempLeftTris], [tempRightTris]) are reset before every use and copied
    before they are reused, so each use is a value of its own here.  The
    methods of three.js [Vector3] that the builder calls ([set], [min],
    [max], [clone], [sub], [getComponent]) are written out on a record of
    three numbers.  The call stack is not bounded.

    Diagnostics that no result depends on are left out of the embedding:
    [console.log], [performance.now], the [splitStats] counters, [nodes],
    [totalNodes] and the progress callback of the synchronous path.

    [updateProgress] is embedded on its own counters, with the clock as an
    argument.

    A second source, [src/core/Processor/EnvironmentCDFBuilder.js], is
    embedded after the builder: [buildCDFTextureFixed] of class
    [EnvironmentCDFBuilder] and three static methods of [CDFValidator], over
    a [Float32Array] modelled as the list of its elements.

    The file has two parts: the embedding of the program with the
    vocabulary of its properties, and the properties. *)

From Stdlib Require Import ZArith List Bool Lia PeanoNat Permutation Sorted.
From Stdlib Require Import SpecFloat.
From Stdlib Require String.
Import ListNotations.

Set Implicit Arguments.

(* ================================================================= *)
(** ** JavaScript numbers *)

Module F64.

Definition prec : Z := 53.
Definition emax : Z := 1024.

Definition float : Type := spec_float.

Definition add : float -> float -> float := SFadd prec emax.
Definition sub : float -> float -> float := SFsub prec emax.
Definition mul : float -> float -> float := SFmul prec emax.
Definition div : float -> float -> float := SFdiv prec emax.

(** [a < b], [a <= b], [a > b] and [a === b] on numbers; all are false as
    soon as one side is NaN, and the two zeros are equal. *)
Definition ltb (a b : float) : bool := SFltb a b.
Definition leb (a b : float) : bool := SFleb a b.
Definition gtb (a b : float) : bool := SFltb b a.
Definition eqb (a b : float) : bool := SFeqb a b.

(** An integer as a number (exact below 2^53). *)
Definition ofZ (z : Z) : float := binary_normalize prec emax z 0 false.
Definition ofNat (n : nat) : float := ofZ (Z.of_nat n).

Definition zero : float := S754_zero false.
Definition neg_zero : float := S754_zero true.
Definition infinity : float := S754_infinity false.
Definition neg_infinity : float := S754_infinity true.
Definition nan : float := S754_nan.

Definition is_nan (a : float) : bool :=
  match a with S754_nan => true | _ => false end.

Definition is_finite (a : float) : bool :=
  match a with S754_zero _ | S754_finite _ _ _ => true | _ => false end.

(** [Math.min(a, b)]: NaN if either is NaN, -0 below +0. *)
Definition Math_min (a b : float) : float :=
  match a, b with
  | S754_nan, _ | _, S754_nan => S754_nan
  | S754_zero sa, S754_zero sb => S754_zero (sa || sb)
  | _, _ => if SFltb b a then b else a
  end.

(** [Math.max(a, b)]: NaN if either is NaN, +0 above -0. *)
Definition Math_max (a b : float) : float :=
  match a, b with
  | S754_nan, _ | _, S754_nan => S754_nan
  | S754_zero sa, S754_zero sb => S754_zero (sa && sb)
  | _, _ => if SFltb a b then b else a
  end.

Definition Math_min3 (a b c : float) : float := Math_min (Math_min a b) c.
Definition Math_max3 (a b c : float) : float := Math_max (Math_max a b) c.

(** [Math.floor]: the value [m * 2^e] with [e < 0] is cut at the binary
    point; a negative value with a fractional part goes one further down. *)
Definition Math_floor (v : float) : float :=
  match v with
  | S754_finite s m e =>
      if (0 <=? e)%Z then v
      else
        let q := Z.shiftr (Zpos m) (- e) in
        let exact := (Z.shiftl q (- e) =? Zpos m)%Z in
        if s then ofZ (- (if exact then q else q + 1))
        else binary_normalize prec emax q 0 false
  | _ => v
  end.

(** The integer a number denotes, when it denotes one. *)
Definition toZ (v : float) : option Z :=
  match v with
  | S754_zero _ => Some 0%Z
  | S754_finite s m e =>
      if (0 <=? e)%Z then Some (cond_Zopp s (Z.shiftl (Zpos m) e))
      else
        let q := Z.shiftr (Zpos m) (- e) in
        if (Z.shiftl q (- e) =? Zpos m)%Z then Some (cond_Zopp s q) else None
  | _ => None
  end.

(** The literals of the program. *)
Definition lit_1e_6 : float := Eval vm_compute in div (ofZ 1) (ofZ 1000000).
Definition lit_1e_10 : float := Eval vm_compute in div (ofZ 1) (ofZ 10000000000).
Definition lit_1e_12 : float := Eval vm_compute in div (ofZ 1) (ofZ 1000000000000).
Definition lit_0_5 : float := Eval vm_compute in div (ofZ 1) (ofZ 2).
Definition lit_1 : float := Eval vm_compute in ofZ 1.
Definition lit_2 : float := Eval vm_compute in ofZ 2.
Definition lit_3 : float := Eval vm_compute in ofZ 3.
Definition lit_m1 : float := Eval vm_compute in ofZ (-1).

End F64.

(* ================================================================= *)
(** ** 32-bit integer operators *)

Module Int32.

(** [ToInt32]: the value modulo 2^32, read as a signed 32-bit integer. *)
Definition ToInt32 (z : Z) : Z := ((z + 2 ^ 31) mod 2 ^ 32 - 2 ^ 31)%Z.

(** [a & b] *)
Definition and (a b : Z) : Z := Z.land (ToInt32 a) (ToInt32 b).

(** [a << n] *)
Definition shl (a n : Z) : Z := ToInt32 (Z.shiftl (ToInt32 a) (n mod 32)).

End Int32.

(* ================================================================= *)
(** ** Completion of a call: a value or a thrown exception *)

Inductive JSError : Type :=
| TypeError            (* a property read on [undefined] *)
| IndexOutOfRange.     (* three.js [getComponent]: index is out of range *)

Inductive Result (A : Type) : Type :=
| Returns (a : A)
| Throws (e : JSError).

Arguments Returns {A} a.
Arguments Throws {A} e.

Definition bind {A B : Type} (r : Result A) (k : A -> Result B) : Result B :=
  match r with
  | Returns a => k a
  | Throws e => Throws e
  end.

Notation "x <- r ;; k" := (bind r (fun x => k))
  (at level 61, r at next level, right associativity).
Notation "' p <- r ;; k" := (bind r (fun p => k))
  (at level 61, p pattern, r at next level, right associativity).

(** A loop over an array that may throw: [for (const x of xs) acc = f(acc, x)]. *)
Fixpoint foldM {A S : Type} (f : S -> A -> Result S) (xs : list A) (s : S) : Result S :=
  match xs with
  | [] => Returns s
  | x :: xs' => s' <- f s x ;; foldM f xs' s'
  end.

(* ================================================================= *)
(** ** Data model *)

(** three.js [Vector3] with the methods the builder calls. *)
Record Vector3 : Type := mkVector3 { x : F64.float; y : F64.float; z : F64.float }.

Module Vec.

Definition min (a b : Vector3) : Vector3 :=
  mkVector3 (F64.Math_min (x a) (x b)) (F64.Math_min (y a) (y b)) (F64.Math_min (z a) (z b)).

Definition max (a b : Vector3) : Vector3 :=
  mkVector3 (F64.Math_max (x a) (x b)) (F64.Math_max (y a) (y b)) (F64.Math_max (z a) (z b)).

Definition sub (a b : Vector3) : Vector3 :=
  mkVector3 (F64.sub (x a) (x b)) (F64.sub (y a) (y b)) (F64.sub (z a) (z b)).

(** [getComponent(index)]: 0, 1, 2 select x, y, z; anything else throws. *)
Definition getComponent (v : Vector3) (index : Z) : Result F64.float :=
  match index with
  | 0%Z => Returns (x v)
  | 1%Z => Returns (y v)
  | 2%Z => Returns (z v)
  | _ => Throws IndexOutOfRange
  end.

(** [v.getComponent(axis)] inside the loops [for (axis = 0; axis < 3; axis++)]
    and on the axis such a loop selected: there the index is 0, 1 or 2 and
    the call returns (lemma [getComponent_component]). *)
Definition component (v : Vector3) (axis : Z) : F64.float :=
  match axis with
  | 0%Z => x v
  | 1%Z => y v
  | _ => z v
  end.

Definition all_inf : Vector3 := mkVector3 F64.infinity F64.infinity F64.infinity.
Definition all_neg_inf : Vector3 :=
  mkVector3 F64.neg_infinity F64.neg_infinity F64.neg_infinity.

End Vec.

Record Triangle : Type := mkTriangle { posA : Vector3; posB : Vector3; posC : Vector3 }.

(** [{ min, max }] *)
Record Bounds : Type := mkBounds { bmin : Vector3; bmax : Vector3 }.

Record TriangleInfo : Type := mkTriangleInfo {
  triangle : Triangle;
  index : nat;
  centroid : Vector3;
  bounds : Bounds;
  mortonCode : Z
}.

(** [new TriangleInfo(triangle, index)] *)
Definition newTriangleInfo (t : Triangle) (i : nat) : TriangleInfo :=
  let a := posA t in
  let b := posB t in
  let c := posC t in
  {| triangle := t;
     index := i;
     centroid :=
       mkVector3
         (F64.div (F64.add (F64.add (x a) (x b)) (x c)) F64.lit_3)
         (F64.div (F64.add (F64.add (y a) (y b)) (y c)) F64.lit_3)
         (F64.div (F64.add (F64.add (z a) (z b)) (z c)) F64.lit_3);
     bounds :=
       {| bmin := mkVector3 (F64.Math_min3 (x a) (x b) (x c))
                            (F64.Math_min3 (y a) (y b) (y c))
                            (F64.Math_min3 (z a) (z b) (z c));
          bmax := mkVector3 (F64.Math_max3 (x a) (x b) (x c))
                            (F64.Math_max3 (y a) (y b) (y c))
                            (F64.Math_max3 (z a) (z b) (z c)) |};
     mortonCode := 0 |}.

(** [CWBVHNode]; a fresh node has no children, offset 0 and count 0.  The
    properties below go by induction on the calls that build a tree, so no
    induction scheme is generated for the type. *)
Local Unset Elimination Schemes.
Inductive CWBVHNode : Type := mkNode {
  boundsMin : Vector3;
  boundsMax : Vector3;
  leftChild : option CWBVHNode;
  rightChild : option CWBVHNode;
  triangleOffset : nat;
  triangleCount : nat
}.
Local Set Elimination Schemes.

(** The fields of a [BVHBuilder] that the build reads. *)
Record BVHBuilder : Type := mkBuilder {
  useWorker : bool;
  maxLeafSize : Z;
  numBins : Z;
  minBins : Z;
  maxBins : Z;
  traversalCost : F64.float;
  intersectionCost : F64.float;
  useMortonCodes : bool;
  mortonBits : Z;
  mortonClusterThreshold : Z;
  enableObjectMedianFallback : bool;
  enableSpatialMedianFallback : bool
}.

(** [new BVHBuilder()] *)
Definition newBVHBuilder : BVHBuilder :=
  {| useWorker := true;
     maxLeafSize := 8;
     numBins := 32;
     minBins := 8;
     maxBins := 64;
     traversalCost := F64.lit_1;
     intersectionCost := F64.lit_1;
     useMortonCodes := true;
     mortonBits := 10;
     mortonClusterThreshold := 128;
     enableObjectMedianFallback := true;
     enableSpatialMedianFallback := true |}.

(* ================================================================= *)
(** ** Configuration *)

Definition orElse {A : Type} (o : option A) (d : A) : A :=
  match o with Some a => a | None => d end.

(** The argument of [setAdaptiveBinConfig]; an absent field is [undefined]. *)
Record AdaptiveBinConfig : Type := {
  cfg_minBins : option Z;
  cfg_maxBins : option Z;
  cfg_baseBins : option Z
}.

Definition setAdaptiveBinConfig (this : BVHBuilder) (config : AdaptiveBinConfig) : BVHBuilder :=
  {| useWorker := useWorker this;
     maxLeafSize := maxLeafSize this;
     numBins := orElse (cfg_baseBins config) (numBins this);
     minBins := orElse (option_map (Z.max 4) (cfg_minBins config)) (minBins this);
     maxBins := orElse (option_map (Z.min 128) (cfg_maxBins config)) (maxBins this);
     traversalCost := traversalCost this;
     intersectionCost := intersectionCost this;
     useMortonCodes := useMortonCodes this;
     mortonBits := mortonBits this;
     mortonClusterThreshold := mortonClusterThreshold this;
     enableObjectMedianFallback := enableObjectMedianFallback this;
     enableSpatialMedianFallback := enableSpatialMedianFallback this |}.

(** The argument of [setMortonConfig]. *)
Record MortonConfig : Type := {
  cfg_enabled : option bool;
  cfg_bits : option Z;
  cfg_threshold : option Z
}.

Definition setMortonConfig (this : BVHBuilder) (config : MortonConfig) : BVHBuilder :=
  {| useWorker := useWorker this;
     maxLeafSize := maxLeafSize this;
     numBins := numBins this;
     minBins := minBins this;
     maxBins := maxBins this;
     traversalCost := traversalCost this;
     intersectionCost := intersectionCost this;
     useMortonCodes := orElse (cfg_enabled config) (useMortonCodes this);
     mortonBits :=
       orElse (option_map (fun b => Z.max 6 (Z.min 16 b)) (cfg_bits config)) (mortonBits this);
     mortonClusterThreshold :=
       orElse (option_map (Z.max 16) (cfg_threshold config)) (mortonClusterThreshold this);
     enableObjectMedianFallback := enableObjectMedianFallback this;
     enableSpatialMedianFallback := enableSpatialMedianFallback this |}.

(** The argument of [setFallbackConfig]. *)
Record FallbackConfig : Type := {
  cfg_objectMedian : option bool;
  cfg_spatialMedian : option bool
}.

Definition setFallbackConfig (this : BVHBuilder) (config : FallbackConfig) : BVHBuilder :=
  {| useWorker := useWorker this;
     maxLeafSize := maxLeafSize this;
     numBins := numBins this;
     minBins := minBins this;
     maxBins := maxBins this;
     traversalCost := traversalCost this;
     intersectionCost := intersectionCost this;
     useMortonCodes := useMortonCodes this;
     mortonBits := mortonBits this;
     mortonClusterThreshold := mortonClusterThreshold this;
     enableObjectMedianFallback :=
       orElse (cfg_objectMedian config) (enableObjectMedianFallback this);
     enableSpatialMedianFallback :=
       orElse (cfg_spatialMedian config) (enableSpatialMedianFallback this) |}.

Definition getOptimalBinCount (this : BVHBuilder) (triangleCount : nat) : Z :=
  if (triangleCount <=? 16)%nat then minBins this
  else if (triangleCount <=? 64)%nat then 16%Z
  else if (triangleCount <=? 256)%nat then 32%Z
  else if (triangleCount <=? 1024)%nat then 48%Z
  else maxBins this.

(* ================================================================= *)
(** ** [Array.prototype.sort]

    The sort of the language is stable.  [lt a b] says that the comparator
    returns a negative number on [(a, b)]; an element is put behind every
    element that it is not below. *)

Section ArraySort.
Context {A : Type}.
Variable lt : A -> A -> bool.

Fixpoint sort_insert (a : A) (sorted : list A) : list A :=
  match sorted with
  | [] => [a]
  | b :: rest => if lt a b then a :: b :: rest else b :: sort_insert a rest
  end.

Definition Array_sort (xs : list A) : list A :=
  fold_left (fun sorted a => sort_insert a sorted) xs [].

End ArraySort.

(* ================================================================= *)
(** ** Morton codes *)

(** [expandBits(value)].  Each product is below 2^53 for a 32-bit operand,
    so the multiplication of the two numbers is exact; [&] then reads both
    sides as 32-bit integers. *)
Definition expandBits (value : Z) : Z :=
  let value := Int32.and (value * 0x00010001) 0xFF0000FF in
  let value := Int32.and (value * 0x00000101) 0x0F00F00F in
  let value := Int32.and (value * 0x00000011) 0xC30C30C3 in
  let value := Int32.and (value * 0x00000005) 0x49249249 in
  value.

Definition morton3D (x y z : Z) : Z :=
  (Int32.shl (expandBits z) 2 + Int32.shl (expandBits y) 1 + expandBits x)%Z.

(** [Math.max(0, Math.min(mortonScale, Math.floor(v * mortonScale)))] *)
Definition quantize (mortonScale : Z) (v : F64.float) : F64.float :=
  F64.Math_max F64.zero
    (F64.Math_min (F64.ofZ mortonScale) (F64.Math_floor (F64.mul v (F64.ofZ mortonScale)))).

(** The 32-bit reading that [expandBits] makes of a quantized coordinate: the
    integer it denotes, and 0 for NaN (NaN times a constant is NaN, and
    [ToInt32] of NaN is 0). *)
Definition quantizedInt (v : F64.float) : Z := orElse (F64.toZ v) 0%Z.

(** The normalisation shared by [computeMortonCode] and the coarse pass of
    [recursiveMortonCluster]; [bits] is the bit depth in use. *)
Definition mortonCodeAt (bits : Z) (centroid sceneMin sceneMax : Vector3) : Z :=
  let range := Vec.sub sceneMax sceneMin in
  let normalized := Vec.sub centroid sceneMin in
  let nx := if F64.gtb (x range) F64.zero then F64.div (x normalized) (x range) else x normalized in
  let ny := if F64.gtb (y range) F64.zero then F64.div (y normalized) (y range) else y normalized in
  let nz := if F64.gtb (z range) F64.zero then F64.div (z normalized) (z range) else z normalized in
  let mortonScale := (Int32.shl 1 bits - 1)%Z in
  morton3D (quantizedInt (quantize mortonScale nx))
           (quantizedInt (quantize mortonScale ny))
           (quantizedInt (quantize mortonScale nz)).

Definition computeMortonCode (this : BVHBuilder) (centroid sceneMin sceneMax : Vector3) : Z :=
  mortonCodeAt (mortonBits this) centroid sceneMin sceneMax.

(** The box of all centroids: the two loops over [sceneMin.min] and
    [sceneMax.max]. *)
Definition sceneBounds (triangleInfos : list TriangleInfo) : Vector3 * Vector3 :=
  fold_left (fun '(lo, hi) t => (Vec.min lo (centroid t), Vec.max hi (centroid t)))
            triangleInfos (Vec.all_inf, Vec.all_neg_inf).

Definition withMortonCode (t : TriangleInfo) (code : Z) : TriangleInfo :=
  {| triangle := triangle t; index := index t; centroid := centroid t;
     bounds := bounds t; mortonCode := code |}.

Definition sortTrianglesByMortonCode (this : BVHBuilder) (triangleInfos : list TriangleInfo)
  : list TriangleInfo :=
  if negb (useMortonCodes this)
     || (Z.of_nat (length triangleInfos) <? mortonClusterThreshold this)%Z
  then triangleInfos
  else
    let '(sceneMin, sceneMax) := sceneBounds triangleInfos in
    let coded :=
      map (fun t => withMortonCode t (computeMortonCode this (centroid t) sceneMin sceneMax))
          triangleInfos in
    Array_sort (fun a b => (mortonCode a - mortonCode b <? 0)%Z) coded.

(** A [Map] in insertion order: [has], [set] of a fresh key, [get] and
    [push] on the stored array. *)
Fixpoint clusterPush (clusters : list (Z * list TriangleInfo)) (key : Z) (t : TriangleInfo)
  : list (Z * list TriangleInfo) :=
  match clusters with
  | [] => [(key, [t])]
  | (k, members) :: rest =>
      if (k =? key)%Z then (k, members ++ [t]) :: rest
      else (k, members) :: clusterPush rest key t
  end.

Definition recursiveMortonCluster (this : BVHBuilder) (triangleInfos : list TriangleInfo)
           (maxClusterSize : Z) : list TriangleInfo :=
  if (Z.of_nat (length triangleInfos) <=? maxClusterSize)%Z
  then sortTrianglesByMortonCode this triangleInfos
  else
    let '(sceneMin, sceneMax) := sceneBounds triangleInfos in
    let coarseBits := Z.max 6 (mortonBits this - 2) in
    let clusters :=
      fold_left
        (fun clusters t => clusterPush clusters (mortonCodeAt coarseBits (centroid t) sceneMin sceneMax) t)
        triangleInfos [] in
    let sortedClusters := Array_sort (fun a b => (fst a - fst b <? 0)%Z) clusters in
    flat_map (fun c => sortTrianglesByMortonCode this (snd c)) sortedClusters.

(* ================================================================= *)
(** ** Split selection *)

Definition emptyBounds : Bounds := mkBounds Vec.all_inf Vec.all_neg_inf.

Definition expandBounds (targetBounds sourceBounds : Bounds) : Bounds :=
  mkBounds (Vec.min (bmin targetBounds) (bmin sourceBounds))
           (Vec.max (bmax targetBounds) (bmax sourceBounds)).

Definition computeSurfaceAreaFromBounds (boundsMin boundsMax : Vector3) : F64.float :=
  let dx := F64.sub (x boundsMax) (x boundsMin) in
  let dy := F64.sub (y boundsMax) (y boundsMin) in
  let dz := F64.sub (z boundsMax) (z boundsMin) in
  F64.mul F64.lit_2 (F64.add (F64.add (F64.mul dx dy) (F64.mul dy dz)) (F64.mul dz dx)).

Inductive SplitMethod : Type :=
| SAH
| object_median
| spatial_median
| fallbacks_disabled
| object_median_failed_no_spatial_fallback
| object_median_degenerate_no_spatial_fallback
| spatial_median_failed
| spatial_median_degenerate.

(** The object a split finder returns: [{ success: true, axis, pos, method }]
    or [{ success: false, method }]. *)
Inductive SplitInfo : Type :=
| Split (axis : Z) (pos : F64.float) (method : SplitMethod)
| NoSplit (method : SplitMethod).

(** [splitInfo.success] *)
Definition success (s : SplitInfo) : bool :=
  match s with Split _ _ _ => true | NoSplit _ => false end.

(** [minCentroid] and [maxCentroid] of one axis. *)
Definition centroidRange (triangleInfos : list TriangleInfo) (axis : Z) : F64.float * F64.float :=
  fold_left
    (fun '(lo, hi) t =>
       let c := Vec.component (centroid t) axis in
       (F64.Math_min lo c, F64.Math_max hi c))
    triangleInfos (F64.infinity, F64.neg_infinity).

(** [minBound] and [maxBound] of one axis, over the boxes of the triangles. *)
Definition boundRange (triangleInfos : list TriangleInfo) (axis : Z) : F64.float * F64.float :=
  fold_left
    (fun '(lo, hi) t =>
       (F64.Math_min lo (Vec.component (bmin (bounds t)) axis),
        F64.Math_max hi (Vec.component (bmax (bounds t)) axis)))
    triangleInfos (F64.infinity, F64.neg_infinity).

(** The number of elements whose centroid on [axis] is [<= splitPos]. *)
Definition countLeft (triangleInfos : list TriangleInfo) (axis : Z) (splitPos : F64.float) : nat :=
  length (filter (fun t => F64.leb (Vec.component (centroid t) axis) splitPos) triangleInfos).

(** A read [a[i]] of an array of numbers; out of range it is [undefined]. *)
Definition numAt (a : list F64.float) (i : nat) : option F64.float := nth_error a i.

(** [u === v] and the number that [undefined] becomes in arithmetic. *)
Definition strictEq (u v : option F64.float) : bool :=
  match u, v with
  | Some a, Some b => F64.eqb a b
  | None, None => true
  | _, _ => false
  end.
Definition toNumber (u : option F64.float) : F64.float := orElse u F64.nan.

(** The body of the loop over the axes in [findSpatialMedianSplit]:
    [bestAxis], [bestSpread] and [bestBounds] after one more axis.
    [bestBounds] starts as [null] and is read only once an axis has set
    it. *)
Definition widerBoundAxis (triangleInfos : list TriangleInfo)
           (best : Z * F64.float * (F64.float * F64.float)) (axis : Z)
  : Z * F64.float * (F64.float * F64.float) :=
  let '(minBound, maxBound) := boundRange triangleInfos axis in
  let spread := F64.sub maxBound minBound in
  if F64.gtb spread (snd (fst best)) then (axis, spread, (minBound, maxBound)) else best.

Definition findSpatialMedianSplit (triangleInfos : list TriangleInfo) : SplitInfo :=
  let '(bestAxis, bestSpread, bestBounds) :=
    fold_left (widerBoundAxis triangleInfos) [0; 1; 2]%Z
              ((-1)%Z, F64.lit_m1, (F64.nan, F64.nan)) in
  if (bestAxis =? -1)%Z || F64.ltb bestSpread F64.lit_1e_12 then NoSplit spatial_median_failed
  else
    let splitPos := F64.mul (F64.add (fst bestBounds) (snd bestBounds)) F64.lit_0_5 in
    let leftCount := countLeft triangleInfos bestAxis splitPos in
    let rightCount := (length triangleInfos - leftCount)%nat in
    if (leftCount =? 0)%nat || (rightCount =? 0)%nat then
      let centroids :=
        Array_sort (fun a b => F64.ltb (F64.sub a b) F64.zero)
                   (map (fun tri => Vec.component (centroid tri) bestAxis) triangleInfos) in
      let medianIndex := (length centroids / 2)%nat in
      let medianCentroid := numAt centroids medianIndex in
      if strictEq (numAt centroids 0) (numAt centroids (length centroids - 1))
      then NoSplit spatial_median_degenerate
      else
        let adjustedSplitPos :=
          if (0 <? medianIndex)%nat
             && negb (strictEq (numAt centroids (medianIndex - 1)) medianCentroid)
          then F64.mul (F64.add (toNumber (numAt centroids (medianIndex - 1)))
                                (toNumber medianCentroid)) F64.lit_0_5
          else if (medianIndex <? length centroids - 1)%nat
          then F64.mul (F64.add (toNumber medianCentroid)
                                (toNumber (numAt centroids (medianIndex + 1)))) F64.lit_0_5
          else toNumber medianCentroid in
        Split bestAxis adjustedSplitPos spatial_median
    else Split bestAxis splitPos spatial_median.

(** The axis of the largest centroid spread: the first loop of
    [findObjectMedianSplit], and its body. *)
Definition widerCentroidAxis (triangleInfos : list TriangleInfo) (best : Z * F64.float)
           (axis : Z) : Z * F64.float :=
  let '(minCentroid, maxCentroid) := centroidRange triangleInfos axis in
  let spread := F64.sub maxCentroid minCentroid in
  if F64.gtb spread (snd best) then (axis, spread) else best.

Definition widestCentroidAxis (triangleInfos : list TriangleInfo) : Z * F64.float :=
  fold_left (widerCentroidAxis triangleInfos) [0; 1; 2]%Z ((-1)%Z, F64.lit_m1).

(** [sortedTriangles[i].centroid.getComponent(axis)]; reading a property of
    [undefined] throws. *)
Definition centroidAt (sorted : list TriangleInfo) (i : nat) (axis : Z) : Result F64.float :=
  match nth_error sorted i with
  | Some t => Returns (Vec.component (centroid t) axis)
  | None => Throws TypeError
  end.

Definition findObjectMedianSplit (this : BVHBuilder) (triangleInfos : list TriangleInfo)
  : Result SplitInfo :=
  let '(bestAxis, bestSpread) := widestCentroidAxis triangleInfos in
  if (bestAxis =? -1)%Z || F64.ltb bestSpread F64.lit_1e_10 then
    if enableSpatialMedianFallback this
    then Returns (findSpatialMedianSplit triangleInfos)
    else Returns (NoSplit object_median_failed_no_spatial_fallback)
  else
    let sortedTriangles :=
      Array_sort
        (fun a b => F64.ltb (F64.sub (Vec.component (centroid a) bestAxis)
                                     (Vec.component (centroid b) bestAxis)) F64.zero)
        triangleInfos in
    let medianIndex := (length sortedTriangles / 2)%nat in
    medianCentroid <- centroidAt sortedTriangles medianIndex bestAxis ;;
    let leftCount := countLeft triangleInfos bestAxis medianCentroid in
    if (leftCount =? 0)%nat || (leftCount =? length triangleInfos)%nat then
      if (0 <? medianIndex)%nat then
        prevCentroid <- centroidAt sortedTriangles (medianIndex - 1) bestAxis ;;
        Returns (Split bestAxis (F64.mul (F64.add prevCentroid medianCentroid) F64.lit_0_5)
                       object_median)
      else if enableSpatialMedianFallback this
      then Returns (findSpatialMedianSplit triangleInfos)
      else Returns (NoSplit object_median_degenerate_no_spatial_fallback)
    else Returns (Split bestAxis medianCentroid object_median).

(** One entry of [binCounts] together with the same entry of [binBounds]. *)
Definition Bin : Type := (Z * Bounds)%type.

(** The loop that resets the bins in use.  [binBounds] holds [maxBins]
    entries (the constructor and [setAdaptiveBinConfig] keep it so); the
    reset of an entry beyond them reads [min] of [undefined]. *)
Definition resetBins (this : BVHBuilder) (currentBinCount : Z) : Result (list Bin) :=
  if (Z.max 0 (maxBins this) <? currentBinCount)%Z then Throws TypeError
  else Returns (repeat (0%Z, emptyBounds) (Z.to_nat currentBinCount)).

(** The entry that the number [binIndex] selects, if it is an index of the
    array. *)
Definition binAt (bins : list Bin) (binIndex : F64.float) : option (nat * Bin) :=
  match F64.toZ binIndex with
  | Some k =>
      if (0 <=? k)%Z
      then option_map (fun b => (Z.to_nat k, b)) (nth_error bins (Z.to_nat k))
      else None
  | None => None
  end.

Fixpoint setBin (bins : list Bin) (k : nat) (b : Bin) : list Bin :=
  match bins, k with
  | [], _ => []
  | _ :: rest, O => b :: rest
  | b0 :: rest, S k' => b0 :: setBin rest k' b
  end.

(** The body of the loop that places the triangles into bins.  When
    [binIndex] is no index of the arrays, [binCounts[binIndex]++] only sets a
    property, and [expandBounds] then reads [min] of [undefined]. *)
Definition placeTriangle (axis : Z) (minCentroid binScale : F64.float) (currentBinCount : Z)
           (bins : list Bin) (triInfo : TriangleInfo) : Result (list Bin) :=
  let c := Vec.component (centroid triInfo) axis in
  let binIndex := F64.Math_floor (F64.mul (F64.sub c minCentroid) binScale) in
  let binIndex := F64.Math_min binIndex (F64.ofZ (currentBinCount - 1)) in
  match binAt bins binIndex with
  | Some (k, (count, b)) => Returns (setBin bins k ((count + 1)%Z, expandBounds b (bounds triInfo)))
  | None => Throws TypeError
  end.

(** The count and box of a run of bins: the inner loops over [j]. *)
Definition accumulateBins (bins : list Bin) : Z * Bounds :=
  fold_left
    (fun '(count, b) '(binCount, binBound) =>
       if (0 <? binCount)%Z then ((count + binCount)%Z, expandBounds b binBound) else (count, b))
    bins (0%Z, emptyBounds).

(** [bestCost], [bestAxis], [bestPos] *)
Definition Best : Type := (F64.float * Z * F64.float)%type.

(** The body of the loop over the candidate planes [i]. *)
Definition evaluatePlane (this : BVHBuilder) (parentSA leafCost : F64.float) (axis : Z)
           (minCentroid maxCentroid : F64.float) (currentBinCount : Z) (bins : list Bin)
           (best : Best) (i : nat) : Best :=
  let '(bestCost, bestAxis, bestPos) := best in
  let '(leftCount, leftBounds) := accumulateBins (firstn i bins) in
  let '(rightCount, rightBounds) := accumulateBins (skipn i bins) in
  if (leftCount =? 0)%Z || (rightCount =? 0)%Z then best
  else
    let leftSA := computeSurfaceAreaFromBounds (bmin leftBounds) (bmax leftBounds) in
    let rightSA := computeSurfaceAreaFromBounds (bmin rightBounds) (bmax rightBounds) in
    let cost :=
      F64.add
        (F64.add (traversalCost this)
           (F64.mul (F64.mul (F64.div leftSA parentSA) (F64.ofZ leftCount)) (intersectionCost this)))
        (F64.mul (F64.mul (F64.div rightSA parentSA) (F64.ofZ rightCount)) (intersectionCost this)) in
    if F64.ltb cost bestCost && F64.ltb cost leafCost
    then (cost, axis,
          F64.add minCentroid
            (F64.div (F64.mul (F64.sub maxCentroid minCentroid) (F64.ofNat i))
                     (F64.ofZ currentBinCount)))
    else best.

(** The body of the loop over the three axes. *)
Definition evaluateAxis (this : BVHBuilder) (triangleInfos : list TriangleInfo)
           (parentSA leafCost : F64.float) (currentBinCount : Z) (best : Best) (axis : Z)
  : Result Best :=
  let '(minCentroid, maxCentroid) := centroidRange triangleInfos axis in
  if F64.ltb (F64.sub maxCentroid minCentroid) F64.lit_1e_6 then Returns best
  else
    bins <- resetBins this currentBinCount ;;
    let binScale := F64.div (F64.ofZ currentBinCount) (F64.sub maxCentroid minCentroid) in
    bins <- foldM (placeTriangle axis minCentroid binScale currentBinCount) triangleInfos bins ;;
    Returns
      (fold_left
         (evaluatePlane this parentSA leafCost axis minCentroid maxCentroid currentBinCount bins)
         (seq 1 (Z.to_nat currentBinCount - 1)) best).

Definition findBestSplitPositionSAH (this : BVHBuilder) (triangleInfos : list TriangleInfo)
           (parentNode : CWBVHNode) : Result SplitInfo :=
  let parentSA := computeSurfaceAreaFromBounds (boundsMin parentNode) (boundsMax parentNode) in
  let leafCost := F64.mul (intersectionCost this) (F64.ofNat (length triangleInfos)) in
  let currentBinCount := getOptimalBinCount this (length triangleInfos) in
  '(bestCost, bestAxis, bestPos) <-
    foldM (evaluateAxis this triangleInfos parentSA leafCost currentBinCount)
          [0; 1; 2]%Z (F64.infinity, (-1)%Z, F64.zero) ;;
  if (bestAxis =? -1)%Z then
    if enableObjectMedianFallback this then findObjectMedianSplit this triangleInfos
    else if enableSpatialMedianFallback this then Returns (findSpatialMedianSplit triangleInfos)
    else Returns (NoSplit fallbacks_disabled)
  else Returns (Split bestAxis bestPos SAH).

(* ================================================================= *)
(** ** The recursive builder *)

(** The body of the loop of [partitionTrianglesOptimized]. *)
Definition partitionStep (axis : Z) (splitPos : F64.float)
           (temp : list TriangleInfo * list TriangleInfo) (triInfo : TriangleInfo)
  : Result (list TriangleInfo * list TriangleInfo) :=
  let '(tempLeftTris, tempRightTris) := temp in
  c <- Vec.getComponent (centroid triInfo) axis ;;
  if F64.leb c splitPos
  then Returns (tempLeftTris ++ [triInfo], tempRightTris)
  else Returns (tempLeftTris, tempRightTris ++ [triInfo]).

(** [partitionTrianglesOptimized]: the two temporary arrays are emptied,
    filled in input order and copied, so the result is a pair of fresh
    arrays. *)
Definition partitionTrianglesOptimized (triangleInfos : list TriangleInfo) (axis : Z)
           (splitPos : F64.float) : Result (list TriangleInfo * list TriangleInfo) :=
  foldM (partitionStep axis splitPos) triangleInfos ([], []).

(** The test [centroid <= splitPos] of that loop, on an axis 0, 1 or 2. *)
Definition goesLeft (axis : Z) (splitPos : F64.float) (t : TriangleInfo) : bool :=
  F64.leb (Vec.component (centroid t) axis) splitPos.

(** [updateNodeBoundsOptimized]: the box of the boxes of the triangles. *)
Definition updateNodeBoundsOptimized (triangleInfos : list TriangleInfo) : Vector3 * Vector3 :=
  fold_left
    (fun '(lo, hi) triInfo => (Vec.min lo (bmin (bounds triInfo)), Vec.max hi (bmax (bounds triInfo))))
    triangleInfos (Vec.all_inf, Vec.all_neg_inf).

(** The node of a call once its bounds are set: no children, offset and
    count 0. *)
Definition freshNode (triangleInfos : list TriangleInfo) : CWBVHNode :=
  {| boundsMin := fst (updateNodeBoundsOptimized triangleInfos);
     boundsMax := snd (updateNodeBoundsOptimized triangleInfos);
     leftChild := None; rightChild := None;
     triangleOffset := 0; triangleCount := 0 |}.

(** The three places that turn the node into a leaf: offset and count are
    set and the triangles are pushed in the order of [triangleInfos]. *)
Definition emitLeaf (node : CWBVHNode) (triangleInfos : list TriangleInfo)
           (reorderedTriangles : list Triangle) : CWBVHNode * list Triangle :=
  ({| boundsMin := boundsMin node; boundsMax := boundsMax node;
      leftChild := leftChild node; rightChild := rightChild node;
      triangleOffset := length reorderedTriangles;
      triangleCount := length triangleInfos |},
   reorderedTriangles ++ map triangle triangleInfos).

(** [buildNodeRecursive].  [depth] is an integer that the function reads
    through [depth <= 0] and [depth - 1] only; the embedding recurses on the
    natural number [max(depth, 0)], so [0] is the case [depth <= 0].  The
    array [reorderedTriangles] that the calls push to is passed in and
    returned. *)
Fixpoint buildNodeRecursive (this : BVHBuilder) (depth : nat) (triangleInfos : list TriangleInfo)
         (reorderedTriangles : list Triangle) : Result (CWBVHNode * list Triangle) :=
  let node := freshNode triangleInfos in
  match depth with
  | O => Returns (emitLeaf node triangleInfos reorderedTriangles)
  | S depth' =>
      if (Z.of_nat (length triangleInfos) <=? maxLeafSize this)%Z
      then Returns (emitLeaf node triangleInfos reorderedTriangles)
      else
        splitInfo <- findBestSplitPositionSAH this triangleInfos node ;;
        match splitInfo with
        | NoSplit _ => Returns (emitLeaf node triangleInfos reorderedTriangles)
        | Split axis pos _ =>
            '(leftTris, rightTris) <- partitionTrianglesOptimized triangleInfos axis pos ;;
            if (length leftTris =? 0)%nat || (length rightTris =? 0)%nat
            then Returns (emitLeaf node triangleInfos reorderedTriangles)
            else
              '(leftNode, reorderedTriangles) <-
                buildNodeRecursive this depth' leftTris reorderedTriangles ;;
              '(rightNode, reorderedTriangles) <-
                buildNodeRecursive this depth' rightTris reorderedTriangles ;;
              Returns
                ({| boundsMin := boundsMin node; boundsMax := boundsMax node;
                    leftChild := Some leftNode; rightChild := Some rightNode;
                    triangleOffset := triangleOffset node;
                    triangleCount := triangleCount node |},
                 reorderedTriangles)
        end
  end.

(** [triangles.map((tri, index) => new TriangleInfo(tri, index))] *)
Definition toTriangleInfos (triangles : list Triangle) : list TriangleInfo :=
  map (fun '(i, tri) => newTriangleInfo tri i) (combine (seq 0 (length triangles)) triangles).

(** The first half of [buildSync]: the triangle infos in the order in which
    the root call receives them. *)
Definition presortedInfos (this : BVHBuilder) (triangles : list Triangle) : list TriangleInfo :=
  let triangleInfos := toTriangleInfos triangles in
  if (50000 <? Z.of_nat (length triangleInfos))%Z
  then recursiveMortonCluster this triangleInfos 10000%Z
  else sortTrianglesByMortonCode this triangleInfos.

(** [buildSync(triangles, depth, reorderedTriangles)]: the root and the
    array [reorderedTriangles] after the build. *)
Definition buildSync (this : BVHBuilder) (triangles : list Triangle) (depth : Z)
           (reorderedTriangles : list Triangle) : Result (CWBVHNode * list Triangle) :=
  buildNodeRecursive this (Z.to_nat depth) (presortedInfos this triangles) reorderedTriangles.

(* ================================================================= *)
(** ** The orchestrator *)

(** What [e.data] of a worker message holds, as [build] reads it: a truthy
    [error], a [progress], or the root with the reordered triangles. *)
Inductive WorkerMessage : Type :=
| MsgError (error : String.string)
| MsgProgress (progress : Z)
| MsgDone (bvhRoot : CWBVHNode) (newTriangles : list Triangle).

(** What reaches the two handlers of the worker. *)
Inductive WorkerEvent : Type :=
| OnMessage (data : WorkerMessage)
| OnError (error : String.string).

(** The three statements of the [try] block: [new Worker] may throw,
    [postMessage] may throw, otherwise the worker runs and its events are
    delivered in order. *)
Inductive WorkerStart : Type :=
| ConstructorThrows (error : String.string)
| PostMessageThrows (error : String.string)
| Started (events : list WorkerEvent).

(** The host of the builder: whether [typeof Worker !== 'undefined'], and
    what starting a worker on [{ triangles, depth, reportProgress }] does. *)
Record Host : Type := {
  hasWorker : bool;
  startWorker : list Triangle -> Z -> bool -> WorkerStart
}.

Inductive Rejection : Type :=
| WorkerFailed (error : String.string)   (* [reject(new Error(error))], [reject(error)] *)
| Thrown (e : JSError).                  (* an exception inside the executor *)

Inductive PromiseState : Type :=
| Fulfilled (root : CWBVHNode)
| Rejected (reason : Rejection)
| Pending.

(** The handlers run on the events until one settles the promise and
    terminates the worker.  A progress message settles nothing: with a
    callback it is forwarded, without one the handler stops at
    [newTriangles.length] of [undefined].  The completion message rewrites
    the caller's array with [newTriangles]. *)
Fixpoint deliver (events : list WorkerEvent) (triangles : list Triangle)
  : PromiseState * list Triangle :=
  match events with
  | [] => (Pending, triangles)
  | OnError error :: _ => (Rejected (WorkerFailed error), triangles)
  | OnMessage (MsgError error) :: _ => (Rejected (WorkerFailed error), triangles)
  | OnMessage (MsgProgress _) :: rest => deliver rest triangles
  | OnMessage (MsgDone bvhRoot newTriangles) :: _ => (Fulfilled bvhRoot, newTriangles)
  end.

(** [build(triangles, depth, progressCallback)]: the promise it returns and
    the caller's array [triangles] afterwards; [Throws] is an exception that
    leaves [build] itself.  Both synchronous branches call [buildSync] with
    a fresh [[]] for [reorderedTriangles] and keep the root only. *)
Definition build (host : Host) (this : BVHBuilder) (triangles : list Triangle) (depth : Z)
           (reportProgress : bool) : Result (PromiseState * list Triangle) :=
  if useWorker this && hasWorker host then
    match startWorker host triangles depth reportProgress with
    | Started events => Returns (deliver events triangles)
    | ConstructorThrows _ | PostMessageThrows _ =>
        match buildSync this triangles depth [] with
        | Returns (root, _) => Returns (Fulfilled root, triangles)
        | Throws e => Returns (Rejected (Thrown e), triangles)
        end
    end
  else
    '(root, _) <- buildSync this triangles depth [] ;;
    Returns (Fulfilled root, triangles).

Module WorkerText.
Import String.
Definition buildFailed : string := "build failed"%string.
Definition creationFailed : string := "worker creation failed"%string.
End WorkerText.

(** Modelled from the spec: [Workers/BVHWorker.js], the script of the
    worker, is not among the sources.  The spec has it run the same pipeline
    on its copy of the input and post a completion message carrying the root
    node and the reordered triangle order, or an error message. *)
Definition specWorker (this : BVHBuilder) (triangles : list Triangle) (depth : Z)
           (reportProgress : bool) : WorkerStart :=
  match buildSync this triangles depth [] with
  | Returns (root, reordered) => Started [OnMessage (MsgDone root reordered)]
  | Throws _ => Started [OnMessage (MsgError WorkerText.buildFailed)]
  end.

(* ================================================================= *)
(** ** Reading a tree *)

(** A leaf has no child; an internal node has both. *)
Definition isLeaf (n : CWBVHNode) : bool :=
  match leftChild n, rightChild n with
  | None, None => true
  | _, _ => false
  end.

Definition isInternal (n : CWBVHNode) : bool :=
  match leftChild n, rightChild n with
  | Some _, Some _ => true
  | _, _ => false
  end.

(** Every node of the tree, parents first. *)
Fixpoint nodes (n : CWBVHNode) : list CWBVHNode :=
  match n with
  | mkNode _ _ l r _ _ =>
      n :: match l with Some a => nodes a | None => [] end
        ++ match r with Some b => nodes b | None => [] end
  end.

(** The leaves from left to right. *)
Definition leaves (n : CWBVHNode) : list CWBVHNode := filter isLeaf (nodes n).

(** [[triangleOffset, triangleOffset + triangleCount)] *)
Definition leafRange (n : CWBVHNode) : nat * nat := (triangleOffset n, triangleCount n).

Definition inRange (i : nat) (range : nat * nat) : bool :=
  (fst range <=? i)%nat && (i <? fst range + snd range)%nat.

(** The number of leaf ranges that hold the position [i]. *)
Definition coverage (root : CWBVHNode) (i : nat) : nat :=
  length (filter (inRange i) (map leafRange (leaves root))).

(** The ranges follow one another from [lo] to [hi] without a gap. *)
Fixpoint tiles (lo hi : nat) (ranges : list (nat * nat)) : Prop :=
  match ranges with
  | [] => lo = hi
  | (offset, count) :: rest => offset = lo /\ tiles (lo + count) hi rest
  end.

(** The entries of the array that a leaf refers to. *)
Definition leafSlice {A : Type} (n : CWBVHNode) (a : list A) : list A :=
  firstn (triangleCount n) (skipn (triangleOffset n) a).

(** The calls of [buildNodeRecursive] that emit a leaf, from left to right,
    each with its remaining depth and its triangles: the recursion of
    [buildNodeRecursive] with the nodes left out. *)
Fixpoint leafCalls (this : BVHBuilder) (depth : nat) (triangleInfos : list TriangleInfo)
  : Result (list (nat * list TriangleInfo)) :=
  match depth with
  | O => Returns [(depth, triangleInfos)]
  | S depth' =>
      if (Z.of_nat (length triangleInfos) <=? maxLeafSize this)%Z
      then Returns [(depth, triangleInfos)]
      else
        splitInfo <- findBestSplitPositionSAH this triangleInfos (freshNode triangleInfos) ;;
        match splitInfo with
        | NoSplit _ => Returns [(depth, triangleInfos)]
        | Split axis pos _ =>
            '(leftTris, rightTris) <- partitionTrianglesOptimized triangleInfos axis pos ;;
            if (length leftTris =? 0)%nat || (length rightTris =? 0)%nat
            then Returns [(depth, triangleInfos)]
            else
              leftCalls <- leafCalls this depth' leftTris ;;
              rightCalls <- leafCalls this depth' rightTris ;;
              Returns (leftCalls ++ rightCalls)
        end
  end.

(** The split selector reports failure on the triangles, or the partition
    at the position it chose leaves one side empty. *)
Definition splitAbandoned (this : BVHBuilder) (triangleInfos : list TriangleInfo) : Prop :=
  (exists method,
      findBestSplitPositionSAH this triangleInfos (freshNode triangleInfos)
      = Returns (NoSplit method))
  \/ (exists axis pos method leftTris rightTris,
         findBestSplitPositionSAH this triangleInfos (freshNode triangleInfos)
         = Returns (Split axis pos method)
         /\ partitionTrianglesOptimized triangleInfos axis pos = Returns (leftTris, rightTris)
         /\ (leftTris = [] \/ rightTris = [])).

(** The reason a call emits a leaf instead of recursing. *)
Definition leafReason (this : BVHBuilder) (depth : nat) (triangleInfos : list TriangleInfo) : Prop :=
  depth = O
  \/ (Z.of_nat (length triangleInfos) <= maxLeafSize this)%Z
  \/ splitAbandoned this triangleInfos.

(** The node of an internal call: the bounds of the call and the two
    children. *)
Definition splitNode (triangleInfos : list TriangleInfo) (leftNode rightNode : CWBVHNode)
  : CWBVHNode :=
  {| boundsMin := boundsMin (freshNode triangleInfos);
     boundsMax := boundsMax (freshNode triangleInfos);
     leftChild := Some leftNode; rightChild := Some rightNode;
     triangleOffset := 0; triangleCount := 0 |}.

(** The calls of [buildNodeRecursive] that return, by the path they take. *)
Inductive Built (this : BVHBuilder)
  : nat -> list TriangleInfo -> list Triangle -> CWBVHNode -> list Triangle -> Prop :=
| Built_leaf : forall depth triangleInfos r,
    leafReason this depth triangleInfos ->
    Built this depth triangleInfos r
          (fst (emitLeaf (freshNode triangleInfos) triangleInfos r))
          (snd (emitLeaf (freshNode triangleInfos) triangleInfos r))
| Built_split : forall depth triangleInfos r axis pos method leftTris rightTris
                       leftNode r1 rightNode r2,
    (maxLeafSize this < Z.of_nat (length triangleInfos))%Z ->
    findBestSplitPositionSAH this triangleInfos (freshNode triangleInfos)
    = Returns (Split axis pos method) ->
    partitionTrianglesOptimized triangleInfos axis pos = Returns (leftTris, rightTris) ->
    leftTris <> [] ->
    rightTris <> [] ->
    buildNodeRecursive this depth leftTris r = Returns (leftNode, r1) ->
    Built this depth leftTris r leftNode r1 ->
    buildNodeRecursive this depth rightTris r1 = Returns (rightNode, r2) ->
    Built this depth rightTris r1 rightNode r2 ->
    Built this (S depth) triangleInfos r (splitNode triangleInfos leftNode rightNode) r2.

(* ================================================================= *)
(** ** Vocabulary of the properties *)

(** The place of a number in the lexicographic order of triples of
    integers: the order of the numbers, with -0 below +0; [nanRank] is the
    first component of NaN. *)
Definition rank (nanRank : Z) (a : F64.float) : Z * Z * Z :=
  match a with
  | S754_nan => (nanRank, 0, 0)
  | S754_infinity true => (-3, 0, 0)
  | S754_finite true m e => (-2, - e, Zneg m)
  | S754_zero true => (-1, 0, 0)
  | S754_zero false => (0, 0, 0)
  | S754_finite false m e => (1, e, Zpos m)
  | S754_infinity false => (2, 0, 0)
  end%Z.

(** The lexicographic order of the triples. *)
Definition below (u v : Z * Z * Z) : bool :=
  let '(u1, u2, u3) := u in
  let '(v1, v2, v3) := v in
  ((u1 <? v1) || ((u1 =? v1) && ((u2 <? v2) || ((u2 =? v2) && (u3 <? v3)))))%Z.

Definition flip3 (u : Z * Z * Z) : Z * Z * Z :=
  let '(u1, u2, u3) := u in (- u1, - u2, - u3)%Z.

(** Of two values, the one of lower rank under [key]; the first on a tie. *)
Definition lowest {A : Type} (key : A -> Z * Z * Z) (a b : A) : A :=
  if below (key b) (key a) then b else a.

(** The component-wise union of two boxes [(min, max)]. *)
Definition unionBox (a b : Vector3 * Vector3) : Vector3 * Vector3 :=
  (Vec.min (fst a) (fst b), Vec.max (snd a) (snd b)).

Definition emptyBox : Vector3 * Vector3 := (Vec.all_inf, Vec.all_neg_inf).

Definition boxOf (t : TriangleInfo) : Vector3 * Vector3 := (bmin (bounds t), bmax (bounds t)).

(** The loop of [updateNodeBoundsOptimized] joins the boxes of the
    triangles. *)
Definition joinBoxes (infos : list TriangleInfo) : Vector3 * Vector3 :=
  fold_left (fun acc t => unionBox acc (boxOf t)) infos emptyBox.

(** Both children are present and the box of the node is the union of
    theirs. *)
Definition unionOfChildren (n : CWBVHNode) : Prop :=
  forall l r,
    leftChild n = Some l ->
    rightChild n = Some r ->
    boundsMin n = Vec.min (boundsMin l) (boundsMin r)
    /\ boundsMax n = Vec.max (boundsMax l) (boundsMax r).

(** The number of triangles below a node: the counts of its leaves. *)
Definition triangleTotal (n : CWBVHNode) : nat :=
  fold_right (fun leaf total => (triangleCount leaf + total)%nat) 0%nat (leaves n).

(** The array agrees with the leaf ranges of a tree built by the calls
    [calls]: the entries of every range are the triangles that the call of
    that leaf was given, in its order. *)
Definition matchesLeaves (root : CWBVHNode) (calls : list (nat * list TriangleInfo))
           (a : list Triangle) : Prop :=
  Forall2 (fun leaf call => leafSlice leaf a = map triangle (snd call)) (leaves root) calls.



Definition finiteVector (v : Vector3) : bool :=
  F64.is_finite (x v) && F64.is_finite (y v) && F64.is_finite (z v).

(** Every coordinate of every vertex is a finite number. *)
Definition finiteCoordinates (triangles : list Triangle) : bool :=
  forallb (fun t => finiteVector (posA t) && finiteVector (posB t) && finiteVector (posC t))
          triangles.

(** The key that the spec describes for [bits] bits per axis: bit [i] of x,
    y and z becomes bit [3i], [3i + 1] and [3i + 2] of the key. *)
Fixpoint interleave3 (bits : nat) (x y z : Z) : Z :=
  match bits with
  | O => 0
  | S b =>
      interleave3 b x y z
      + Z.b2z (Z.testbit x (Z.of_nat b)) * 2 ^ (3 * Z.of_nat b)
      + Z.b2z (Z.testbit y (Z.of_nat b)) * 2 ^ (3 * Z.of_nat b + 1)
      + Z.b2z (Z.testbit z (Z.of_nat b)) * 2 ^ (3 * Z.of_nat b + 2)
  end%Z.

(** Inputs of the examples. *)
Module Examples.

Definition vec (a b c : Z) : Vector3 := mkVector3 (F64.ofZ a) (F64.ofZ b) (F64.ofZ c).

(** A triangle whose centroid is [(cx, 1/3, 1/3)]. *)
Definition triAt (cx : Z) : Triangle :=
  mkTriangle (vec (cx - 1) 0 0) (vec (cx + 1) 1 0) (vec cx 0 1).

(** Ten triangles with centroids 0, 1, ..., 9 on the x axis. *)
Definition evenTen : list Triangle := map triAt [0; 1; 2; 3; 4; 5; 6; 7; 8; 9]%Z.

(** A triangle with one coordinate NaN. *)
Definition triNaN : Triangle :=
  mkTriangle (mkVector3 F64.nan F64.zero F64.zero) (vec 1 1 0) (vec 0 0 1).

(** Nine copies of one triangle. *)
Definition nineSame : list Triangle := repeat (triAt 5) 9.

(** Ten triangles with centroids 9, 8, ..., 0 on the x axis. *)
Definition descendingTen : list Triangle :=
  map triAt [9; 8; 7; 6; 5; 4; 3; 2; 1; 0]%Z.

(** Ten triangles with centroids 0, 1, ..., 8 and 1000 on the x axis. *)
Definition outlierTen : list Triangle :=
  map triAt [0; 1; 2; 3; 4; 5; 6; 7; 8; 1000]%Z.

(** A triangle of extent 2^-60 whose centroid has x = k * 2^-60. *)
Definition tinyAt (k : Z) : Triangle :=
  let c := F64.div (F64.ofZ k) (F64.ofZ (2 ^ 60)) in
  let e := F64.div (F64.ofZ 1) (F64.ofZ (2 ^ 60)) in
  mkTriangle (mkVector3 c F64.zero F64.zero) (mkVector3 c e F64.zero) (mkVector3 c F64.zero e).

Definition tinyTen : list Triangle := map tinyAt [1; 2; 3; 4; 5; 6; 7; 8; 9; 10]%Z.

(** 2^1023, a finite number whose double overflows. *)
Definition huge : F64.float := S754_finite false 4503599627370496 971.

(** A triangle with x = 2^1023 at its three vertices, and eight ordinary
    triangles. *)
Definition hugeTriangle : Triangle :=
  mkTriangle (mkVector3 huge F64.zero F64.zero) (mkVector3 huge F64.lit_1 F64.zero)
             (mkVector3 huge F64.zero F64.lit_1).

Definition overflowNine : list Triangle :=
  hugeTriangle :: map triAt [0; 1; 2; 3; 4; 5; 6; 7]%Z.

(** A host without [Worker]. *)
Definition noWorkerHost : Host :=
  {| hasWorker := false; startWorker := fun _ _ _ => Started [] |}.

(** A host whose [Worker] constructor throws. *)
Definition brokenWorkerHost : Host :=
  {| hasWorker := true;
     startWorker := fun _ _ _ => ConstructorThrows WorkerText.creationFailed |}.

(** A builder configured by [setMortonConfig({ threshold: 16 })], and
    sixteen triangles with centroids 15, ..., 0 on the x axis. *)
Definition sixteenThreshold : BVHBuilder :=
  setMortonConfig newBVHBuilder
    {| cfg_enabled := None; cfg_bits := None; cfg_threshold := Some 16%Z |}.

Definition descendingSixteen : list Triangle :=
  map triAt [15; 14; 13; 12; 11; 10; 9; 8; 7; 6; 5; 4; 3; 2; 1; 0]%Z.

(** A builder configured by [setMortonConfig({ bits: 11 })]. *)
Definition elevenBits : BVHBuilder :=
  setMortonConfig newBVHBuilder
    {| cfg_enabled := None; cfg_bits := Some 11%Z; cfg_threshold := None |}.

End Examples.

(* ================================================================= *)
(** ** Further methods and vocabulary *)

(** The number of edges on the longest path from a node down to a leaf. *)
Fixpoint height (n : CWBVHNode) : nat :=
  match n with
  | mkNode _ _ l r _ _ =>
      match l, r with
      | None, None => 0%nat
      | _, _ =>
          S (Nat.max (match l with Some a => height a | None => 0%nat end)
                     (match r with Some b => height b | None => 0%nat end))
      end
  end.

(** The leaf that a call emits for no triangles, with [offset] entries
    already in [reorderedTriangles]: the box is the one that
    [updateNodeBoundsOptimized] sets before its loop. *)
Definition emptyLeaf (offset : nat) : CWBVHNode :=
  {| boundsMin := Vec.all_inf; boundsMax := Vec.all_neg_inf;
     leftChild := None; rightChild := None;
     triangleOffset := offset; triangleCount := 0 |}.

(** ** Legacy methods *)

(** [Math.min(a, b, c, d)] and [Math.max(a, b, c, d)] *)
Definition Math_min4 (a b c d : F64.float) : F64.float :=
  F64.Math_min (F64.Math_min (F64.Math_min a b) c) d.
Definition Math_max4 (a b c d : F64.float) : F64.float :=
  F64.Math_max (F64.Math_max (F64.Math_max a b) c) d.

(** The body of the loop of [computeBounds]: one coordinate at a time. *)
Definition computeBoundsStep (bounds : Bounds) (tri : Triangle) : Bounds :=
  {| bmin :=
       mkVector3
         (Math_min4 (x (bmin bounds)) (x (posA tri)) (x (posB tri)) (x (posC tri)))
         (Math_min4 (y (bmin bounds)) (y (posA tri)) (y (posB tri)) (y (posC tri)))
         (Math_min4 (z (bmin bounds)) (z (posA tri)) (z (posB tri)) (z (posC tri)));
     bmax :=
       mkVector3
         (Math_max4 (x (bmax bounds)) (x (posA tri)) (x (posB tri)) (x (posC tri)))
         (Math_max4 (y (bmax bounds)) (y (posA tri)) (y (posB tri)) (y (posC tri)))
         (Math_max4 (z (bmax bounds)) (z (posA tri)) (z (posB tri)) (z (posC tri))) |}.

(** [computeBounds(triangles)] *)
Definition computeBounds (triangles : list Triangle) : Bounds :=
  fold_left computeBoundsStep triangles (mkBounds Vec.all_inf Vec.all_neg_inf).

(** [computeSurfaceArea(bounds)] *)
Definition computeSurfaceArea (bounds : Bounds) : F64.float :=
  let dx := F64.sub (x (bmax bounds)) (x (bmin bounds)) in
  let dy := F64.sub (y (bmax bounds)) (y (bmin bounds)) in
  let dz := F64.sub (z (bmax bounds)) (z (bmin bounds)) in
  F64.mul F64.lit_2 (F64.add (F64.add (F64.mul dx dy) (F64.mul dy dz)) (F64.mul dz dx)).

(** The box that [new TriangleInfo] computes for a triangle. *)
Definition triangleBox (t : Triangle) : Vector3 * Vector3 := boxOf (newTriangleInfo t 0).

(** The centroid and the box of a triangle info are the ones its
    constructor computed from its triangle. *)
Definition asConstructed (t : TriangleInfo) : Prop :=
  centroid t = centroid (newTriangleInfo (triangle t) 0)
  /\ bounds t = bounds (newTriangleInfo (triangle t) 0).

(** The offset of the leftmost leaf below a node. *)
Fixpoint firstOffset (n : CWBVHNode) : nat :=
  match n with
  | mkNode _ _ l _ offset _ =>
      match l with Some a => firstOffset a | None => offset end
  end.

(** The entries of the array that the leaves below a node refer to. *)
Definition subtreeSlice {A : Type} (n : CWBVHNode) (a : list A) : list A :=
  firstn (triangleTotal n) (skipn (firstOffset n) a).

(** The box of a node as a [{ min, max }] object. *)
Definition nodeBounds (n : CWBVHNode) : Bounds := mkBounds (boundsMin n) (boundsMax n).

(** ** Sequences of configuration calls *)

Inductive ConfigCall : Type :=
| AdaptiveBinCall (config : AdaptiveBinConfig)
| MortonCall (config : MortonConfig)
| FallbackCall (config : FallbackConfig).

Definition configure (this : BVHBuilder) (call : ConfigCall) : BVHBuilder :=
  match call with
  | AdaptiveBinCall config => setAdaptiveBinConfig this config
  | MortonCall config => setMortonConfig this config
  | FallbackCall config => setFallbackConfig this config
  end.

(** A new builder after the calls, in order. *)
Definition configured (calls : list ConfigCall) : BVHBuilder :=
  fold_left configure calls newBVHBuilder.

(** A host whose worker posts the given events. *)
Definition scriptedHost (events : list WorkerEvent) : Host :=
  {| hasWorker := true; startWorker := fun _ _ _ => Started events |}.

(** The SAH pass bins the axis: the spread of the centroids on it is not
    below [1e-6]. *)
Definition binsAxis (triangleInfos : list TriangleInfo) (axis : Z) : bool :=
  negb (F64.ltb (F64.sub (snd (centroidRange triangleInfos axis))
                         (fst (centroidRange triangleInfos axis))) F64.lit_1e_6).

(** ** The order that the presort produces *)

(** [u] comes before [v]: a smaller key, or the same key and a smaller
    index. *)
Definition keyThenIndex {A : Type} (key : A -> Z) (idx : A -> nat) (u v : A) : Prop :=
  (key u < key v)%Z \/ (key u = key v /\ (idx u < idx v)%nat).

(** The same for triangle infos: by Morton code, then by the position in the
    input. *)
Definition codeThenIndex (u v : TriangleInfo) : Prop := keyThenIndex mortonCode index u v.

(** The coarse key of the first pass of [recursiveMortonCluster]. *)
Definition coarseKey (this : BVHBuilder) (triangleInfos : list TriangleInfo) (t : TriangleInfo)
  : Z :=
  mortonCodeAt (Z.max 6 (mortonBits this - 2)) (centroid t)
               (fst (sceneBounds triangleInfos)) (snd (sceneBounds triangleInfos)).

(** The members of [triangleInfos] with the coarse key [key], in input
    order. *)
Definition withCoarseKey (this : BVHBuilder) (triangleInfos : list TriangleInfo) (key : Z)
  : list TriangleInfo :=
  filter (fun t => (coarseKey this triangleInfos t =? key)%Z) triangleInfos.

(** ** Progress reports *)

(** The counters of the builder that [updateProgress] reads and writes.
    The two triangle counts are sums of array lengths. *)
Record ProgressState : Type := {
  processedTriangles : nat;
  totalTriangles : nat;
  lastProgressUpdate : F64.float;
  progressUpdateInterval : F64.float
}.

(** [updateProgress(trianglesProcessed, progressCallback)]: the counters
    afterwards and the value passed to the callback, if it is called.
    [hasCallback] says that [progressCallback] is truthy and [now] is what
    [performance.now()] returns. *)
Definition updateProgress (this : ProgressState) (trianglesProcessed : nat) (hasCallback : bool)
           (now : F64.float) : ProgressState * option F64.float :=
  if negb hasCallback then (this, None)
  else
    let processed := (processedTriangles this + trianglesProcessed)%nat in
    if F64.ltb (F64.sub now (lastProgressUpdate this)) (progressUpdateInterval this)
    then ({| processedTriangles := processed;
             totalTriangles := totalTriangles this;
             lastProgressUpdate := lastProgressUpdate this;
             progressUpdateInterval := progressUpdateInterval this |}, None)
    else
      ({| processedTriangles := processed;
          totalTriangles := totalTriangles this;
          lastProgressUpdate := now;
          progressUpdateInterval := progressUpdateInterval this |},
       Some (F64.Math_min
               (F64.Math_floor
                  (F64.mul (F64.div (F64.ofNat processed) (F64.ofNat (totalTriangles this)))
                           (F64.ofZ 100)))
               (F64.ofZ 99))).

(** The tree with [shift] added to the offset of every leaf; the offset of
    an internal node is never set and stays as it is. *)
Fixpoint shiftLeaves (shift : nat) (n : CWBVHNode) : CWBVHNode :=
  match n with
  | mkNode lo hi l r offset count =>
      match l, r with
      | None, None => mkNode lo hi None None (shift + offset) count
      | _, _ =>
          mkNode lo hi
                 (match l with Some a => Some (shiftLeaves shift a) | None => None end)
                 (match r with Some b => Some (shiftLeaves shift b) | None => None end)
                 offset count
      end
  end.

(** What the method of a result says about the configuration: a fallback
    method is named only if that fallback is enabled, and a failure names
    the fallbacks that were not available. *)
Definition methodAllowed (this : BVHBuilder) (splitInfo : SplitInfo) : Prop :=
  match splitInfo with
  | Split _ _ SAH => True
  | Split _ _ object_median => enableObjectMedianFallback this = true
  | Split _ _ spatial_median => enableSpatialMedianFallback this = true
  | Split _ _ _ => False
  | NoSplit fallbacks_disabled =>
      enableObjectMedianFallback this = false /\ enableSpatialMedianFallback this = false
  | NoSplit object_median_failed_no_spatial_fallback
  | NoSplit object_median_degenerate_no_spatial_fallback =>
      enableObjectMedianFallback this = true /\ enableSpatialMedianFallback this = false
  | NoSplit spatial_median_failed
  | NoSplit spatial_median_degenerate => enableSpatialMedianFallback this = true
  | NoSplit _ => False
  end.

(** * The environment CDF

    Source: [src/core/Processor/EnvironmentCDFBuilder.js], the method
    [buildCDFTextureFixed] of class [EnvironmentCDFBuilder] and the static
    methods [checkForInvalidValues], [validateConditionalCDF] and
    [validateMarginalCDF] of class [CDFValidator].

    A [Float32Array] is the list of its elements, each a number that single
    precision represents.  The data of a CDF texture holds four numbers per
    cell: the CDF value, the PDF value, an unused number and alpha.  The
    text of a validation error is represented by its kind and the values
    that the text interpolates. *)

Module Float32Array.

(** The number that a store keeps: the nearest single-precision number,
    ties to even, as a number again. *)
Definition fround (v : F64.float) : F64.float :=
  match v with
  | S754_finite s m e =>
      match binary_normalize 24 128 (cond_Zopp s (Zpos m)) e s with
      | S754_finite s' m' e' => binary_normalize F64.prec F64.emax (cond_Zopp s' (Zpos m')) e' s'
      | rounded => rounded
      end
  | _ => v
  end.

(** [new Float32Array(length)] *)
Definition make (length : nat) : list F64.float := repeat F64.zero length.

(** [a[i]] where the program compares it or computes with it: outside the
    array the element is [undefined], which is NaN as a number. *)
Definition get (a : list F64.float) (i : Z) : F64.float :=
  if (i <? 0)%Z then F64.nan else nth (Z.to_nat i) a F64.nan.

(** The list with the element at the position [i] replaced, if there is
    one. *)
Fixpoint setNth (a : list F64.float) (i : nat) (v : F64.float) : list F64.float :=
  match a, i with
  | [], _ => []
  | _ :: rest, O => v :: rest
  | v0 :: rest, S i' => v0 :: setNth rest i' v
  end.

(** [a[i] = v]; a store outside the array does nothing. *)
Definition set (a : list F64.float) (i : Z) (v : F64.float) : list F64.float :=
  if (i <? 0)%Z then a else setNth a (Z.to_nat i) (fround v).

End Float32Array.

Module CDFValidator.

(** [Math.abs] *)
Definition Math_abs (v : F64.float) : F64.float :=
  match v with
  | S754_zero _ => S754_zero false
  | S754_infinity _ => S754_infinity false
  | S754_nan => S754_nan
  | S754_finite _ m e => S754_finite false m e
  end.

Definition lit_1e_3 : F64.float := Eval vm_compute in F64.div (F64.ofZ 1) (F64.ofZ 1000).
Definition lit_m1e_6 : F64.float := Eval vm_compute in SFopp F64.lit_1e_6.

(** [checkForInvalidValues(data)]: [hasInvalidValues], [nanCount],
    [infCount]. *)
Definition checkForInvalidValues (data : list F64.float) : bool * nat * nat :=
  let '(nanCount, infCount) :=
    fold_left
      (fun '(nanCount, infCount) v =>
         (if F64.is_nan v then S nanCount else nanCount,
          if negb (F64.is_finite v) && negb (F64.is_nan v) then S infCount else infCount))
      data (0%nat, 0%nat) in
  ((0 <? nanCount)%nat || (0 <? infCount)%nat, nanCount, infCount).

Inductive CDFError : Type :=
| NotMonotonic (row col : nat) (cdfValue lastCDF : F64.float)
| OutOfRange (row col : nat) (cdfValue : F64.float)
| NegativePDF (row col : nat) (pdfValue : F64.float)
| FinalNotOne (row : nat) (finalCDF : F64.float).

(** The body of the loop over the columns: [errors] and [lastCDF] after the
    cell [x]. *)
Definition checkCell (data : list F64.float) (cdfSize rowIndex : nat)
           (state : list CDFError * F64.float) (x : nat) : list CDFError * F64.float :=
  let '(errors, lastCDF) := state in
  let idx := ((Z.of_nat rowIndex * Z.of_nat cdfSize + Z.of_nat x) * 4)%Z in
  let cdfValue := Float32Array.get data idx in
  let pdfValue := Float32Array.get data (idx + 1) in
  let errors :=
    if F64.ltb cdfValue (F64.sub lastCDF F64.lit_1e_6)
    then errors ++ [NotMonotonic rowIndex x cdfValue lastCDF] else errors in
  let errors :=
    if F64.ltb cdfValue lit_m1e_6 || F64.gtb cdfValue (F64.add F64.lit_1 F64.lit_1e_6)
    then errors ++ [OutOfRange rowIndex x cdfValue] else errors in
  let errors :=
    if F64.ltb pdfValue lit_m1e_6
    then errors ++ [NegativePDF rowIndex x pdfValue] else errors in
  (errors, cdfValue).

Definition validateConditionalCDF (data : list F64.float) (cdfSize rowIndex : nat)
  : list CDFError :=
  let '(errors, _) :=
    fold_left (checkCell data cdfSize rowIndex) (seq 0 cdfSize) ([], F64.zero) in
  let finalIdx :=
    ((Z.of_nat rowIndex * Z.of_nat cdfSize + (Z.of_nat cdfSize - 1)) * 4)%Z in
  let finalCDF := Float32Array.get data finalIdx in
  if F64.gtb (Math_abs (F64.sub finalCDF F64.lit_1)) lit_1e_3
  then errors ++ [FinalNotOne rowIndex finalCDF] else errors.

Definition validateMarginalCDF (data : list F64.float) (cdfSize : nat) : list CDFError :=
  validateConditionalCDF data cdfSize cdfSize.

(** The numbers that an error names. *)
Definition named (e : CDFError) : list F64.float :=
  match e with
  | NotMonotonic _ _ cdfValue lastCDF => [cdfValue; lastCDF]
  | OutOfRange _ _ cdfValue => [cdfValue]
  | NegativePDF _ _ pdfValue => [pdfValue]
  | FinalNotOne _ finalCDF => [finalCDF]
  end.

End CDFValidator.

Module EnvironmentCDFBuilder.

Definition lit_0_1 : F64.float := Eval vm_compute in F64.div (F64.ofZ 1) (F64.ofZ 10).

(** [Math.floor(i * size / cdfSize)]: the first source row or column of the
    cell [i]. *)
Definition srcStart (i size cdfSize : nat) : F64.float :=
  F64.Math_floor (F64.div (F64.mul (F64.ofNat i) (F64.ofNat size)) (F64.ofNat cdfSize)).

(** [Math.min(Math.floor((i + 1) * size / cdfSize), size)] *)
Definition srcEnd (i size cdfSize : nat) : F64.float :=
  F64.Math_min
    (F64.Math_floor (F64.div (F64.mul (F64.ofNat (i + 1)) (F64.ofNat size)) (F64.ofNat cdfSize)))
    (F64.ofNat size).

(** [Math.max(srcEnd, srcStart + 1)] *)
Definition actualSrcEnd (i size cdfSize : nat) : F64.float :=
  F64.Math_max (srcEnd i size cdfSize) (F64.add (srcStart i size cdfSize) F64.lit_1).

(** The values of [k] in [for (k = lo; k < hi; k++)].  The two bounds come
    from [Math.floor], [Math.min] and [Math.max] on sizes of arrays, which
    are far below 2^53: they are integers, or NaN when [cdfSize] is 0, and
    with a NaN bound the loop does not run. *)
Definition loopRange (lo hi : F64.float) : list Z :=
  match F64.toZ lo, F64.toZ hi with
  | Some a, Some b => map (fun k => (a + Z.of_nat k)%Z) (seq 0 (Z.to_nat (b - a)))
  | _, _ => []
  end.

(** The two loops over the source pixels of a cell: the sum, the count and
    the maximum of their luminance. *)
Definition samplePixels (luminance : list F64.float) (width : nat) (ys xs : list Z)
  : F64.float * nat * F64.float :=
  fold_left
    (fun acc srcY =>
       fold_left
         (fun '(total, count, maxLuminance) srcX =>
            let lum := Float32Array.get luminance (srcY * Z.of_nat width + srcX) in
            (F64.add total lum, S count, F64.Math_max maxLuminance lum))
         xs acc)
    ys (F64.zero, 0%nat, F64.zero).

(** [finalCellValue] of the cell [(cdfX, cdfY)]. *)
Definition cellValue (luminance : list F64.float) (width height cdfSize cdfY cdfX : nat)
  : F64.float :=
  let ys := loopRange (srcStart cdfY height cdfSize) (actualSrcEnd cdfY height cdfSize) in
  let xs := loopRange (srcStart cdfX width cdfSize) (actualSrcEnd cdfX width cdfSize) in
  let '(cellLuminance, cellCount, maxCellLuminance) := samplePixels luminance width ys xs in
  F64.Math_max maxCellLuminance (F64.div cellLuminance (F64.ofNat (Nat.max cellCount 1))).

(** [finalColValue] of the column [cdfX] of the marginal row. *)
Definition columnValue (luminance : list F64.float) (width height cdfSize cdfX : nat)
  : F64.float :=
  let ys := map Z.of_nat (seq 0 height) in
  let xs := loopRange (srcStart cdfX width cdfSize) (actualSrcEnd cdfX width cdfSize) in
  let '(colSum, colCount, maxColLuminance) := samplePixels luminance width ys xs in
  let avgLuminance := F64.div colSum (F64.ofNat (Nat.max colCount 1)) in
  F64.Math_max (F64.mul maxColLuminance lit_0_1) avgLuminance.

(** The loop that fills [rowData] (or [marginalData]) and sums the values:
    the array stores the rounded value, the sum adds the value itself. *)
Definition fillRow (value : nat -> F64.float) (cdfSize : nat) : list F64.float * F64.float :=
  fold_left
    (fun '(rowData, rowSum) cdfX =>
       let v := value cdfX in
       (Float32Array.set rowData (Z.of_nat cdfX) v, F64.add rowSum v))
    (seq 0 cdfSize) (Float32Array.make cdfSize, F64.zero).

(** The minimum threshold: a row whose sum is below it gets at least
    [threshold / cdfSize] in every cell and the threshold as its sum. *)
Definition liftRow (minLuminanceThreshold : F64.float) (cdfSize : nat)
           (row : list F64.float * F64.float) : list F64.float * F64.float :=
  let '(rowData, rowSum) := row in
  if F64.ltb rowSum minLuminanceThreshold then
    let minValue := F64.div minLuminanceThreshold (F64.ofNat cdfSize) in
    (fold_left
       (fun rowData x =>
          Float32Array.set rowData (Z.of_nat x)
            (F64.Math_max (Float32Array.get rowData (Z.of_nat x)) minValue))
       (seq 0 cdfSize) rowData,
     minLuminanceThreshold)
  else row.

(** The body of the loop that builds the CDF of a row from its PDF. *)
Definition writeCell (cdfSize rowY : nat) (rowData : list F64.float) (rowSum : F64.float)
           (state : list F64.float * F64.float) (cdfX : nat) : list F64.float * F64.float :=
  let '(cdfData, cumulativeSum) := state in
  let cumulativeSum := F64.add cumulativeSum (Float32Array.get rowData (Z.of_nat cdfX)) in
  let idx := ((Z.of_nat rowY * Z.of_nat cdfSize + Z.of_nat cdfX) * 4)%Z in
  let cdfData := Float32Array.set cdfData idx (F64.div cumulativeSum rowSum) in
  let cdfData :=
    Float32Array.set cdfData (idx + 1)
                     (F64.div (Float32Array.get rowData (Z.of_nat cdfX)) rowSum) in
  let cdfData := Float32Array.set cdfData (idx + 2) F64.zero in
  let cdfData := Float32Array.set cdfData (idx + 3) F64.lit_1 in
  (cdfData, cumulativeSum).

(** That loop, and the store that makes the last CDF value of the row
    exactly 1. *)
Definition writeRow (cdfSize rowY : nat) (row : list F64.float * F64.float)
           (cdfData : list F64.float) : list F64.float :=
  let '(rowData, rowSum) := row in
  let '(cdfData, _) :=
    fold_left (writeCell cdfSize rowY rowData rowSum) (seq 0 cdfSize) (cdfData, F64.zero) in
  let lastIdx := ((Z.of_nat rowY * Z.of_nat cdfSize + (Z.of_nat cdfSize - 1)) * 4)%Z in
  Float32Array.set cdfData lastIdx F64.lit_1.

(** The body of the loop over the conditional rows. *)
Definition conditionalRow (luminance : list F64.float) (width height cdfSize : nat)
           (minLuminanceThreshold : F64.float) (cdfData : list F64.float) (cdfY : nat)
  : list F64.float :=
  writeRow cdfSize cdfY
           (liftRow minLuminanceThreshold cdfSize
                    (fillRow (cellValue luminance width height cdfSize cdfY) cdfSize))
           cdfData.

(** [buildCDFTextureFixed(luminance, width, height, cdfSize)]: the data of
    the texture and [cdfHeight].  [minLuminanceThreshold] is the option of
    that name.  The counters [emptyRows] and [validRows], the debug record
    and the [DataTexture] around the data are left out. *)
Definition buildCDFTextureFixed (minLuminanceThreshold : F64.float)
           (luminance : list F64.float) (width height cdfSize : nat)
  : list F64.float * nat :=
  let cdfHeight := (cdfSize + 1)%nat in
  let cdfData := Float32Array.make (cdfSize * cdfHeight * 4) in
  let cdfData :=
    fold_left (conditionalRow luminance width height cdfSize minLuminanceThreshold)
              (seq 0 cdfSize) cdfData in
  let marginalY := cdfSize in
  let cdfData :=
    writeRow cdfSize marginalY
             (liftRow minLuminanceThreshold cdfSize
                      (fillRow (columnValue luminance width height cdfSize) cdfSize))
             cdfData in
  (cdfData, cdfHeight).

End EnvironmentCDFBuilder.

(** The index of the CDF value of the cell [(x, row)] in the data. *)
Definition cellIndex (cdfSize row x : nat) : Z :=
  ((Z.of_nat row * Z.of_nat cdfSize + Z.of_nat x) * 4)%Z.

(** The row [row] of the data is complete: every cell is closed and, when
    there is a cell, the CDF value of the last one is 1. *)
Definition rowComplete (data : list F64.float) (cdfSize row : nat) : Prop :=
  (forall x, (x < cdfSize)%nat ->
             Float32Array.get data (cellIndex cdfSize row x + 2) = F64.zero
             /\ Float32Array.get data (cellIndex cdfSize row x + 3) = F64.lit_1)
  /\ ((1 <= cdfSize)%nat ->
      Float32Array.get data (cellIndex cdfSize row (cdfSize - 1)) = F64.lit_1).

(** The cell at [idx] is closed: its unused number is 0 and its alpha is
    1. *)
Definition cellClosed (data : list F64.float) (idx : Z) : Prop :=
  Float32Array.get data (idx + 2) = F64.zero /\ Float32Array.get data (idx + 3) = F64.lit_1.

(** ** Containment *)

(** No coordinate of the vector is NaN. *)
Definition numbers (v : Vector3) : bool :=
  negb (F64.is_nan (x v)) && negb (F64.is_nan (y v)) && negb (F64.is_nan (z v)).

(** No coordinate of a vertex of the triangle is NaN. *)
Definition numericTriangle (t : Triangle) : bool :=
  numbers (posA t) && numbers (posB t) && numbers (posC t).

(** The point lies in the box: [min <= v <= max] on the three axes. *)
Definition contains (b : Bounds) (v : Vector3) : bool :=
  F64.leb (x (bmin b)) (x v) && F64.leb (x v) (x (bmax b))
  && F64.leb (y (bmin b)) (y v) && F64.leb (y v) (y (bmax b))
  && F64.leb (z (bmin b)) (z v) && F64.leb (z v) (z (bmax b)).

(** The three vertices of the triangle lie in the box. *)
Definition containsTriangle (b : Bounds) (t : Triangle) : bool :=
  contains b (posA t) && contains b (posB t) && contains b (posC t).

(* ================================================================= *)
(** ** Centroids on a lattice

    The vocabulary of the property of ten triangles: arrays of triangles
    whose centroids, on each axis, are either one finite number or pairwise
    different integers between 0 and [latticeMax].  The sums, differences and
    products that the split selection forms of such centroids are evaluated
    once for all, in the tables below. *)



























(* ================================================================= *)
(** * Properties *)

(** ** Completions *)

Lemma bind_Returns {A B : Type} (r : Result A) (k : A -> Result B) (b : B) :
  bind r k = Returns b -> exists a, r = Returns a /\ k a = Returns b.
Proof.
  destruct r as [a | e]; simpl; intros H; [ exists a; auto | discriminate ].
Qed.

Ltac inv_bind H :=
  let a := fresh "a" in
  let Ha := fresh "Ha" in
  apply bind_Returns in H; destruct H as [a [Ha H]].

Lemma getComponent_component (v : Vector3) (axis : Z) :
  (0 <= axis <= 2)%Z -> Vec.getComponent v axis = Returns (Vec.component v axis).
Proof.
  intros H.
  assert (axis = 0 \/ axis = 1 \/ axis = 2)%Z as [-> | [-> | ->]] by lia; reflexivity.
Qed.

Lemma getComponent_throws (v : Vector3) (axis : Z) :
  ~ (0 <= axis <= 2)%Z -> Vec.getComponent v axis = Throws IndexOutOfRange.
Proof.
  intros H. unfold Vec.getComponent.
  destruct axis as [| p | p]; try reflexivity; try lia.
  destruct p as [[q | q |] | [q | q |] |]; try reflexivity; lia.
Qed.

(** ** [partitionTrianglesOptimized] *)

Section Partition.
Variable axis : Z.
Variable splitPos : F64.float.

Lemma partition_loop (Haxis : (0 <= axis <= 2)%Z) :
  forall triangleInfos tempLeftTris tempRightTris,
    foldM (partitionStep axis splitPos) triangleInfos (tempLeftTris, tempRightTris)
    = Returns (tempLeftTris ++ filter (goesLeft axis splitPos) triangleInfos,
               tempRightTris
                 ++ filter (fun t => negb (goesLeft axis splitPos t)) triangleInfos).
Proof.
  induction triangleInfos as [| t rest IH]; intros L R; simpl.
  - now rewrite !app_nil_r.
  - rewrite getComponent_component by assumption. simpl.
    fold (goesLeft axis splitPos t).
    destruct (goesLeft axis splitPos t); simpl;
      rewrite IH, <- ?app_assoc; reflexivity.
Qed.

Lemma partition_loop_throws (Haxis : ~ (0 <= axis <= 2)%Z) :
  forall t rest temp,
    foldM (partitionStep axis splitPos) (t :: rest) temp = Throws IndexOutOfRange.
Proof.
  intros t rest [L R]. simpl. now rewrite getComponent_throws.
Qed.

End Partition.

Lemma partition_valid_axis (triangleInfos : list TriangleInfo) (axis : Z) (splitPos : F64.float) :
  (0 <= axis <= 2)%Z ->
  partitionTrianglesOptimized triangleInfos axis splitPos
  = Returns (filter (goesLeft axis splitPos) triangleInfos,
             filter (fun t => negb (goesLeft axis splitPos t)) triangleInfos).
Proof.
  intros H. unfold partitionTrianglesOptimized.
  now rewrite partition_loop.
Qed.

(** Whatever the axis, a partition that returns is by a test on the
    elements. *)
Lemma partition_returns (triangleInfos : list TriangleInfo) (axis : Z) (splitPos : F64.float)
      (leftTris rightTris : list TriangleInfo) :
  partitionTrianglesOptimized triangleInfos axis splitPos = Returns (leftTris, rightTris) ->
  leftTris = filter (goesLeft axis splitPos) triangleInfos
  /\ rightTris = filter (fun t => negb (goesLeft axis splitPos t)) triangleInfos.
Proof.
  destruct (Z_le_dec 0 axis) as [H0 |]; [ destruct (Z_le_dec axis 2) as [H2 |] |].
  - rewrite partition_valid_axis by lia. intros H. now inversion H.
  - destruct triangleInfos as [| t rest]; intros H.
    + inversion H. auto.
    + unfold partitionTrianglesOptimized in H.
      rewrite partition_loop_throws in H by lia. discriminate.
  - destruct triangleInfos as [| t rest]; intros H.
    + inversion H. auto.
    + unfold partitionTrianglesOptimized in H.
      rewrite partition_loop_throws in H by lia. discriminate.
Qed.

Lemma filter_split_length {A : Type} (p : A -> bool) (l : list A) :
  (length (filter p l) + length (filter (fun a => negb (p a)) l) = length l)%nat.
Proof.
  induction l as [| a l IH]; simpl; [ reflexivity |].
  destruct (p a); simpl; lia.
Qed.

Lemma filter_split_Permutation {A : Type} (p : A -> bool) (l : list A) :
  Permutation (filter p l ++ filter (fun a => negb (p a)) l) l.
Proof.
  induction l as [| a l IH]; simpl; [ constructor |].
  destruct (p a); simpl.
  - now constructor.
  - symmetry. apply Permutation_cons_app. now symmetry.
Qed.

(** ** The calls of [buildNodeRecursive] *)

Arguments findBestSplitPositionSAH : simpl never.
Arguments partitionTrianglesOptimized : simpl never.
Arguments updateNodeBoundsOptimized : simpl never.

Lemma length_zero_nil {A : Type} (l : list A) : (length l =? 0)%nat = false -> l <> [].
Proof. destruct l; simpl; [ discriminate | intros _ H; discriminate ]. Qed.

Lemma length_zero_nil_true {A : Type} (l : list A) : (length l =? 0)%nat = true -> l = [].
Proof. destruct l; simpl; [ reflexivity | discriminate ]. Qed.

Section Calls.
Variable this : BVHBuilder.

Lemma buildNodeRecursive_Built :
  forall depth triangleInfos r node r',
    buildNodeRecursive this depth triangleInfos r = Returns (node, r') ->
    Built this depth triangleInfos r node r'.
Proof.
  induction depth as [| depth IH]; intros infos r node r' H.
  - simpl in H. inversion H; subst.
    apply (@Built_leaf this 0 infos r). left. reflexivity.
  - cbn [buildNodeRecursive] in H.
    destruct (Z.of_nat (length infos) <=? maxLeafSize this)%Z eqn:Hsmall.
    { inversion H; subst. apply (@Built_leaf this (S depth) infos r).
      right; left. now apply Z.leb_le. }
    apply Z.leb_gt in Hsmall.
    inv_bind H. destruct a as [axis pos method | method].
    2:{ inversion H; subst. apply (@Built_leaf this (S depth) infos r).
        right; right; left. now exists method. }
    inv_bind H. destruct a as [leftTris rightTris].
    destruct ((length leftTris =? 0)%nat || (length rightTris =? 0)%nat) eqn:Hempty.
    { inversion H; subst. apply (@Built_leaf this (S depth) infos r).
      right; right; right. exists axis, pos, method, leftTris, rightTris.
      repeat split; try assumption.
      apply orb_true_iff in Hempty.
      destruct Hempty as [E | E]; apply length_zero_nil_true in E; auto. }
    apply orb_false_iff in Hempty. destruct Hempty as [HL HR].
    inv_bind H. destruct a as [leftNode r1].
    inv_bind H. destruct a as [rightNode r2].
    inversion H; subst.
    apply (@Built_split this depth infos r axis pos method leftTris rightTris leftNode r1 rightNode r');
      auto using length_zero_nil.
Qed.

(** *** Nodes and leaves of the two kinds of node *)

Lemma In_nodes_root (n : CWBVHNode) : In n (nodes n).
Proof. destruct n. left. reflexivity. Qed.

Lemma nodes_emitLeaf (infos : list TriangleInfo) (r : list Triangle) :
  nodes (fst (emitLeaf (freshNode infos) infos r)) = [fst (emitLeaf (freshNode infos) infos r)].
Proof. reflexivity. Qed.

Lemma leaves_emitLeaf (infos : list TriangleInfo) (r : list Triangle) :
  leaves (fst (emitLeaf (freshNode infos) infos r)) = [fst (emitLeaf (freshNode infos) infos r)].
Proof. reflexivity. Qed.

Lemma nodes_splitNode (infos : list TriangleInfo) (l rn : CWBVHNode) :
  nodes (splitNode infos l rn) = splitNode infos l rn :: nodes l ++ nodes rn.
Proof. reflexivity. Qed.

Lemma leaves_splitNode (infos : list TriangleInfo) (l rn : CWBVHNode) :
  leaves (splitNode infos l rn) = leaves l ++ leaves rn.
Proof.
  unfold leaves. rewrite nodes_splitNode. cbn [filter].
  change (isLeaf (splitNode infos l rn)) with false. cbv iota.
  apply filter_app.
Qed.

(** *** The output array and the leaf ranges *)

Lemma tiles_app (a b c : nat) (xs ys : list (nat * nat)) :
  tiles a b xs -> tiles b c ys -> tiles a c (xs ++ ys).
Proof.
  revert a. induction xs as [| [o n] xs IH]; intros a Hx Hy; simpl in *.
  - now subst.
  - destruct Hx as [-> Hx]. split; [ reflexivity | eauto ].
Qed.

Lemma Built_output :
  forall depth infos r node r',
    Built this depth infos r node r' ->
    exists out, r' = r ++ out /\ Permutation out (map triangle infos).
Proof.
  induction 1 as [depth infos r _
                 | depth infos r axis pos method L R lnode r1 rnode r2
                     Hbig Hsplit Hpart HL HR _ _ IHl _ _ IHr].
  - exists (map triangle infos). split; [ reflexivity | apply Permutation_refl ].
  - destruct IHl as [outL [-> PL]]. destruct IHr as [outR [-> PR]].
    exists (outL ++ outR). split; [ now rewrite app_assoc |].
    apply partition_returns in Hpart. destruct Hpart as [-> ->].
    rewrite <- (Permutation_map triangle (filter_split_Permutation (goesLeft axis pos) infos)).
    rewrite map_app. now apply Permutation_app.
Qed.

Lemma Built_tiles :
  forall depth infos r node r',
    Built this depth infos r node r' ->
    tiles (length r) (length r') (map leafRange (leaves node)).
Proof.
  induction 1 as [depth infos r _
                 | depth infos r axis pos method L R lnode r1 rnode r2
                     Hbig Hsplit Hpart HL HR _ Bl IHl _ Br IHr].
  - rewrite leaves_emitLeaf. simpl. rewrite length_app, length_map. auto.
  - rewrite leaves_splitNode, map_app. eapply tiles_app; eassumption.
Qed.

Lemma Built_leaf_counts :
  forall depth infos r node r',
    Built this depth infos r node r' ->
    infos <> [] ->
    Forall (fun n => (0 < triangleCount n)%nat) (leaves node).
Proof.
  induction 1 as [depth infos r _
                 | depth infos r axis pos method L R lnode r1 rnode r2
                     Hbig Hsplit Hpart HL HR _ Bl IHl _ Br IHr]; intros Hne.
  - rewrite leaves_emitLeaf. constructor; [| constructor ]. simpl.
    destruct infos; [ congruence | simpl; lia ].
  - rewrite leaves_splitNode. apply Forall_app. auto.
Qed.

Lemma Built_children :
  forall depth infos r node r',
    Built this depth infos r node r' ->
    Forall (fun n => isLeaf n = true \/ isInternal n = true) (nodes node).
Proof.
  induction 1 as [depth infos r _
                 | depth infos r axis pos method L R lnode r1 rnode r2
                     Hbig Hsplit Hpart HL HR _ Bl IHl _ Br IHr].
  - rewrite nodes_emitLeaf. constructor; [ left; reflexivity | constructor ].
  - rewrite nodes_splitNode. constructor; [ right; reflexivity |].
    apply Forall_app. auto.
Qed.

End Calls.

(** The ranges that tile [[lo, hi)] hold every position of it once and no
    other position. *)
Lemma tiles_coverage (ranges : list (nat * nat)) :
  forall lo hi i,
    tiles lo hi ranges ->
    (lo <= hi)%nat
    /\ length (filter (inRange i) ranges) = if ((lo <=? i) && (i <? hi))%nat then 1%nat else 0%nat.
Proof.
  induction ranges as [| [o n] rest IH]; intros lo hi i H; simpl in *.
  - subst. split; [ lia |].
    destruct (hi <=? i)%nat eqn:E1, (i <? hi)%nat eqn:E2; try reflexivity.
    apply Nat.leb_le in E1. apply Nat.ltb_lt in E2. lia.
  - destruct H as [-> H]. destruct (IH _ _ i H) as [Hle Hlen].
    split; [ lia |].
    unfold inRange at 1. simpl.
    destruct (lo <=? i)%nat eqn:E1, (i <? lo + n)%nat eqn:E2, (i <? hi)%nat eqn:E3,
             (lo + n <=? i)%nat eqn:E4; simpl in *; rewrite ?Hlen; try reflexivity;
      repeat match goal with
             | H : (_ <=? _)%nat = true |- _ => apply Nat.leb_le in H
             | H : (_ <=? _)%nat = false |- _ => apply Nat.leb_gt in H
             | H : (_ <? _)%nat = true |- _ => apply Nat.ltb_lt in H
             | H : (_ <? _)%nat = false |- _ => apply Nat.ltb_ge in H
             end; lia.
Qed.

(** ** The presort keeps the triangles *)

Section SortFacts.
Context {A : Type}.
Variable lt : A -> A -> bool.

Lemma sort_insert_Permutation (a : A) (l : list A) :
  Permutation (sort_insert lt a l) (a :: l).
Proof.
  induction l as [| b l IH]; simpl.
  - apply Permutation_refl.
  - destruct (lt a b).
    + apply Permutation_refl.
    + rewrite IH. apply perm_swap.
Qed.

Lemma sort_loop_Permutation (xs sorted : list A) :
  Permutation (fold_left (fun sorted a => sort_insert lt a sorted) xs sorted) (sorted ++ xs).
Proof.
  revert sorted. induction xs as [| a xs IH]; intros sorted; simpl.
  - now rewrite app_nil_r.
  - rewrite IH, sort_insert_Permutation. apply Permutation_middle.
Qed.

Lemma Array_sort_Permutation (xs : list A) : Permutation (Array_sort lt xs) xs.
Proof. unfold Array_sort. now rewrite sort_loop_Permutation. Qed.

End SortFacts.

Lemma triangle_toTriangleInfos (triangles : list Triangle) :
  map triangle (toTriangleInfos triangles) = triangles.
Proof.
  unfold toTriangleInfos. generalize 0%nat.
  induction triangles as [| t ts IH]; intros start; simpl; [ reflexivity |].
  now rewrite IH.
Qed.

Section Presort.
Variable this : BVHBuilder.

Lemma sortTrianglesByMortonCode_triangles (infos : list TriangleInfo) :
  Permutation (map triangle (sortTrianglesByMortonCode this infos)) (map triangle infos).
Proof.
  unfold sortTrianglesByMortonCode.
  destruct (negb (useMortonCodes this)
            || (Z.of_nat (length infos) <? mortonClusterThreshold this)%Z);
    [ apply Permutation_refl |].
  destruct (sceneBounds infos) as [sceneMin sceneMax].
  rewrite (Permutation_map triangle (Array_sort_Permutation _ _)).
  rewrite map_map. simpl. apply Permutation_refl.
Qed.

Lemma clusterPush_members (clusters : list (Z * list TriangleInfo)) (key : Z)
      (t : TriangleInfo) :
  Permutation (flat_map snd (clusterPush clusters key t)) (flat_map snd clusters ++ [t]).
Proof.
  induction clusters as [| [k members] rest IH]; simpl.
  - apply Permutation_refl.
  - destruct (k =? key)%Z; simpl.
    + rewrite <- !app_assoc. apply Permutation_app_head.
      apply Permutation_app_comm.
    + rewrite IH. now rewrite app_assoc.
Qed.

Lemma cluster_loop_members (f : TriangleInfo -> Z) (infos : list TriangleInfo) :
  forall clusters,
    Permutation
      (flat_map snd (fold_left (fun clusters t => clusterPush clusters (f t) t) infos clusters))
      (flat_map snd clusters ++ infos).
Proof.
  induction infos as [| t rest IH]; intros clusters; simpl.
  - now rewrite app_nil_r.
  - rewrite IH, clusterPush_members, <- app_assoc. reflexivity.
Qed.

Lemma sorted_clusters_triangles (clusters : list (Z * list TriangleInfo)) :
  Permutation
    (map triangle (flat_map (fun c => sortTrianglesByMortonCode this (snd c)) clusters))
    (map triangle (flat_map snd clusters)).
Proof.
  induction clusters as [| c rest IH]; simpl; [ constructor |].
  rewrite !map_app. apply Permutation_app; [ apply sortTrianglesByMortonCode_triangles | exact IH ].
Qed.

Lemma recursiveMortonCluster_triangles (infos : list TriangleInfo) (maxClusterSize : Z) :
  Permutation (map triangle (recursiveMortonCluster this infos maxClusterSize))
              (map triangle infos).
Proof.
  unfold recursiveMortonCluster.
  destruct (Z.of_nat (length infos) <=? maxClusterSize)%Z;
    [ apply sortTrianglesByMortonCode_triangles |].
  destruct (sceneBounds infos) as [sceneMin sceneMax].
  rewrite sorted_clusters_triangles.
  apply Permutation_map.
  rewrite (Permutation_flat_map snd (Array_sort_Permutation _ _)).
  now rewrite cluster_loop_members.
Qed.

Lemma presortedInfos_triangles (triangles : list Triangle) :
  Permutation (map triangle (presortedInfos this triangles)) triangles.
Proof.
  unfold presortedInfos.
  destruct (50000 <? Z.of_nat (length (toTriangleInfos triangles)))%Z.
  - now rewrite recursiveMortonCluster_triangles, triangle_toTriangleInfos.
  - now rewrite sortTrianglesByMortonCode_triangles, triangle_toTriangleInfos.
Qed.

End Presort.

(** ** The tree of [buildSync] *)

Section Trees.
Variable this : BVHBuilder.

Lemma buildSync_Built (triangles : list Triangle) (depth : Z) (r : list Triangle)
      (root : CWBVHNode) (reordered : list Triangle) :
  buildSync this triangles depth r = Returns (root, reordered) ->
  Built this (Z.to_nat depth) (presortedInfos this triangles) r root reordered.
Proof. apply buildNodeRecursive_Built. Qed.

Lemma Permutation_map_nonempty {A B : Type} (f : A -> B) (l : list A) (l' : list B) :
  Permutation (map f l) l' -> l' <> [] -> l <> [].
Proof.
  intros P Hne ->. simpl in P. apply Permutation_nil in P. contradiction.
Qed.

(** C2: for a non-empty triangle array, the leaf ranges of the tree that
    [buildSync] returns partition [[0, N)]: from left to right every range
    starts where the one before it ends, the first starts at 0, the last
    ends at N, no range is empty, so every position below N lies in
    exactly one leaf range and no other position lies in any; the
    reordered array holds the N input triangles. *)
Theorem leaf_ranges_partition (triangles : list Triangle) (depth : Z)
        (root : CWBVHNode) (reordered : list Triangle) :
  triangles <> [] ->
  buildSync this triangles depth [] = Returns (root, reordered) ->
  length reordered = length triangles
  /\ Permutation reordered triangles
  /\ tiles 0 (length triangles) (map leafRange (leaves root))
  /\ Forall (fun n => (0 < triangleCount n)%nat) (leaves root)
  /\ forall i, coverage root i = if (i <? length triangles)%nat then 1%nat else 0%nat.
Proof.
  intros Hne H. pose proof (buildSync_Built _ _ _ H) as B.
  pose proof (presortedInfos_triangles this triangles) as P.
  destruct (Built_output B) as [out [E Pout]]. simpl in E. subst out.
  assert (Hperm : Permutation reordered triangles) by (now rewrite Pout).
  assert (Hlen : length reordered = length triangles) by (now apply Permutation_length).
  pose proof (Built_tiles B) as T. simpl in T. rewrite Hlen in T.
  repeat split; try assumption.
  - apply (Built_leaf_counts B). eapply Permutation_map_nonempty; eassumption.
  - intros i. unfold coverage.
    destruct (@tiles_coverage _ 0 (length triangles) i T) as [_ ->]. reflexivity.
Qed.

(** C4, amended: in the tree built from a non-empty triangle array every
    node has both children, or has no child and a positive
    [triangleCount]; no node has exactly one child. *)
Theorem node_shapes (triangles : list Triangle) (depth : Z) (r : list Triangle)
        (root : CWBVHNode) (reordered : list Triangle) :
  triangles <> [] ->
  buildSync this triangles depth r = Returns (root, reordered) ->
  Forall (fun n => (isInternal n = true /\ isLeaf n = false)
                   \/ (isLeaf n = true /\ isInternal n = false
                       /\ (0 < triangleCount n)%nat))
         (nodes root).
Proof.
  intros Hne H. pose proof (buildSync_Built _ _ _ H) as B.
  pose proof (presortedInfos_triangles this triangles) as P.
  pose proof (Built_children B) as Hc.
  assert (Hpos : Forall (fun n => (0 < triangleCount n)%nat) (leaves root)).
  { apply (Built_leaf_counts B). eapply Permutation_map_nonempty; eassumption. }
  rewrite Forall_forall in *. intros n Hn.
  destruct (Hc n Hn) as [Hl | Hi].
  - right. repeat split; [ exact Hl | |].
    + unfold isLeaf, isInternal in *.
      destruct (leftChild n), (rightChild n); congruence.
    + apply Hpos. unfold leaves. apply filter_In. auto.
  - left. split; [ exact Hi |].
    unfold isLeaf, isInternal in *.
    destruct (leftChild n), (rightChild n); congruence.
Qed.

End Trees.

Lemma leaf_ranges_partition_witness :
  exists root reordered,
    buildSync newBVHBuilder Examples.evenTen 30 [] = Returns (root, reordered)
    /\ length reordered = length Examples.evenTen
    /\ Permutation reordered Examples.evenTen
    /\ tiles 0 (length Examples.evenTen) (map leafRange (leaves root))
    /\ Forall (fun n => (0 < triangleCount n)%nat) (leaves root)
    /\ forall i, coverage root i = if (i <? length Examples.evenTen)%nat then 1%nat else 0%nat.
Proof.
  destruct (buildSync newBVHBuilder Examples.evenTen 30 []) as [[root reordered] | e] eqn:E;
    [| vm_compute in E; discriminate ].
  exists root, reordered. split; [ reflexivity |].
  apply (@leaf_ranges_partition newBVHBuilder Examples.evenTen 30 root reordered);
    [ discriminate | exact E ].
Defined.

Lemma node_shapes_witness :
  exists root reordered,
    buildSync newBVHBuilder Examples.evenTen 30 [] = Returns (root, reordered)
    /\ Forall (fun n => (isInternal n = true /\ isLeaf n = false)
                        \/ (isLeaf n = true /\ isInternal n = false
                            /\ (0 < triangleCount n)%nat))
              (nodes root).
Proof.
  destruct (buildSync newBVHBuilder Examples.evenTen 30 []) as [[root reordered] | e] eqn:E;
    [| vm_compute in E; discriminate ].
  exists root, reordered. split; [ reflexivity |].
  apply (@node_shapes newBVHBuilder Examples.evenTen 30 [] root reordered);
    [ discriminate | exact E ].
Defined.

(** C4 as stated fails on the empty array: the root is a leaf with
    [triangleCount] 0. *)
Lemma empty_build_leaf_count_zero :
  exists root,
    buildSync newBVHBuilder [] 30 [] = Returns (root, [])
    /\ In root (nodes root)
    /\ isLeaf root = true
    /\ triangleCount root = 0%nat.
Proof.
  eexists. split; [ reflexivity |]. split; [ left; reflexivity |]. split; reflexivity.
Qed.

(** ** Order of the numbers

    [Math.min] and [Math.max] are the minimum and the maximum of a total
    order of all binary64 values: the order of the numbers, with -0 below
    +0, and NaN at the bottom for [Math.min] and at the top for
    [Math.max].  [rank] places a value in the lexicographic order of
    triples of integers; [nanRank] is the first component of NaN. *)

Lemma below_spec (u v : Z * Z * Z) :
  below u v = true <->
  (fst (fst u) < fst (fst v)
   \/ (fst (fst u) = fst (fst v)
       /\ (snd (fst u) < snd (fst v) \/ (snd (fst u) = snd (fst v) /\ snd u < snd v))))%Z.
Proof.
  destruct u as [[u1 u2] u3], v as [[v1 v2] v3]. unfold below. simpl.
  rewrite !orb_true_iff, !andb_true_iff, !orb_true_iff, !andb_true_iff,
    !Z.ltb_lt, !Z.eqb_eq.
  reflexivity.
Qed.

Lemma below_false (u v : Z * Z * Z) :
  below u v = false <-> (below v u = true \/ u = v).
Proof.
  destruct (below u v) eqn:E.
  - split; [ discriminate |]. intros [H | H].
    + apply below_spec in E, H. lia.
    + subst. apply below_spec in E. lia.
  - split; [ intros _ | reflexivity ].
    destruct (below v u) eqn:E'; [ now left | right ].
    assert (~ (below u v = true)) as N by congruence.
    assert (~ (below v u = true)) as N' by congruence.
    rewrite below_spec in N, N'.
    destruct u as [[u1 u2] u3], v as [[v1 v2] v3]. simpl in *.
    assert (u1 = v1) by lia. assert (u2 = v2) by lia. assert (u3 = v3) by lia.
    congruence.
Qed.

Lemma rank_injective (nanRank : Z) (a b : F64.float) :
  (nanRank < -3 \/ 2 < nanRank)%Z -> rank nanRank a = rank nanRank b -> a = b.
Proof.
  intros Hn.
  destruct a as [[] | [] | | [] ma ea], b as [[] | [] | | [] mb eb]; simpl; intros H;
    inversion H; subst; try reflexivity; try lia.
  assert (ea = eb) by lia. congruence.
Qed.

Lemma finite_ltb (s : bool) (m1 m2 : positive) (e1 e2 : Z) :
  SFltb (S754_finite s m1 e1) (S754_finite s m2 e2)
  = below (rank 0 (S754_finite s m1 e1)) (rank 0 (S754_finite s m2 e2)).
Proof.
  destruct (below (rank 0 (S754_finite s m1 e1)) (rank 0 (S754_finite s m2 e2))) eqn:E.
  - apply below_spec in E.
    unfold SFltb, SFcompare.
    change (Pos.compare_cont Eq m1 m2) with (Pos.compare m1 m2).
    destruct s; cbn [rank fst snd] in E;
      destruct (Z.compare_spec e1 e2) as [He | He | He];
      destruct (Pos.compare_spec m1 m2) as [Hm | Hm | Hm]; simpl; try reflexivity; lia.
  - assert (N : ~ (below (rank 0 (S754_finite s m1 e1)) (rank 0 (S754_finite s m2 e2)) = true))
      by congruence.
    rewrite below_spec in N.
    unfold SFltb, SFcompare.
    change (Pos.compare_cont Eq m1 m2) with (Pos.compare m1 m2).
    destruct s; cbn [rank fst snd] in N;
      destruct (Z.compare_spec e1 e2) as [He | He | He];
      destruct (Pos.compare_spec m1 m2) as [Hm | Hm | Hm]; simpl; try reflexivity; lia.
Qed.

(** [Math.min] picks the value of lower rank, NaN lowest. *)
Lemma Math_min_rank (a b : F64.float) :
  F64.Math_min a b = if below (rank (-4) b) (rank (-4) a) then b else a.
Proof.
  destruct a as [[] | [] | | [] ma ea], b as [[] | [] | | [] mb eb];
    try reflexivity;
    unfold F64.Math_min; rewrite finite_ltb; reflexivity.
Qed.

(** [Math.max] picks the value of higher rank, NaN highest. *)
Lemma Math_max_rank (a b : F64.float) :
  F64.Math_max a b = if below (rank 3 a) (rank 3 b) then b else a.
Proof.
  destruct a as [[] | [] | | [] ma ea], b as [[] | [] | | [] mb eb];
    try reflexivity;
    unfold F64.Math_max; rewrite finite_ltb; reflexivity.
Qed.

(** The value of lowest rank under an injective ranking is an associative
    and commutative choice. *)
Section Lowest.
Context {A : Type}.
Variable key : A -> Z * Z * Z.
Hypothesis key_injective : forall a b, key a = key b -> a = b.

Ltac order_facts :=
  repeat match goal with
         | H : below _ _ = true |- _ => apply below_spec in H
         | H : below _ _ = false |- _ => apply not_true_iff_false in H; rewrite below_spec in H
         end.

Ltac same_rank :=
  first
    [ reflexivity
    | apply key_injective;
      repeat match goal with
             | |- context [key ?a] =>
                 let k1 := fresh "k" in
                 let k2 := fresh "k" in
                 let k3 := fresh "k" in
                 destruct (key a) as [[k1 k2] k3]
             end;
      simpl in *;
      match goal with
      | |- (?a1, ?a2, ?a3) = (?b1, ?b2, ?b3) =>
          assert (a1 = b1) by lia; assert (a2 = b2) by lia; assert (a3 = b3) by lia;
          congruence
      end ].

Lemma lowest_comm (a b : A) : lowest key a b = lowest key b a.
Proof.
  unfold lowest.
  destruct (below (key b) (key a)) eqn:E1, (below (key a) (key b)) eqn:E2;
    order_facts; same_rank.
Qed.

Lemma lowest_assoc (a b c : A) :
  lowest key (lowest key a b) c = lowest key a (lowest key b c).
Proof.
  unfold lowest.
  destruct (below (key b) (key a)) eqn:E1, (below (key c) (key b)) eqn:E2;
    rewrite ?E1, ?E2;
    destruct (below (key c) (key a)) eqn:E3; rewrite ?E1, ?E2, ?E3;
    order_facts; same_rank.
Qed.

End Lowest.

Lemma below_flip3 (u v : Z * Z * Z) : below (flip3 v) (flip3 u) = below u v.
Proof.
  destruct (below u v) eqn:E.
  - apply below_spec in E. apply below_spec.
    destruct u as [[u1 u2] u3], v as [[v1 v2] v3]. simpl in *. lia.
  - apply not_true_iff_false in E. rewrite below_spec in E.
    apply not_true_iff_false. rewrite below_spec.
    destruct u as [[u1 u2] u3], v as [[v1 v2] v3]. simpl in *. lia.
Qed.

Lemma flip3_injective (u v : Z * Z * Z) : flip3 u = flip3 v -> u = v.
Proof.
  destruct u as [[u1 u2] u3], v as [[v1 v2] v3]. simpl. intros H. inversion H.
  f_equal; [ f_equal |]; lia.
Qed.

Lemma Math_min_lowest (a b : F64.float) : F64.Math_min a b = lowest (rank (-4)) a b.
Proof. apply Math_min_rank. Qed.

Lemma Math_max_lowest (a b : F64.float) :
  F64.Math_max a b = lowest (fun v => flip3 (rank 3 v)) a b.
Proof. unfold lowest. rewrite below_flip3. apply Math_max_rank. Qed.

Lemma Math_min_comm (a b : F64.float) : F64.Math_min a b = F64.Math_min b a.
Proof.
  rewrite !Math_min_lowest. apply lowest_comm.
  intros u v. apply rank_injective. lia.
Qed.

Lemma Math_min_assoc (a b c : F64.float) :
  F64.Math_min (F64.Math_min a b) c = F64.Math_min a (F64.Math_min b c).
Proof.
  rewrite !Math_min_lowest. apply lowest_assoc.
  intros u v. apply rank_injective. lia.
Qed.

Lemma Math_max_comm (a b : F64.float) : F64.Math_max a b = F64.Math_max b a.
Proof.
  rewrite !Math_max_lowest. apply lowest_comm.
  intros u v H. apply flip3_injective in H. revert H. apply rank_injective. lia.
Qed.

Lemma Math_max_assoc (a b c : F64.float) :
  F64.Math_max (F64.Math_max a b) c = F64.Math_max a (F64.Math_max b c).
Proof.
  rewrite !Math_max_lowest. apply lowest_assoc.
  intros u v H. apply flip3_injective in H. revert H. apply rank_injective. lia.
Qed.

Lemma Math_min_infinity (a : F64.float) : F64.Math_min F64.infinity a = a.
Proof. destruct a as [[] | [] | | [] m e]; reflexivity. Qed.

Lemma Math_max_neg_infinity (a : F64.float) : F64.Math_max F64.neg_infinity a = a.
Proof. destruct a as [[] | [] | | [] m e]; reflexivity. Qed.

(** ** Boxes *)

Lemma unionBox_comm (a b : Vector3 * Vector3) : unionBox a b = unionBox b a.
Proof.
  unfold unionBox, Vec.min, Vec.max.
  f_equal; f_equal; auto using Math_min_comm, Math_max_comm.
Qed.

Lemma unionBox_assoc (a b c : Vector3 * Vector3) :
  unionBox (unionBox a b) c = unionBox a (unionBox b c).
Proof.
  unfold unionBox, Vec.min, Vec.max. simpl.
  f_equal; f_equal; auto using Math_min_assoc, Math_max_assoc.
Qed.

Lemma unionBox_empty (a : Vector3 * Vector3) : unionBox emptyBox a = a.
Proof.
  destruct a as [[ax ay az] [bx by_ bz]].
  unfold unionBox, emptyBox, Vec.min, Vec.max, Vec.all_inf, Vec.all_neg_inf.
  cbn [fst snd x y z].
  now rewrite !Math_min_infinity, !Math_max_neg_infinity.
Qed.

Lemma unionBox_empty_r (a : Vector3 * Vector3) : unionBox a emptyBox = a.
Proof. rewrite unionBox_comm. apply unionBox_empty. Qed.

Lemma join_from (infos : list TriangleInfo) :
  forall box,
    fold_left (fun acc t => unionBox acc (boxOf t)) infos box = unionBox box (joinBoxes infos).
Proof.
  unfold joinBoxes.
  induction infos as [| t rest IH]; intros box; cbn [fold_left].
  - now rewrite unionBox_empty_r.
  - rewrite IH. rewrite (IH (unionBox emptyBox (boxOf t))).
    rewrite unionBox_empty. apply unionBox_assoc.
Qed.

Lemma joinBoxes_cons (t : TriangleInfo) (rest : list TriangleInfo) :
  joinBoxes (t :: rest) = unionBox (boxOf t) (joinBoxes rest).
Proof.
  unfold joinBoxes at 1. cbn [fold_left]. rewrite join_from.
  now rewrite unionBox_empty.
Qed.

Lemma updateNodeBounds_join (infos : list TriangleInfo) :
  updateNodeBoundsOptimized infos = joinBoxes infos.
Proof.
  unfold updateNodeBoundsOptimized, joinBoxes. fold emptyBox.
  generalize emptyBox.
  induction infos as [| t rest IH]; intros box; cbn [fold_left]; [ reflexivity |].
  destruct box as [lo hi]. apply IH.
Qed.

(** The box of a set of triangles is the union of the boxes of the two
    sides of any partition of it. *)
Lemma joinBoxes_partition (p : TriangleInfo -> bool) (infos : list TriangleInfo) :
  joinBoxes infos
  = unionBox (joinBoxes (filter p infos)) (joinBoxes (filter (fun t => negb (p t)) infos)).
Proof.
  induction infos as [| t rest IH]; cbn [filter].
  - unfold joinBoxes. simpl. now rewrite unionBox_empty.
  - rewrite joinBoxes_cons, IH.
    destruct (p t); cbn [negb]; rewrite joinBoxes_cons.
    + now rewrite unionBox_assoc.
    + rewrite <- !unionBox_assoc.
      now rewrite (unionBox_comm (boxOf t)).
Qed.

(** ** Bounds of the nodes *)

Lemma Built_bounds (this : BVHBuilder) :
  forall depth infos r node r',
    Built this depth infos r node r' ->
    (boundsMin node, boundsMax node) = joinBoxes infos
    /\ Forall unionOfChildren (nodes node).
Proof.
  induction 1 as [depth infos r _
                 | depth infos r axis pos method L R lnode r1 rnode r2
                     Hbig Hsplit Hpart HL HR _ Bl IHl _ Br IHr].
  - split.
    + simpl. rewrite <- updateNodeBounds_join. now destruct (updateNodeBoundsOptimized infos).
    + rewrite nodes_emitLeaf. constructor; [| constructor ].
      intros l rn Hl. discriminate.
  - destruct IHl as [El Fl]. destruct IHr as [Er Fr].
    assert (E : (boundsMin (splitNode infos lnode rnode), boundsMax (splitNode infos lnode rnode))
                = joinBoxes infos).
    { simpl. rewrite <- updateNodeBounds_join. now destruct (updateNodeBoundsOptimized infos). }
    split; [ exact E |].
    rewrite nodes_splitNode. constructor; [| apply Forall_app; auto ].
    intros l rn Hl Hr. simpl in Hl, Hr. inversion Hl; inversion Hr; subst l rn.
    apply partition_returns in Hpart. destruct Hpart as [-> ->].
    rewrite (joinBoxes_partition (goesLeft axis pos) infos) in E.
    rewrite <- El, <- Er in E. unfold unionBox in E. cbn [fst snd] in E.
    inversion E. split; reflexivity.
Qed.

(** C3: in the tree that [buildSync] returns, the box of every node with
    both children is exactly the component-wise union of the boxes of its
    children: [boundsMin] is the component-wise [Math.min] and [boundsMax]
    the component-wise [Math.max] of theirs. *)
Theorem internal_bounds_union (this : BVHBuilder) (triangles : list Triangle) (depth : Z)
        (r : list Triangle) (root : CWBVHNode) (reordered : list Triangle)
        (n l rn : CWBVHNode) :
  buildSync this triangles depth r = Returns (root, reordered) ->
  In n (nodes root) ->
  leftChild n = Some l ->
  rightChild n = Some rn ->
  boundsMin n = Vec.min (boundsMin l) (boundsMin rn)
  /\ boundsMax n = Vec.max (boundsMax l) (boundsMax rn).
Proof.
  intros H Hn Hl Hr.
  pose proof (buildSync_Built _ _ _ _ H) as B.
  destruct (Built_bounds B) as [_ F].
  rewrite Forall_forall in F. exact (F n Hn l rn Hl Hr).
Qed.

Lemma internal_bounds_union_witness :
  exists root l rn reordered,
    buildSync newBVHBuilder Examples.evenTen 30 [] = Returns (root, reordered)
    /\ leftChild root = Some l
    /\ rightChild root = Some rn
    /\ boundsMin root = Vec.min (boundsMin l) (boundsMin rn)
    /\ boundsMax root = Vec.max (boundsMax l) (boundsMax rn).
Proof.
  destruct (buildSync newBVHBuilder Examples.evenTen 30 []) as [[root reordered] | e] eqn:E;
    [| vm_compute in E; discriminate ].
  assert (Hc : exists l rn, leftChild root = Some l /\ rightChild root = Some rn).
  { pose proof E as E'. vm_compute in E'. inversion E'. eexists _, _. split; reflexivity. }
  destruct Hc as [l [rn [Hl Hr]]].
  exists root, l, rn, reordered.
  split; [ reflexivity |]. split; [ exact Hl |]. split; [ exact Hr |].
  apply (@internal_bounds_union newBVHBuilder Examples.evenTen 30 [] root reordered root l rn E);
    [ apply In_nodes_root | exact Hl | exact Hr ].
Defined.

(** ** The calls that emit the leaves *)

Section LeafCalls.
Variable this : BVHBuilder.

Lemma leafCalls_of_leafReason (depth : nat) (infos : list TriangleInfo) :
  leafReason this depth infos -> leafCalls this depth infos = Returns [(depth, infos)].
Proof.
  intros H. destruct depth as [| depth]; [ reflexivity |].
  cbn [leafCalls].
  destruct (Z.of_nat (length infos) <=? maxLeafSize this)%Z eqn:Hsmall; [ reflexivity |].
  apply Z.leb_gt in Hsmall.
  destruct H as [H | [H | [[method H] | (axis & pos & method & L & R & Hf & Hp & He)]]].
  - discriminate.
  - lia.
  - rewrite H. reflexivity.
  - rewrite Hf. cbn [bind]. rewrite Hp. cbn [bind].
    destruct He as [-> | ->]; cbn [length Nat.eqb orb]; rewrite ?orb_true_r; reflexivity.
Qed.

Lemma leafSlice_emitted (infos : list TriangleInfo) (r suffix : list Triangle) :
  leafSlice (fst (emitLeaf (freshNode infos) infos r)) ((r ++ map triangle infos) ++ suffix)
  = map triangle infos.
Proof.
  unfold leafSlice. cbn [emitLeaf fst triangleOffset triangleCount].
  rewrite <- app_assoc, skipn_app, skipn_all, Nat.sub_diag. cbn [skipn app].
  rewrite firstn_app, length_map, Nat.sub_diag, firstn_O, app_nil_r.
  rewrite <- (length_map triangle infos). apply firstn_all.
Qed.

Lemma Built_leafCalls :
  forall depth infos r node r',
    Built this depth infos r node r' ->
    exists calls,
      leafCalls this depth infos = Returns calls
      /\ Forall2 (fun leaf call =>
                    triangleCount leaf = length (snd call)
                    /\ leafReason this (fst call) (snd call))
                 (leaves node) calls
      /\ forall suffix, matchesLeaves node calls (r' ++ suffix).
Proof.
  induction 1 as [depth infos r Hreason
                 | depth infos r axis pos method L R lnode r1 rnode r2
                     Hbig Hsplit Hpart HL HR _ Bl IHl _ Br IHr].
  - exists [(depth, infos)]. split; [ now apply leafCalls_of_leafReason |].
    rewrite leaves_emitLeaf. split.
    + constructor; [| constructor ]. split; [ reflexivity | exact Hreason ].
    + intros suffix. unfold matchesLeaves. rewrite leaves_emitLeaf.
      constructor; [| constructor ]. apply leafSlice_emitted.
  - destruct IHl as [callsL [El [Fl Ml]]]. destruct IHr as [callsR [Er [Fr Mr]]].
    exists (callsL ++ callsR). split; [| split ].
    + cbn [leafCalls].
      assert ((Z.of_nat (length infos) <=? maxLeafSize this)%Z = false) as -> by (apply Z.leb_gt; lia).
      rewrite Hsplit. cbn [bind]. rewrite Hpart. cbn [bind].
      destruct L; [ congruence |]. destruct R; [ congruence |].
      cbn [length Nat.eqb orb]. rewrite El, Er. reflexivity.
    + rewrite leaves_splitNode. now apply Forall2_app.
    + intros suffix. unfold matchesLeaves in *. rewrite leaves_splitNode.
      apply Forall2_app; [| apply Mr ].
      destruct (Built_output Br) as [outR [-> _]].
      rewrite <- app_assoc. apply Ml.
Qed.

(** The counts of the leaves add up to the triangles of the call. *)
Lemma Built_triangleTotal :
  forall depth infos r node r',
    Built this depth infos r node r' -> triangleTotal node = length infos.
Proof.
  unfold triangleTotal.
  induction 1 as [depth infos r Hreason
                 | depth infos r axis pos method L R lnode r1 rnode r2
                     Hbig Hsplit Hpart HL HR _ Bl IHl _ Br IHr].
  - rewrite leaves_emitLeaf. simpl. lia.
  - rewrite leaves_splitNode, fold_right_app.
    apply partition_returns in Hpart. destruct Hpart as [EL ER].
    rewrite <- (filter_split_length (goesLeft axis pos) infos), <- EL, <- ER, <- IHl, <- IHr.
    generalize (leaves rnode). generalize (leaves lnode).
    intros ls rs. induction ls as [| n ls IH]; simpl; [ reflexivity | rewrite IH; lia ].
Qed.


End LeafCalls.

(** C5, amended: every leaf of the tree that [buildSync] returns is emitted
    by a call whose triangles are the leaf's [triangleCount] many, and that
    call has at most [maxLeafSize] triangles, or remaining depth [<= 0], or
    abandons the split (the split selector reports failure, or the
    partition at the chosen position leaves one side empty). *)
Theorem leaf_provenance (this : BVHBuilder) (triangles : list Triangle) (depth : Z)
        (r : list Triangle) (root : CWBVHNode) (reordered : list Triangle) :
  buildSync this triangles depth r = Returns (root, reordered) ->
  exists calls,
    leafCalls this (Z.to_nat depth) (presortedInfos this triangles) = Returns calls
    /\ Forall2 (fun leaf call =>
                  triangleCount leaf = length (snd call)
                  /\ ((Z.of_nat (triangleCount leaf) <= maxLeafSize this)%Z
                      \/ fst call = 0%nat
                      \/ splitAbandoned this (snd call)))
               (leaves root) calls.
Proof.
  intros H. apply buildSync_Built in H.
  destruct (Built_leafCalls H) as [calls [E [F _]]].
  exists calls. split; [ exact E |].
  eapply Forall2_impl; [| exact F ].
  intros leaf call [Hc [Hd | [Hs | Ha]]]; (split; [ exact Hc |]); rewrite ?Hc; auto.
Qed.

Lemma leaf_provenance_witness :
  exists root reordered calls,
    buildSync newBVHBuilder Examples.evenTen 30 [] = Returns (root, reordered)
    /\ leafCalls newBVHBuilder (Z.to_nat 30) (presortedInfos newBVHBuilder Examples.evenTen)
       = Returns calls
    /\ Forall2 (fun leaf call =>
                  triangleCount leaf = length (snd call)
                  /\ ((Z.of_nat (triangleCount leaf) <= maxLeafSize newBVHBuilder)%Z
                      \/ fst call = 0%nat
                      \/ splitAbandoned newBVHBuilder (snd call)))
               (leaves root) calls.
Proof.
  destruct (buildSync newBVHBuilder Examples.evenTen 30 []) as [[root reordered] | e] eqn:E;
    [| vm_compute in E; discriminate ].
  destruct (@leaf_provenance newBVHBuilder Examples.evenTen 30 [] root reordered E)
    as [calls [Hc HF]].
  exists root, reordered, calls. split; [ reflexivity |]. split; assumption.
Defined.

(** C5 as stated fails on nine copies of one triangle: every tier of the
    split selector fails, and the root is emitted as a leaf of 9 triangles
    at remaining depth 30. *)
Lemma nine_identical_triangles_one_leaf :
  exists root reordered,
    buildSync newBVHBuilder Examples.nineSame 30 [] = Returns (root, reordered)
    /\ leaves root = [root]
    /\ triangleCount root = 9%nat
    /\ maxLeafSize newBVHBuilder = 8%Z
    /\ leafCalls newBVHBuilder 30 (presortedInfos newBVHBuilder Examples.nineSame)
       = Returns [(30%nat, presortedInfos newBVHBuilder Examples.nineSame)]
    /\ findBestSplitPositionSAH newBVHBuilder (presortedInfos newBVHBuilder Examples.nineSame)
         (freshNode (presortedInfos newBVHBuilder Examples.nineSame))
       = Returns (NoSplit spatial_median_degenerate).
Proof.
  eexists _, _. split; [ vm_compute; reflexivity |].
  repeat split; vm_compute; reflexivity.
Qed.

(** ** Ten triangles *)


Lemma presortedInfos_length (this : BVHBuilder) (triangles : list Triangle) :
  length (presortedInfos this triangles) = length triangles.
Proof.
  rewrite <- (Permutation_length (presortedInfos_triangles this triangles)).
  now rewrite length_map.
Qed.

(** ** The reordered array and the caller's array *)

(** X3: the array [reorderedTriangles] that [buildSync] fills agrees with
    the leaf ranges of the tree it returns: the entries of every leaf range
    are the triangles of the call that emitted the leaf, in its order. *)
Lemma reordered_matches_leaves (this : BVHBuilder) (triangles : list Triangle) (depth : Z)
      (root : CWBVHNode) (reordered : list Triangle) :
  buildSync this triangles depth [] = Returns (root, reordered) ->
  exists calls,
    leafCalls this (Z.to_nat depth) (presortedInfos this triangles) = Returns calls
    /\ matchesLeaves root calls reordered.
Proof.
  intros H. apply buildSync_Built in H.
  destruct (Built_leafCalls H) as [calls [E [_ M]]].
  exists calls. split; [ exact E |].
  specialize (M []). now rewrite app_nil_r in M.
Qed.

(** In the background mode, with the worker of the spec, the caller's array
    becomes the reordered array. *)
Lemma build_worker_copies_back (this : BVHBuilder) (triangles : list Triangle) (depth : Z)
      (reportProgress : bool) (root : CWBVHNode) (reordered : list Triangle) :
  useWorker this = true ->
  buildSync this triangles depth [] = Returns (root, reordered) ->
  build {| hasWorker := true; startWorker := specWorker this |} this triangles depth
        reportProgress
  = Returns (Fulfilled root, reordered).
Proof.
  intros Hw H. unfold build, specWorker. cbn [hasWorker startWorker].
  rewrite Hw, H. reflexivity.
Qed.

(** In both synchronous modes the caller's array is left as it was. *)
Lemma build_sync_array_untouched (host : Host) (this : BVHBuilder) (triangles : list Triangle)
      (depth : Z) (reportProgress : bool) (p : PromiseState) (after : list Triangle) :
  (useWorker this && hasWorker host = false
   \/ exists error,
       startWorker host triangles depth reportProgress = ConstructorThrows error
       \/ startWorker host triangles depth reportProgress = PostMessageThrows error) ->
  build host this triangles depth reportProgress = Returns (p, after) ->
  after = triangles.
Proof.
  unfold build. intros [Hoff | [error [Hs | Hs]]] H.
  - rewrite Hoff in H.
    destruct (buildSync this triangles depth []) as [[root r] | e]; simpl in H;
      [ now inversion H | discriminate ].
  - destruct (useWorker this && hasWorker host).
    + rewrite Hs in H.
      destruct (buildSync this triangles depth []) as [[root r] | e]; now inversion H.
    + destruct (buildSync this triangles depth []) as [[root r] | e]; simpl in H;
        [ now inversion H | discriminate ].
  - destruct (useWorker this && hasWorker host).
    + rewrite Hs in H.
      destruct (buildSync this triangles depth []) as [[root r] | e]; now inversion H.
    + destruct (buildSync this triangles depth []) as [[root r] | e]; simpl in H;
        [ now inversion H | discriminate ].
Qed.

(** C1 at ten triangles with centroids 9, ..., 0: without a worker, and
    with a worker whose creation fails, the promise is fulfilled with the
    root, the array [reorderedTriangles] of [buildSync] agrees with the
    leaf ranges, and the caller's array is still in its old order, which
    does not agree with them. *)
Theorem build_sync_paths_keep_caller_order :
  exists root reordered calls,
    buildSync newBVHBuilder Examples.descendingTen 30 [] = Returns (root, reordered)
    /\ leafCalls newBVHBuilder 30 (presortedInfos newBVHBuilder Examples.descendingTen)
       = Returns calls
    /\ build Examples.noWorkerHost newBVHBuilder Examples.descendingTen 30 false
       = Returns (Fulfilled root, Examples.descendingTen)
    /\ build Examples.brokenWorkerHost newBVHBuilder Examples.descendingTen 30 false
       = Returns (Fulfilled root, Examples.descendingTen)
    /\ matchesLeaves root calls reordered
    /\ ~ matchesLeaves root calls Examples.descendingTen.
Proof.
  eexists _, _, _.
  split; [ vm_compute; reflexivity |].
  split; [ vm_compute; reflexivity |].
  split; [ vm_compute; reflexivity |].
  split; [ vm_compute; reflexivity |].
  split.
  - unfold matchesLeaves. vm_compute. repeat constructor.
  - unfold matchesLeaves. vm_compute. intros H. inversion H as [| ? ? ? ? Hslice _]; subst.
    discriminate Hslice.
Qed.

(** ** Failure to create the worker *)

(** C7: when the [Worker] constructor throws, [build] runs [buildSync] in
    the caller's context; the promise is fulfilled with the root that
    [buildSync] returns (and rejected with the exception of [buildSync] if
    it throws one); the error of the constructor reaches the caller neither
    as an exception of [build] nor as a rejection. *)
Theorem worker_creation_failure_falls_back (host : Host) (this : BVHBuilder)
        (triangles : list Triangle) (depth : Z) (reportProgress : bool)
        (error : String.string) :
  useWorker this = true ->
  hasWorker host = true ->
  startWorker host triangles depth reportProgress = ConstructorThrows error ->
  build host this triangles depth reportProgress
  = Returns (match buildSync this triangles depth [] with
             | Returns (root, _) => Fulfilled root
             | Throws e => Rejected (Thrown e)
             end, triangles)
  /\ (forall root reordered,
         buildSync this triangles depth [] = Returns (root, reordered) ->
         build host this triangles depth reportProgress = Returns (Fulfilled root, triangles))
  /\ (forall p after,
         build host this triangles depth reportProgress = Returns (p, after) ->
         forall message, p <> Rejected (WorkerFailed message)).
Proof.
  intros Hw Hh Hs. unfold build. rewrite Hw, Hh, Hs. cbn [andb].
  repeat split.
  - destruct (buildSync this triangles depth []) as [[root r] | e]; reflexivity.
  - intros root reordered ->. reflexivity.
  - intros p after H message ->.
    destruct (buildSync this triangles depth []) as [[root r] | e]; inversion H.
Qed.

Lemma worker_creation_failure_falls_back_witness :
  build Examples.brokenWorkerHost newBVHBuilder Examples.evenTen 30 false
  = Returns (match buildSync newBVHBuilder Examples.evenTen 30 [] with
             | Returns (root, _) => Fulfilled root
             | Throws e => Rejected (Thrown e)
             end, Examples.evenTen)
  /\ (forall root reordered,
         buildSync newBVHBuilder Examples.evenTen 30 [] = Returns (root, reordered) ->
         build Examples.brokenWorkerHost newBVHBuilder Examples.evenTen 30 false
         = Returns (Fulfilled root, Examples.evenTen))
  /\ (forall p after,
         build Examples.brokenWorkerHost newBVHBuilder Examples.evenTen 30 false
         = Returns (p, after) ->
         forall message, p <> Rejected (WorkerFailed message)).
Proof.
  apply (@worker_creation_failure_falls_back Examples.brokenWorkerHost newBVHBuilder
           Examples.evenTen 30 false WorkerText.creationFailed);
    reflexivity.
Defined.

(** ** Overflow in the binned split *)

(** C6 at nine triangles with finite coordinates, one of them with
    x = 2^1023 at its three vertices: the sum of the three overflows, the
    centroid has x = Infinity, the bin index of that triangle is NaN, and
    [buildSync] throws. *)
Theorem overflow_build_throws :
  Examples.overflowNine <> []
  /\ finiteCoordinates Examples.overflowNine = true
  /\ x (centroid (newTriangleInfo Examples.hugeTriangle 0)) = F64.infinity
  /\ buildSync newBVHBuilder Examples.overflowNine 30 [] = Throws TypeError.
Proof.
  split; [ discriminate |]. repeat split; vm_compute; reflexivity.
Qed.

(** ** The two sides of a partition *)

Lemma SFcompare_swap (a b : F64.float) :
  SFcompare b a = option_map CompOpp (SFcompare a b).
Proof.
  destruct a as [[] | [] | | [] ma ea], b as [[] | [] | | [] mb eb]; try reflexivity;
    unfold SFcompare;
    change (Pos.compare_cont Eq mb ma) with (Pos.compare mb ma);
    change (Pos.compare_cont Eq ma mb) with (Pos.compare ma mb);
    rewrite (Z.compare_antisym ea eb), (Pos.compare_antisym ma mb);
    destruct (Z.compare ea eb), (Pos.compare ma mb); reflexivity.
Qed.

(** Between two numbers, [a <= b] fails exactly when [a > b] holds. *)
Lemma not_leb_gtb (a b : F64.float) :
  F64.is_nan a = false -> F64.is_nan b = false -> negb (F64.leb a b) = F64.gtb a b.
Proof.
  intros Ha Hb. unfold F64.leb, F64.gtb, SFleb, SFltb. rewrite (SFcompare_swap a b).
  destruct (SFcompare a b) as [[] |] eqn:E; try reflexivity.
  destruct a as [[] | [] | | [] ma ea], b as [[] | [] | | [] mb eb]; discriminate.
Qed.

(** C10, amended: on an axis 0, 1 or 2, [partitionTrianglesOptimized]
    returns the elements whose centroid component is [<=] the split
    position, in input order, and the elements for which that test fails,
    in input order; the two lists together hold every element once.  The
    second list is the list of the elements whose component is [>] the
    split position when neither that position nor any component is NaN. *)
Theorem partition_is_stable (triangleInfos : list TriangleInfo) (axis : Z)
        (splitPos : F64.float) :
  (0 <= axis <= 2)%Z ->
  exists leftTris rightTris,
    partitionTrianglesOptimized triangleInfos axis splitPos = Returns (leftTris, rightTris)
    /\ leftTris
       = filter (fun t => F64.leb (Vec.component (centroid t) axis) splitPos) triangleInfos
    /\ rightTris
       = filter (fun t => negb (F64.leb (Vec.component (centroid t) axis) splitPos))
                triangleInfos
    /\ Permutation (leftTris ++ rightTris) triangleInfos
    /\ (F64.is_nan splitPos = false ->
        (forall t, In t triangleInfos ->
                   F64.is_nan (Vec.component (centroid t) axis) = false) ->
        rightTris
        = filter (fun t => F64.gtb (Vec.component (centroid t) axis) splitPos) triangleInfos).
Proof.
  intros Haxis. eexists _, _. split; [ now apply partition_valid_axis |].
  split; [ reflexivity |]. split; [ reflexivity |].
  split; [ apply (filter_split_Permutation (goesLeft axis splitPos)) |].
  intros Hpos Hall. apply filter_ext_in. intros t Ht.
  unfold goesLeft. apply not_leb_gtb; auto.
Qed.

Lemma partition_is_stable_witness :
  exists leftTris rightTris,
    partitionTrianglesOptimized (toTriangleInfos Examples.evenTen) 0 (F64.ofZ 4)
    = Returns (leftTris, rightTris)
    /\ leftTris
       = filter (fun t => F64.leb (Vec.component (centroid t) 0) (F64.ofZ 4))
                (toTriangleInfos Examples.evenTen)
    /\ rightTris
       = filter (fun t => negb (F64.leb (Vec.component (centroid t) 0) (F64.ofZ 4)))
                (toTriangleInfos Examples.evenTen)
    /\ Permutation (leftTris ++ rightTris) (toTriangleInfos Examples.evenTen)
    /\ (F64.is_nan (F64.ofZ 4) = false ->
        (forall t, In t (toTriangleInfos Examples.evenTen) ->
                   F64.is_nan (Vec.component (centroid t) 0) = false) ->
        rightTris
        = filter (fun t => F64.gtb (Vec.component (centroid t) 0) (F64.ofZ 4))
                 (toTriangleInfos Examples.evenTen)).
Proof.
  apply (@partition_is_stable (toTriangleInfos Examples.evenTen) 0 (F64.ofZ 4)). lia.
Defined.

(** C10 as stated fails where NaN is involved: an element goes right when
    the test [<=] fails, and with a NaN split position or a NaN centroid
    component it fails although the component is not [>] the position. *)
Lemma partition_right_side_not_greater :
  (partitionTrianglesOptimized [newTriangleInfo (Examples.triAt 5) 0] 0 F64.nan
   = Returns ([], [newTriangleInfo (Examples.triAt 5) 0])
   /\ filter (fun t => F64.gtb (Vec.component (centroid t) 0) F64.nan)
             [newTriangleInfo (Examples.triAt 5) 0] = [])
  /\ (partitionTrianglesOptimized [newTriangleInfo Examples.triNaN 0] 0 F64.zero
      = Returns ([], [newTriangleInfo Examples.triNaN 0])
      /\ filter (fun t => F64.gtb (Vec.component (centroid t) 0) F64.zero)
                [newTriangleInfo Examples.triNaN 0] = []).
Proof. repeat split; vm_compute; reflexivity. Qed.

(** ** Morton keys *)

Lemma interleave3_sum (bits : nat) (x y z : Z) :
  interleave3 bits x y z
  = (interleave3 bits x 0 0 + 2 * interleave3 bits y 0 0 + 4 * interleave3 bits z 0 0)%Z.
Proof.
  induction bits as [| b IH]; [ reflexivity |].
  cbn [interleave3]. rewrite IH, !Z.bits_0. cbn [Z.b2z].
  rewrite !Z.pow_add_r by lia. change (2 ^ 1)%Z with 2%Z. change (2 ^ 2)%Z with 4%Z.
  ring.
Qed.

Lemma interleave3_beyond (bits extra : nat) (x y z : Z) :
  (0 <= x < 2 ^ Z.of_nat bits)%Z ->
  (0 <= y < 2 ^ Z.of_nat bits)%Z ->
  (0 <= z < 2 ^ Z.of_nat bits)%Z ->
  interleave3 (bits + extra) x y z = interleave3 bits x y z.
Proof.
  intros Hx Hy Hz.
  assert (high : forall v i, (0 <= v < 2 ^ Z.of_nat bits)%Z -> (bits <= i)%nat ->
                             Z.testbit v (Z.of_nat i) = false).
  { intros v i Hv Hi. rewrite <- (Z.mod_small v (2 ^ Z.of_nat bits)) by lia.
    apply Z.mod_pow2_bits_high. lia. }
  induction extra as [| k IH]; [ now rewrite Nat.add_0_r |].
  rewrite Nat.add_succ_r. cbn [interleave3].
  rewrite IH, !high by (assumption || lia). cbn [Z.b2z]. lia.
Qed.

Lemma checked_below (P : Z -> bool) (n : nat) :
  forallb (fun k => P (Z.of_nat k)) (seq 0 n) = true ->
  forall v, (0 <= v < Z.of_nat n)%Z -> P v = true.
Proof.
  intros H v Hv. rewrite forallb_forall in H.
  rewrite <- (Z2Nat.id v) by lia. apply H. apply in_seq. lia.
Qed.

(** On a 10-bit value [expandBits] puts bit [i] at bit [3i], and the two
    shifts of [morton3D] do not leave the 32 bits. *)
Lemma expandBits_ten_bits (v : Z) :
  (0 <= v < 1024)%Z ->
  expandBits v = interleave3 10 v 0 0
  /\ Int32.shl (expandBits v) 1 = (2 * interleave3 10 v 0 0)%Z
  /\ Int32.shl (expandBits v) 2 = (4 * interleave3 10 v 0 0)%Z.
Proof.
  intros Hv.
  assert (H : ((expandBits v =? interleave3 10 v 0 0)
               && (Int32.shl (expandBits v) 1 =? 2 * interleave3 10 v 0 0)
               && (Int32.shl (expandBits v) 2 =? 4 * interleave3 10 v 0 0))%Z = true).
  { apply (checked_below
             (fun v => ((expandBits v =? interleave3 10 v 0 0)
                        && (Int32.shl (expandBits v) 1 =? 2 * interleave3 10 v 0 0)
                        && (Int32.shl (expandBits v) 2 =? 4 * interleave3 10 v 0 0))%Z)
             1024); [ vm_compute; reflexivity | exact Hv ]. }
  rewrite !andb_true_iff, !Z.eqb_eq in H. tauto.
Qed.

(** X1: up to 10 bits per axis the key of [morton3D] is the bit-by-bit
    interleaving of the three quantized coordinates. *)
Lemma morton3D_interleaves (bits : Z) (x y z : Z) :
  (0 <= bits <= 10)%Z ->
  (0 <= x <= 2 ^ bits - 1)%Z ->
  (0 <= y <= 2 ^ bits - 1)%Z ->
  (0 <= z <= 2 ^ bits - 1)%Z ->
  morton3D x y z = interleave3 (Z.to_nat bits) x y z.
Proof.
  intros Hb Hx Hy Hz.
  assert (Hpow : (2 ^ bits <= 2 ^ 10)%Z) by (apply Z.pow_le_mono_r; lia).
  change (2 ^ 10)%Z with 1024%Z in Hpow.
  destruct (@expandBits_ten_bits x) as [Ex _]; [ lia |].
  destruct (@expandBits_ten_bits y) as [_ [Ey _]]; [ lia |].
  destruct (@expandBits_ten_bits z) as [_ [_ Ez]]; [ lia |].
  transitivity (interleave3 10 x y z).
  - unfold morton3D. rewrite Ex, Ey, Ez, (interleave3_sum 10 x y z). lia.
  - replace 10%nat with (Z.to_nat bits + (10 - Z.to_nat bits))%nat by lia.
    apply interleave3_beyond; rewrite Z2Nat.id by lia; lia.
Qed.

(** C8 at 11 bits per axis, a depth that [setMortonConfig] accepts: the
    quantized coordinates reach 2047, and bit 10 of z is lost by the shift,
    so [(0, 0, 1024)] has the key of [(0, 0, 0)]; bit 10 of y becomes the
    sign, so [(0, 1024, 0)] has a negative key; two centroids that quantize
    to z = 2047 and z = 1023 have the same key. *)
Theorem eleven_bit_keys_are_not_interleaved :
  mortonBits Examples.elevenBits = 11%Z
  /\ (1024 <= 2 ^ 11 - 1)%Z
  /\ morton3D 0 0 1024 = 0%Z
  /\ interleave3 11 0 0 1024 = (2 ^ 32)%Z
  /\ morton3D 0 1024 0 = (- 2 ^ 31)%Z
  /\ interleave3 11 0 1024 0 = (2 ^ 31)%Z
  /\ computeMortonCode Examples.elevenBits (Examples.vec 0 0 2047)
       (Examples.vec 0 0 0) (Examples.vec 2047 2047 2047)
     = computeMortonCode Examples.elevenBits (Examples.vec 0 0 1023)
         (Examples.vec 0 0 0) (Examples.vec 2047 2047 2047).
Proof. repeat split; vm_compute; reflexivity || discriminate. Qed.

(** The presort orders by key. *)
Section SortedByKey.
Context {A : Type}.
Variable key : A -> Z.

Lemma sort_insert_sorted (a : A) (l : list A) :
  StronglySorted (fun u v => (key u <= key v)%Z) l ->
  StronglySorted (fun u v => (key u <= key v)%Z)
                 (sort_insert (fun u v => (key u - key v <? 0)%Z) a l).
Proof.
  induction 1 as [| b rest Hs IH Hb]; cbn [sort_insert].
  - constructor; constructor.
  - destruct (key a - key b <? 0)%Z eqn:E.
    + apply Z.ltb_lt in E. constructor; [ constructor; assumption |].
      constructor; [ lia |].
      rewrite Forall_forall in *. intros v Hv. specialize (Hb v Hv). lia.
    + apply Z.ltb_ge in E. constructor; [ exact IH |].
      rewrite Forall_forall in *. intros v Hv.
      apply (Permutation_in _ (sort_insert_Permutation _ a rest)) in Hv.
      destruct Hv as [<- | Hv]; [ lia | auto ].
Qed.

Lemma Array_sort_sorted (l : list A) :
  StronglySorted (fun u v => (key u <= key v)%Z)
                 (Array_sort (fun u v => (key u - key v <? 0)%Z) l).
Proof.
  unfold Array_sort.
  assert (H : StronglySorted (fun u v => (key u <= key v)%Z) []) by constructor.
  revert H. generalize (@nil A).
  induction l as [| a l IH]; intros sorted Hs; cbn [fold_left]; [ exact Hs |].
  apply IH. now apply sort_insert_sorted.
Qed.

End SortedByKey.

(** X2: when the presort runs (Morton codes enabled, at least
    [mortonClusterThreshold] triangles), it returns the triangle infos in
    ascending order of their keys, each key computed from the centroid and
    the box of all centroids. *)
Lemma sortTrianglesByMortonCode_ascending (this : BVHBuilder) (infos : list TriangleInfo) :
  useMortonCodes this = true ->
  (mortonClusterThreshold this <= Z.of_nat (length infos))%Z ->
  StronglySorted (fun u v => (mortonCode u <= mortonCode v)%Z)
                 (sortTrianglesByMortonCode this infos)
  /\ forall t, In t (sortTrianglesByMortonCode this infos) ->
               exists t0, In t0 infos
                          /\ triangle t = triangle t0
                          /\ mortonCode t
                             = computeMortonCode this (centroid t0) (fst (sceneBounds infos))
                                                 (snd (sceneBounds infos)).
Proof.
  intros Hm Ht. unfold sortTrianglesByMortonCode. rewrite Hm. cbn [negb orb].
  assert ((Z.of_nat (length infos) <? mortonClusterThreshold this)%Z = false) as ->
      by (apply Z.ltb_ge; lia).
  destruct (sceneBounds infos) as [sceneMin sceneMax]. cbn [fst snd]. split.
  - apply Array_sort_sorted.
  - intros t Hin.
    apply (Permutation_in _ (Array_sort_Permutation _ _)) in Hin.
    apply in_map_iff in Hin. destruct Hin as [t0 [<- H0]].
    exists t0. repeat split; assumption.
Qed.

(** ** What a failed split and a thrown exception amount to *)

(** X5: a split that the selector reports as failed is no error: the call
    returns the node as a leaf with all its triangles. *)
Lemma split_failure_emits_leaf (this : BVHBuilder) (depth : nat) (infos : list TriangleInfo)
      (r : list Triangle) (method : SplitMethod) :
  findBestSplitPositionSAH this infos (freshNode infos) = Returns (NoSplit method) ->
  buildNodeRecursive this depth infos r = Returns (emitLeaf (freshNode infos) infos r).
Proof.
  intros H. destruct depth as [| depth]; [ reflexivity |].
  cbn [buildNodeRecursive].
  destruct (Z.of_nat (length infos) <=? maxLeafSize this)%Z; [ reflexivity |].
  rewrite H. reflexivity.
Qed.

Lemma chosen_axis {S : Type} (proj : S -> Z) (step : S -> Z -> S) :
  (forall s axis, proj (step s axis) = proj s \/ proj (step s axis) = axis) ->
  forall axes s,
    proj (fold_left step axes s) = proj s \/ In (proj (fold_left step axes s)) axes.
Proof.
  intros Hstep. induction axes as [| axis axes IH]; intros s; cbn [fold_left]; [ now left |].
  destruct (IH (step s axis)) as [E | E]; [| right; now right ].
  rewrite E. destruct (Hstep s axis) as [E' | E']; [ now left | right; now left ].
Qed.

Lemma findSpatialMedianSplit_axis (infos : list TriangleInfo) (axis : Z) (pos : F64.float)
      (method : SplitMethod) :
  findSpatialMedianSplit infos = Split axis pos method -> (0 <= axis <= 2)%Z.
Proof.
  unfold findSpatialMedianSplit.
  pose proof (@chosen_axis _ (fun s => fst (fst s)) (widerBoundAxis infos)) as Hc.
  specialize (Hc (fun s a =>
                    ltac:(unfold widerBoundAxis; destruct (boundRange infos a);
                          destruct (F64.gtb _ _); [ now right | now left ]))
                 [0; 1; 2]%Z ((-1)%Z, F64.lit_m1, (F64.nan, F64.nan))).
  destruct (fold_left _ _ _) as [[bestAxis bestSpread] bestBounds]. cbn [fst snd] in Hc.
  intros H.
  destruct (bestAxis =? -1)%Z eqn:E; cbn [orb] in H; [ discriminate |].
  apply Z.eqb_neq in E.
  assert (Haxis : (0 <= bestAxis <= 2)%Z) by (cbn [In] in Hc; lia).
  repeat match type of H with
         | context [if ?c then _ else _] => destruct c
         end;
    try discriminate; inversion H; subst; exact Haxis.
Qed.

Lemma findObjectMedianSplit_axis (this : BVHBuilder) (infos : list TriangleInfo) (axis : Z)
      (pos : F64.float) (method : SplitMethod) :
  findObjectMedianSplit this infos = Returns (Split axis pos method) -> (0 <= axis <= 2)%Z.
Proof.
  unfold findObjectMedianSplit, widestCentroidAxis.
  pose proof (@chosen_axis _ (fun s => fst s) (widerCentroidAxis infos)) as Hc.
  specialize (Hc (fun s a =>
                    ltac:(unfold widerCentroidAxis; destruct (centroidRange infos a);
                          destruct (F64.gtb _ _); [ now right | now left ]))
                 [0; 1; 2]%Z ((-1)%Z, F64.lit_m1)).
  destruct (fold_left _ _ _) as [bestAxis bestSpread]. cbn [fst snd] in Hc.
  intros H.
  destruct (bestAxis =? -1)%Z eqn:E; cbn [orb] in H.
  - destruct (enableSpatialMedianFallback this); [| discriminate ].
    inversion H. eapply findSpatialMedianSplit_axis; eassumption.
  - apply Z.eqb_neq in E.
    assert (Haxis : (0 <= bestAxis <= 2)%Z) by (cbn [In] in Hc; lia).
    repeat match type of H with
           | context [if ?c then _ else _] => destruct c
           | bind ?r _ = Returns _ => destruct r; cbn [bind] in H
           end;
      try discriminate;
      inversion H; subst; try exact Haxis;
      eapply findSpatialMedianSplit_axis; eassumption.
Qed.

Lemma evaluatePlane_axis (this : BVHBuilder) (parentSA leafCost : F64.float) (axis : Z)
      (lo hi : F64.float) (n : Z) (bins : list Bin) (i : nat) (best : Best) :
  snd (fst (evaluatePlane this parentSA leafCost axis lo hi n bins best i)) = snd (fst best)
  \/ snd (fst (evaluatePlane this parentSA leafCost axis lo hi n bins best i)) = axis.
Proof.
  unfold evaluatePlane. destruct best as [[bestCost bestAxis] bestPos].
  destruct (accumulateBins (firstn i bins)) as [lc lb].
  destruct (accumulateBins (skipn i bins)) as [rc rb].
  destruct ((lc =? 0)%Z || (rc =? 0)%Z); [ now left |].
  match goal with
  | |- context [if ?c then _ else _] => destruct c
  end; [ now right | now left ].
Qed.

Lemma evaluateAxis_axis (this : BVHBuilder) (infos : list TriangleInfo)
      (parentSA leafCost : F64.float) (n : Z) (best best' : Best) (axis : Z) :
  evaluateAxis this infos parentSA leafCost n best axis = Returns best' ->
  snd (fst best') = snd (fst best) \/ snd (fst best') = axis.
Proof.
  unfold evaluateAxis. destruct (centroidRange infos axis) as [lo hi].
  destruct (F64.ltb (F64.sub hi lo) F64.lit_1e_6); [ intros H; inversion H; now left |].
  intros H. inv_bind H. inv_bind H. inversion H; subst. clear H.
  generalize (seq 1 (Z.to_nat n - 1)). intros planes. revert best.
  induction planes as [| i planes IH]; intros best; cbn [fold_left]; [ now left |].
  destruct (IH (evaluatePlane this parentSA leafCost axis lo hi n a0 best i)) as [E | E];
    [| now right ].
  rewrite E. apply evaluatePlane_axis.
Qed.

Lemma findBestSplitPositionSAH_axis (this : BVHBuilder) (infos : list TriangleInfo)
      (parentNode : CWBVHNode) (axis : Z) (pos : F64.float) (method : SplitMethod) :
  findBestSplitPositionSAH this infos parentNode = Returns (Split axis pos method) ->
  (0 <= axis <= 2)%Z.
Proof.
  unfold findBestSplitPositionSAH. cbn [foldM]. intros H.
  inv_bind H. destruct a as [[bestCost bestAxis] bestPos].
  inv_bind Ha. inv_bind Ha. inv_bind Ha. inversion Ha; subst; clear Ha.
  apply evaluateAxis_axis in Ha0, Ha1, Ha2. cbn [fst snd] in *.
  destruct (bestAxis =? -1)%Z eqn:E.
  - destruct (enableObjectMedianFallback this);
      [ eapply findObjectMedianSplit_axis; eassumption |].
    destruct (enableSpatialMedianFallback this); [| discriminate ].
    inversion H. eapply findSpatialMedianSplit_axis; eassumption.
  - apply Z.eqb_neq in E. inversion H; subst. lia.
Qed.

Lemma foldM_TypeError {A S : Type} (f : S -> A -> Result S) :
  (forall s a e, f s a = Throws e -> e = TypeError) ->
  forall xs s e, foldM f xs s = Throws e -> e = TypeError.
Proof.
  intros Hf. induction xs as [| a xs IH]; intros s e H; cbn [foldM] in H; [ discriminate |].
  destruct (f s a) as [s' | e'] eqn:E; cbn [bind] in H.
  - eapply IH; eassumption.
  - inversion H; subst. eapply Hf; eassumption.
Qed.

Lemma findObjectMedianSplit_TypeError (this : BVHBuilder) (infos : list TriangleInfo)
      (e : JSError) :
  findObjectMedianSplit this infos = Throws e -> e = TypeError.
Proof.
  unfold findObjectMedianSplit, centroidAt. destruct (widestCentroidAxis infos) as [a s].
  intros H.
  repeat match type of H with
         | context [if ?c then _ else _] => destruct c
         | context [match nth_error ?l ?i with _ => _ end] => destruct (nth_error l i)
         | bind _ _ = Throws _ => cbn [bind] in H
         end;
    try discriminate; now inversion H.
Qed.

Lemma findBestSplitPositionSAH_TypeError (this : BVHBuilder) (infos : list TriangleInfo)
      (parentNode : CWBVHNode) (e : JSError) :
  findBestSplitPositionSAH this infos parentNode = Throws e -> e = TypeError.
Proof.
  unfold findBestSplitPositionSAH. intros H.
  match type of H with
  | bind ?r _ = _ => destruct r as [[[bestCost bestAxis] bestPos] | e'] eqn:E
  end; cbn [bind] in H.
  - destruct (bestAxis =? -1)%Z; [| discriminate ].
    destruct (enableObjectMedianFallback this);
      [ eapply findObjectMedianSplit_TypeError; eassumption |].
    destruct (enableSpatialMedianFallback this); discriminate.
  - inversion H; subst. revert E. apply foldM_TypeError.
    intros best axis e0. unfold evaluateAxis.
    destruct (centroidRange infos axis) as [lo hi].
    destruct (F64.ltb (F64.sub hi lo) F64.lit_1e_6); [ discriminate |].
    unfold resetBins.
    destruct (Z.max 0 (maxBins this) <? getOptimalBinCount this (length infos))%Z;
      cbn [bind]; [ intros H0; now inversion H0 |].
    match goal with
    | |- bind ?r _ = _ -> _ => destruct r as [bins | e1] eqn:E1
    end; cbn [bind]; [ discriminate |].
    intros H0. inversion H0; subst. revert E1. apply foldM_TypeError.
    intros bins t e2. unfold placeTriangle.
    destruct (binAt _ _) as [[k [count b]] |]; [ discriminate | intros H1; now inversion H1 ].
Qed.

(** The only exception that leaves [buildNodeRecursive] is the
    [TypeError] of a read on [undefined]. *)
Lemma buildNodeRecursive_TypeError (this : BVHBuilder) :
  forall depth infos r e, buildNodeRecursive this depth infos r = Throws e -> e = TypeError.
Proof.
  induction depth as [| depth IH]; intros infos r e H; [ discriminate |].
  cbn [buildNodeRecursive] in H.
  destruct (Z.of_nat (length infos) <=? maxLeafSize this)%Z; [ discriminate |].
  destruct (findBestSplitPositionSAH this infos (freshNode infos))
    as [[axis pos method | method] | e'] eqn:Hs; cbn [bind] in H.
  - apply findBestSplitPositionSAH_axis in Hs.
    rewrite partition_valid_axis in H by assumption. cbn [bind] in H.
    destruct (_ || _); [ discriminate |].
    destruct (buildNodeRecursive this depth (filter (goesLeft axis pos) infos) r)
      as [[leftNode r1] | e1] eqn:El; cbn [bind] in H.
    + destruct (buildNodeRecursive this depth
                  (filter (fun t => negb (goesLeft axis pos t)) infos) r1)
        as [[rightNode r2] | e2] eqn:Er; cbn [bind] in H; [ discriminate |].
      inversion H; subst. eapply IH; eassumption.
    + inversion H; subst. eapply IH; eassumption.
  - discriminate.
  - inversion H; subst. eapply findBestSplitPositionSAH_TypeError; eassumption.
Qed.

(** X4: [buildSync] completes for every input: it returns a root and the
    filled array, or throws the [TypeError] of a read on [undefined]. *)
Lemma buildSync_completes (this : BVHBuilder) (triangles : list Triangle) (depth : Z)
      (r : list Triangle) :
  (exists root reordered, buildSync this triangles depth r = Returns (root, reordered))
  \/ buildSync this triangles depth r = Throws TypeError.
Proof.
  destruct (buildSync this triangles depth r) as [[root reordered] | e] eqn:E.
  - left. now exists root, reordered.
  - right. f_equal. unfold buildSync in E. eapply buildNodeRecursive_TypeError; eassumption.
Qed.

(** ** Instances *)

(** X6: the presort only reorders: the triangles of the infos that reach
    the root call are a permutation of the input triangles. *)
Lemma presort_permutes_triangles (this : BVHBuilder) (triangles : list Triangle) :
  Permutation (map triangle (presortedInfos this triangles)) triangles
  /\ length (presortedInfos this triangles) = length triangles.
Proof.
  split; [ apply presortedInfos_triangles | apply presortedInfos_length ].
Qed.

Lemma morton3D_interleaves_witness : morton3D 1 1 2 = interleave3 (Z.to_nat 10) 1 1 2.
Proof.
  apply (@morton3D_interleaves 10 1 1 2); change (2 ^ 10 - 1)%Z with 1023%Z; lia.
Defined.

Lemma sortTrianglesByMortonCode_ascending_witness :
  StronglySorted (fun u v => (mortonCode u <= mortonCode v)%Z)
                 (sortTrianglesByMortonCode Examples.sixteenThreshold
                    (toTriangleInfos Examples.descendingSixteen))
  /\ forall t,
      In t (sortTrianglesByMortonCode Examples.sixteenThreshold
              (toTriangleInfos Examples.descendingSixteen)) ->
      exists t0,
        In t0 (toTriangleInfos Examples.descendingSixteen)
        /\ triangle t = triangle t0
        /\ mortonCode t
           = computeMortonCode Examples.sixteenThreshold (centroid t0)
               (fst (sceneBounds (toTriangleInfos Examples.descendingSixteen)))
               (snd (sceneBounds (toTriangleInfos Examples.descendingSixteen))).
Proof.
  apply (@sortTrianglesByMortonCode_ascending Examples.sixteenThreshold
           (toTriangleInfos Examples.descendingSixteen));
    [ reflexivity | vm_compute; discriminate ].
Defined.

Lemma reordered_matches_leaves_witness :
  exists root reordered calls,
    buildSync newBVHBuilder Examples.descendingTen 30 [] = Returns (root, reordered)
    /\ leafCalls newBVHBuilder (Z.to_nat 30) (presortedInfos newBVHBuilder Examples.descendingTen)
       = Returns calls
    /\ matchesLeaves root calls reordered.
Proof.
  destruct (buildSync newBVHBuilder Examples.descendingTen 30 [])
    as [[root reordered] | e] eqn:E; [| vm_compute in E; discriminate ].
  destruct (@reordered_matches_leaves newBVHBuilder Examples.descendingTen 30 root reordered E)
    as [calls [Hc Hm]].
  exists root, reordered, calls. split; [ reflexivity |]. split; assumption.
Defined.

Lemma split_failure_emits_leaf_witness :
  buildNodeRecursive newBVHBuilder 30 (toTriangleInfos Examples.nineSame) []
  = Returns (emitLeaf (freshNode (toTriangleInfos Examples.nineSame))
                      (toTriangleInfos Examples.nineSame) []).
Proof.
  apply (@split_failure_emits_leaf newBVHBuilder 30 (toTriangleInfos Examples.nineSame) []
           spatial_median_degenerate).
  vm_compute. reflexivity.
Defined.

(* ================================================================= *)
(** ** No triangles, few triangles, no depth *)

Lemma findSpatialMedianSplit_nil : findSpatialMedianSplit [] = NoSplit spatial_median_failed.
Proof. reflexivity. Qed.

Lemma findObjectMedianSplit_nil (this : BVHBuilder) :
  exists method, findObjectMedianSplit this [] = Returns (NoSplit method).
Proof.
  unfold findObjectMedianSplit.
  change (widestCentroidAxis []) with ((-1)%Z, F64.lit_m1). cbn [Z.eqb orb].
  destruct (enableSpatialMedianFallback this); eexists; reflexivity.
Qed.

Lemma findBestSplitPositionSAH_nil (this : BVHBuilder) (parentNode : CWBVHNode) :
  exists method, findBestSplitPositionSAH this [] parentNode = Returns (NoSplit method).
Proof.
  unfold findBestSplitPositionSAH.
  assert (Haxis : forall best axis parentSA leafCost n,
             evaluateAxis this [] parentSA leafCost n best axis = Returns best).
  { intros best axis parentSA leafCost n. reflexivity. }
  cbn [foldM]. rewrite !Haxis. cbn [bind Z.eqb].
  destruct (enableObjectMedianFallback this); [ apply findObjectMedianSplit_nil |].
  destruct (enableSpatialMedianFallback this); eexists; reflexivity.
Qed.

Lemma presortedInfos_nil (this : BVHBuilder) : presortedInfos this [] = [].
Proof.
  unfold presortedInfos, sortTrianglesByMortonCode. cbn.
  destruct (negb (useMortonCodes this) || (0 <? mortonClusterThreshold this)%Z); reflexivity.
Qed.

(** X7: for every configuration, depth and array passed in, a build of no
    triangles returns one leaf with count 0, the offset at the end of the
    array and the box [(+Infinity, -Infinity)], and leaves the array as it
    is; no split is tried into an exception. *)
Lemma buildSync_empty_input (this : BVHBuilder) (depth : Z) (r : list Triangle) :
  buildSync this [] depth r = Returns (emptyLeaf (length r), r).
Proof.
  unfold buildSync. rewrite presortedInfos_nil.
  assert (Hleaf : emitLeaf (freshNode []) [] r = (emptyLeaf (length r), r)).
  { unfold emitLeaf, emptyLeaf. cbn. now rewrite app_nil_r. }
  destruct (Z.to_nat depth) as [| d]; cbn [buildNodeRecursive]; [ now rewrite Hleaf |].
  destruct (Z.of_nat (length (@nil TriangleInfo)) <=? maxLeafSize this)%Z; [ now rewrite Hleaf |].
  destruct (findBestSplitPositionSAH_nil this (freshNode [])) as [method ->].
  cbn [bind]. now rewrite Hleaf.
Qed.

Lemma presort_skipped (this : BVHBuilder) (triangles : list Triangle) :
  (Z.of_nat (length triangles) <= 50000)%Z ->
  useMortonCodes this = false
  \/ (Z.of_nat (length triangles) < mortonClusterThreshold this)%Z ->
  presortedInfos this triangles = toTriangleInfos triangles.
Proof.
  intros Hlen Hskip. unfold presortedInfos.
  assert (Hl : length (toTriangleInfos triangles) = length triangles).
  { rewrite <- (length_map triangle). now rewrite triangle_toTriangleInfos. }
  rewrite Hl.
  assert ((50000 <? Z.of_nat (length triangles))%Z = false) as -> by (apply Z.ltb_ge; lia).
  unfold sortTrianglesByMortonCode. rewrite Hl.
  destruct Hskip as [-> | Hlt]; [ reflexivity |].
  assert ((Z.of_nat (length triangles) <? mortonClusterThreshold this)%Z = true) as ->
      by (apply Z.ltb_lt; lia).
  now rewrite orb_true_r.
Qed.

(** X8: when the input has at most [maxLeafSize] triangles or the depth is
    not positive, the tree is a single leaf that holds every triangle, in
    the order of the presort; if the presort is skipped (at most 50000
    triangles, and Morton codes disabled or fewer triangles than the
    threshold) that is the order of the input. *)
Lemma small_input_single_leaf (this : BVHBuilder) (triangles : list Triangle) (depth : Z)
      (r : list Triangle) :
  (Z.of_nat (length triangles) <= maxLeafSize this \/ depth <= 0)%Z ->
  exists root,
    buildSync this triangles depth r
    = Returns (root, r ++ map triangle (presortedInfos this triangles))
    /\ nodes root = [root]
    /\ isLeaf root = true
    /\ triangleOffset root = length r
    /\ triangleCount root = length triangles
    /\ ((Z.of_nat (length triangles) <= 50000)%Z ->
        useMortonCodes this = false
        \/ (Z.of_nat (length triangles) < mortonClusterThreshold this)%Z ->
        buildSync this triangles depth r = Returns (root, r ++ triangles)).
Proof.
  intros Hsmall.
  exists (fst (emitLeaf (freshNode (presortedInfos this triangles))
                        (presortedInfos this triangles) r)).
  assert (Hrun : buildSync this triangles depth r
                 = Returns (emitLeaf (freshNode (presortedInfos this triangles))
                                     (presortedInfos this triangles) r)).
  { unfold buildSync. destruct (Z.to_nat depth) as [| d] eqn:Ed; [ reflexivity |].
    cbn [buildNodeRecursive]. rewrite presortedInfos_length.
    assert ((Z.of_nat (length triangles) <=? maxLeafSize this)%Z = true) as ->
        by (apply Z.leb_le; lia).
    reflexivity. }
  split; [ exact Hrun |].
  split; [ reflexivity |]. split; [ reflexivity |]. split; [ reflexivity |].
  split; [ cbn; apply presortedInfos_length |].
  intros Hlen Hskip. rewrite Hrun. unfold emitLeaf. cbn [fst].
  rewrite (presort_skipped this triangles Hlen Hskip), triangle_toTriangleInfos. reflexivity.
Qed.

Lemma small_input_single_leaf_witness :
  exists root,
    buildSync newBVHBuilder Examples.descendingTen 0 []
    = Returns (root, [] ++ map triangle (presortedInfos newBVHBuilder Examples.descendingTen))
    /\ nodes root = [root]
    /\ isLeaf root = true
    /\ triangleOffset root = length (@nil Triangle)
    /\ triangleCount root = length Examples.descendingTen
    /\ ((Z.of_nat (length Examples.descendingTen) <= 50000)%Z ->
        useMortonCodes newBVHBuilder = false
        \/ (Z.of_nat (length Examples.descendingTen) < mortonClusterThreshold newBVHBuilder)%Z ->
        buildSync newBVHBuilder Examples.descendingTen 0 []
        = Returns (root, [] ++ Examples.descendingTen)).
Proof.
  apply (@small_input_single_leaf newBVHBuilder Examples.descendingTen 0 []).
  right. lia.
Defined.

Section Shape.
Variable this : BVHBuilder.

Lemma height_emitLeaf (infos : list TriangleInfo) (r : list Triangle) :
  height (fst (emitLeaf (freshNode infos) infos r)) = 0%nat.
Proof. reflexivity. Qed.

Lemma height_splitNode (infos : list TriangleInfo) (l rn : CWBVHNode) :
  height (splitNode infos l rn) = S (Nat.max (height l) (height rn)).
Proof. reflexivity. Qed.

Lemma Built_shape :
  forall depth infos r node r',
    Built this depth infos r node r' ->
    (length (nodes node) + 1 = 2 * length (leaves node))%nat
    /\ (height node <= depth)%nat
    /\ (length (leaves node) <= Nat.max 1 (length infos))%nat
    /\ (length (leaves node) <= 2 ^ height node)%nat.
Proof.
  induction 1 as [depth infos r Hreason
                 | depth infos r axis pos method leftTris rightTris leftNode r1 rightNode r2
                     Hsize Hsplit Hpart Hl Hr _ HBl IHl _ HBr IHr].
  - rewrite nodes_emitLeaf, leaves_emitLeaf, height_emitLeaf. cbn [length Nat.pow].
    repeat split; lia.
  - rewrite nodes_splitNode, leaves_splitNode, height_splitNode.
    cbn [length]. rewrite !length_app.
    destruct IHl as [Hn1 [Hh1 [Hc1 Hp1]]]. destruct IHr as [Hn2 [Hh2 [Hc2 Hp2]]].
    apply partition_returns in Hpart. destruct Hpart as [-> ->].
    pose proof (filter_split_length (goesLeft axis pos) infos) as Hlen.
    assert (0 < length (filter (goesLeft axis pos) infos))%nat
      by (destruct (filter (goesLeft axis pos) infos); [ congruence | cbn; lia ]).
    assert (0 < length (filter (fun t => negb (goesLeft axis pos t)) infos))%nat
      by (destruct (filter (fun t => negb (goesLeft axis pos t)) infos); [ congruence | cbn; lia ]).
    repeat split; try lia.
    cbn [Nat.pow].
    assert (2 ^ height leftNode <= 2 ^ Nat.max (height leftNode) (height rightNode))%nat
      by (apply Nat.pow_le_mono_r; lia).
    assert (2 ^ height rightNode <= 2 ^ Nat.max (height leftNode) (height rightNode))%nat
      by (apply Nat.pow_le_mono_r; lia).
    lia.
Qed.

Lemma Built_internal_fields :
  forall depth infos r node r',
    Built this depth infos r node r' ->
    Forall (fun n => isInternal n = true -> triangleOffset n = 0%nat /\ triangleCount n = 0%nat)
           (nodes node).
Proof.
  induction 1 as [depth infos r Hreason
                 | depth infos r axis pos method leftTris rightTris leftNode r1 rightNode r2
                     Hsize Hsplit Hpart Hl Hr _ HBl IHl _ HBr IHr].
  - rewrite nodes_emitLeaf. constructor; [| constructor ]. cbn. discriminate.
  - rewrite nodes_splitNode. constructor; [ intros _; split; reflexivity |].
    apply Forall_app. split; assumption.
Qed.

End Shape.

(** X9: a tree of [n] leaves has [2n - 1] nodes; no path from the root is
    longer than the depth passed in; there are at most as many leaves as
    triangles (one for an empty input) and at most [2 ^ height]. *)
Lemma tree_size_and_height (this : BVHBuilder) (triangles : list Triangle) (depth : Z)
      (r : list Triangle) (root : CWBVHNode) (reordered : list Triangle) :
  buildSync this triangles depth r = Returns (root, reordered) ->
  (length (nodes root) + 1 = 2 * length (leaves root))%nat
  /\ (Z.of_nat (height root) <= Z.max 0 depth)%Z
  /\ (length (leaves root) <= Nat.max 1 (length triangles))%nat
  /\ (length (leaves root) <= 2 ^ height root)%nat.
Proof.
  intros H. apply buildSync_Built in H. apply Built_shape in H.
  rewrite presortedInfos_length in H. destruct H as [H1 [H2 [H3 H4]]].
  repeat split; try assumption. lia.
Qed.

Lemma tree_size_and_height_witness :
  exists root reordered,
    buildSync newBVHBuilder Examples.outlierTen 30 [] = Returns (root, reordered)
    /\ (length (nodes root) + 1 = 2 * length (leaves root))%nat
    /\ (Z.of_nat (height root) <= Z.max 0 30)%Z
    /\ (length (leaves root) <= Nat.max 1 (length Examples.outlierTen))%nat
    /\ (length (leaves root) <= 2 ^ height root)%nat.
Proof.
  destruct (buildSync newBVHBuilder Examples.outlierTen 30 [])
    as [[root reordered] | e] eqn:E; [| vm_compute in E; discriminate ].
  exists root, reordered. split; [ reflexivity |].
  apply (@tree_size_and_height newBVHBuilder Examples.outlierTen 30 [] root reordered E).
Defined.

(** X10: the offset and the count are set on leaves only: every node that
    is not a leaf has two children and still has the offset 0 and the count
    0 of its constructor. *)
Lemma internal_nodes_hold_no_triangles (this : BVHBuilder) (triangles : list Triangle)
      (depth : Z) (r : list Triangle) (root : CWBVHNode) (reordered : list Triangle)
      (n : CWBVHNode) :
  buildSync this triangles depth r = Returns (root, reordered) ->
  In n (nodes root) ->
  isLeaf n = false ->
  isInternal n = true /\ triangleOffset n = 0%nat /\ triangleCount n = 0%nat.
Proof.
  intros H Hin Hleaf. apply buildSync_Built in H.
  pose proof (Built_children H) as Hc. pose proof (Built_internal_fields H) as Hf.
  rewrite Forall_forall in Hc, Hf.
  destruct (Hc n Hin) as [E | E]; [ congruence |].
  split; [ exact E | apply Hf; assumption ].
Qed.

Lemma internal_nodes_hold_no_triangles_witness :
  exists root reordered,
    buildSync newBVHBuilder Examples.evenTen 30 [] = Returns (root, reordered)
    /\ isInternal root = true /\ triangleOffset root = 0%nat /\ triangleCount root = 0%nat.
Proof.
  destruct (buildSync newBVHBuilder Examples.evenTen 30 [])
    as [[root reordered] | e] eqn:E; [| vm_compute in E; discriminate ].
  exists root, reordered. split; [ reflexivity |].
  apply (@internal_nodes_hold_no_triangles newBVHBuilder Examples.evenTen 30 [] root reordered
           root E (In_nodes_root root)).
  pose proof E as E'. vm_compute in E'. inversion E'. reflexivity.
Defined.

(** ** The boxes of the nodes and the legacy [computeBounds] *)

Lemma unionBox_fold_right (boxes : list (Vector3 * Vector3)) :
  forall box,
    fold_left unionBox boxes box = unionBox box (fold_right unionBox emptyBox boxes).
Proof.
  induction boxes as [| b boxes IH]; intros box; cbn [fold_left fold_right].
  - now rewrite unionBox_empty_r.
  - rewrite IH. now rewrite unionBox_assoc.
Qed.

Lemma unionBox_Permutation (l l' : list (Vector3 * Vector3)) :
  Permutation l l' -> fold_right unionBox emptyBox l = fold_right unionBox emptyBox l'.
Proof.
  induction 1 as [| b l l' _ IH | a b l | l l' l'' _ IH1 _ IH2]; cbn [fold_right].
  - reflexivity.
  - now rewrite IH.
  - rewrite <- !unionBox_assoc. now rewrite (unionBox_comm b a).
  - now rewrite IH1.
Qed.

Lemma fold_left_over_map {A B S : Type} (f : S -> B -> S) (g : A -> B) (l : list A) :
  forall s, fold_left (fun acc a => f acc (g a)) l s = fold_left f (map g l) s.
Proof. induction l as [| a l IH]; intros s; cbn; [ reflexivity | apply IH ]. Qed.

Lemma joinBoxes_fold_right (infos : list TriangleInfo) :
  joinBoxes infos = fold_right unionBox emptyBox (map boxOf infos).
Proof.
  unfold joinBoxes. rewrite fold_left_over_map, unionBox_fold_right. apply unionBox_empty.
Qed.

Lemma computeBoundsStep_union (b : Bounds) (tri : Triangle) :
  (bmin (computeBoundsStep b tri), bmax (computeBoundsStep b tri))
  = unionBox (bmin b, bmax b) (triangleBox tri).
Proof.
  unfold unionBox, triangleBox, boxOf, Vec.min, Vec.max, computeBoundsStep.
  cbn [newTriangleInfo bounds bmin bmax fst snd x y z].
  unfold Math_min4, Math_max4, F64.Math_min3, F64.Math_max3.
  now rewrite !Math_min_assoc, !Math_max_assoc.
Qed.

Lemma computeBounds_fold (triangles : list Triangle) :
  (bmin (computeBounds triangles), bmax (computeBounds triangles))
  = fold_right unionBox emptyBox (map triangleBox triangles).
Proof.
  unfold computeBounds.
  assert (H : forall ts b,
             (bmin (fold_left computeBoundsStep ts b), bmax (fold_left computeBoundsStep ts b))
             = fold_left unionBox (map triangleBox ts) (bmin b, bmax b)).
  { induction ts as [| tri ts IH]; intros b; cbn [fold_left map]; [ reflexivity |].
    rewrite IH. f_equal. apply computeBoundsStep_union. }
  rewrite H. cbn [bmin bmax]. rewrite unionBox_fold_right. apply unionBox_empty.
Qed.

Lemma computeBounds_Permutation (l l' : list Triangle) :
  Permutation l l' -> computeBounds l = computeBounds l'.
Proof.
  intros HP.
  pose proof (computeBounds_fold l) as H1. pose proof (computeBounds_fold l') as H2.
  rewrite (unionBox_Permutation (Permutation_map triangleBox HP)) in H1.
  rewrite <- H2 in H1.
  destruct (computeBounds l) as [lo hi], (computeBounds l') as [lo' hi'].
  cbn [bmin bmax] in H1. now inversion H1.
Qed.

Lemma joinBoxes_computeBounds (infos : list TriangleInfo) :
  Forall asConstructed infos ->
  mkBounds (fst (joinBoxes infos)) (snd (joinBoxes infos)) = computeBounds (map triangle infos).
Proof.
  intros Hc. rewrite joinBoxes_fold_right.
  assert (map boxOf infos = map triangleBox (map triangle infos)) as ->.
  { rewrite map_map. apply map_ext_in. intros t Hin. rewrite Forall_forall in Hc.
    destruct (Hc t Hin) as [_ Hb]. unfold triangleBox, boxOf. now rewrite Hb. }
  rewrite <- computeBounds_fold. now destruct (computeBounds (map triangle infos)) as [lo hi].
Qed.

(** *** The infos that reach the root call are as constructed *)

Lemma asConstructed_toTriangleInfos (triangles : list Triangle) :
  Forall asConstructed (toTriangleInfos triangles).
Proof.
  unfold toTriangleInfos. apply Forall_forall. intros t Hin.
  apply in_map_iff in Hin. destruct Hin as [[i tri] [<- _]]. split; reflexivity.
Qed.

Lemma asConstructed_sort (this : BVHBuilder) (infos : list TriangleInfo) :
  Forall asConstructed infos -> Forall asConstructed (sortTrianglesByMortonCode this infos).
Proof.
  intros H. unfold sortTrianglesByMortonCode.
  destruct (_ || _); [ exact H |].
  destruct (sceneBounds infos) as [sceneMin sceneMax].
  apply Forall_forall. intros t Hin.
  apply (Permutation_in _ (Array_sort_Permutation _ _)) in Hin.
  apply in_map_iff in Hin. destruct Hin as [t0 [<- H0]].
  rewrite Forall_forall in H. exact (H t0 H0).
Qed.

Lemma asConstructed_cluster (this : BVHBuilder) (infos : list TriangleInfo) (maxClusterSize : Z) :
  Forall asConstructed infos ->
  Forall asConstructed (recursiveMortonCluster this infos maxClusterSize).
Proof.
  intros H. unfold recursiveMortonCluster.
  destruct (_ <=? _)%Z; [ now apply asConstructed_sort |].
  destruct (sceneBounds infos) as [sceneMin sceneMax].
  apply Forall_flat_map. apply Forall_forall. intros c Hc.
  apply asConstructed_sort. apply Forall_forall. intros t Ht.
  apply (Permutation_in _ (Array_sort_Permutation _ _)) in Hc.
  assert (Hin : In t (flat_map snd
                        (fold_left
                           (fun clusters t =>
                              clusterPush clusters
                                (mortonCodeAt (Z.max 6 (mortonBits this - 2)) (centroid t)
                                              sceneMin sceneMax) t)
                           infos [])))
    by (apply in_flat_map; exists c; split; assumption).
  apply (Permutation_in _ (cluster_loop_members _ _ _)) in Hin. cbn [flat_map app] in Hin.
  rewrite Forall_forall in H. exact (H t Hin).
Qed.

Lemma asConstructed_presortedInfos (this : BVHBuilder) (triangles : list Triangle) :
  Forall asConstructed (presortedInfos this triangles).
Proof.
  unfold presortedInfos. destruct (_ <? _)%Z.
  - apply asConstructed_cluster, asConstructed_toTriangleInfos.
  - apply asConstructed_sort, asConstructed_toTriangleInfos.
Qed.

Lemma Forall_filter {A : Type} (P : A -> Prop) (p : A -> bool) (l : list A) :
  Forall P l -> Forall P (filter p l).
Proof.
  intros H. apply Forall_forall. intros a Ha. apply filter_In in Ha.
  rewrite Forall_forall in H. now apply H.
Qed.

(** *** Every node *)

Lemma firstOffset_emitLeaf (infos : list TriangleInfo) (r : list Triangle) :
  firstOffset (fst (emitLeaf (freshNode infos) infos r)) = length r.
Proof. reflexivity. Qed.

Lemma firstOffset_splitNode (infos : list TriangleInfo) (l rn : CWBVHNode) :
  firstOffset (splitNode infos l rn) = firstOffset l.
Proof. reflexivity. Qed.

Lemma slice_middle {A : Type} (r out suffix : list A) (n : nat) :
  n = length out -> firstn n (skipn (length r) ((r ++ out) ++ suffix)) = out.
Proof.
  intros ->. rewrite <- app_assoc, skipn_app, skipn_all, Nat.sub_diag. cbn [skipn app].
  rewrite firstn_app, firstn_all, Nat.sub_diag. cbn [firstn]. apply app_nil_r.
Qed.

Section NodeBoxes.
Variable this : BVHBuilder.

Lemma Built_boxes :
  forall depth infos r node r',
    Built this depth infos r node r' ->
    Forall asConstructed infos ->
    firstOffset node = length r
    /\ forall suffix,
        Forall (fun n => nodeBounds n = computeBounds (subtreeSlice n (r' ++ suffix)))
               (nodes node).
Proof.
  induction 1 as [depth infos r Hreason
                 | depth infos r axis pos method leftTris rightTris leftNode r1 rightNode r2
                     Hsize Hsplit Hpart Hl Hr _ HBl IHl _ HBr IHr]; intros Hc.
  - split; [ reflexivity |]. intros suffix.
    rewrite nodes_emitLeaf. constructor; [| constructor ].
    unfold subtreeSlice. rewrite firstOffset_emitLeaf.
    unfold triangleTotal. rewrite leaves_emitLeaf. cbn [fold_right emitLeaf fst snd triangleCount].
    rewrite slice_middle by (rewrite length_map; lia).
    rewrite <- joinBoxes_computeBounds by assumption.
    rewrite <- updateNodeBounds_join. reflexivity.
  - pose proof (Built_triangleTotal HBl) as Htl. pose proof (Built_triangleTotal HBr) as Htr.
    pose proof (Built_output HBl) as [outl [-> HPl]].
    pose proof (Built_output HBr) as [outr [-> HPr]].
    apply partition_returns in Hpart. destruct Hpart as [-> ->].
    destruct (IHl (Forall_filter _ Hc)) as [Hol Hbl].
    destruct (IHr (Forall_filter _ Hc)) as [Hor Hbr].
    rewrite firstOffset_splitNode. split; [ exact Hol |]. intros suffix.
    rewrite nodes_splitNode. constructor; [| apply Forall_app; split ].
    + unfold subtreeSlice. rewrite firstOffset_splitNode, Hol.
      assert (Htot : triangleTotal (splitNode infos leftNode rightNode)
                     = length (outl ++ outr)).
      { unfold triangleTotal. rewrite leaves_splitNode, fold_right_app.
        fold (triangleTotal rightNode).
        assert (Hsum : forall ls k,
                   fold_right (fun leaf total => (triangleCount leaf + total)%nat) k ls
                   = (fold_right (fun leaf total => (triangleCount leaf + total)%nat) 0%nat ls
                      + k)%nat).
        { induction ls as [| a ls IH]; intros k; cbn [fold_right]; [ reflexivity |].
          rewrite IH. lia. }
        rewrite Hsum. fold (triangleTotal leftNode). rewrite Htl, Htr, length_app.
        rewrite (Permutation_length HPl), (Permutation_length HPr), !length_map.
        reflexivity. }
      rewrite Htot. rewrite <- (app_assoc r outl outr).
      rewrite slice_middle by reflexivity.
      assert (HP : Permutation (outl ++ outr) (map triangle infos)).
      { rewrite HPl, HPr, <- map_app. apply Permutation_map, filter_split_Permutation. }
      rewrite (computeBounds_Permutation HP).
      rewrite <- joinBoxes_computeBounds by assumption.
      rewrite <- updateNodeBounds_join. reflexivity.
    + rewrite <- app_assoc. apply Hbl.
    + apply Hbr.
Qed.

End NodeBoxes.

(** X11: the box of every node is what the legacy [computeBounds] returns
    on the triangles that the leaves below the node refer to in the
    reordered array (for a leaf, its own range); the box of the root is
    [computeBounds] of the input, in whatever order the presort put it, and
    the two surface-area methods agree on it. *)
Theorem node_boxes_are_computeBounds (this : BVHBuilder) (triangles : list Triangle)
        (depth : Z) (r : list Triangle) (root : CWBVHNode) (reordered : list Triangle)
        (n : CWBVHNode) :
  buildSync this triangles depth r = Returns (root, reordered) ->
  In n (nodes root) ->
  nodeBounds n = computeBounds (subtreeSlice n reordered)
  /\ (isLeaf n = true -> subtreeSlice n reordered = leafSlice n reordered)
  /\ nodeBounds root = computeBounds triangles
  /\ computeSurfaceAreaFromBounds (boundsMin root) (boundsMax root)
     = computeSurfaceArea (computeBounds triangles).
Proof.
  intros H Hin. apply buildSync_Built in H.
  pose proof (asConstructed_presortedInfos this triangles) as Hc.
  destruct (Built_boxes H Hc) as [Ho Hb]. specialize (Hb []). rewrite app_nil_r in Hb.
  rewrite Forall_forall in Hb.
  assert (Hroot : nodeBounds root = computeBounds triangles).
  { destruct (Built_bounds H) as [Hj _]. unfold nodeBounds.
    rewrite <- (computeBounds_Permutation (presortedInfos_triangles this triangles)).
    rewrite <- joinBoxes_computeBounds by assumption. rewrite <- Hj. reflexivity. }
  split; [ now apply Hb |]. split; [| split; [ exact Hroot |] ].
  - intros Hleaf. unfold subtreeSlice, leafSlice, triangleTotal, leaves.
    destruct n as [bmn bmx [l |] [rn |] off cnt]; try discriminate.
    cbn. now rewrite Nat.add_0_r.
  - rewrite <- Hroot. reflexivity.
Qed.

Lemma node_boxes_are_computeBounds_witness :
  exists root reordered,
    buildSync newBVHBuilder Examples.outlierTen 30 [] = Returns (root, reordered)
    /\ nodeBounds root = computeBounds (subtreeSlice root reordered)
    /\ (isLeaf root = true -> subtreeSlice root reordered = leafSlice root reordered)
    /\ nodeBounds root = computeBounds Examples.outlierTen
    /\ computeSurfaceAreaFromBounds (boundsMin root) (boundsMax root)
       = computeSurfaceArea (computeBounds Examples.outlierTen).
Proof.
  destruct (buildSync newBVHBuilder Examples.outlierTen 30 [])
    as [[root reordered] | e] eqn:E; [| vm_compute in E; discriminate ].
  exists root, reordered. split; [ reflexivity |].
  apply (@node_boxes_are_computeBounds newBVHBuilder Examples.outlierTen 30 [] root reordered
           root E (In_nodes_root root)).
Defined.

(** ** Configuration *)

(** X12: after any sequence of calls of the three configuration methods
    with integer arguments on a new builder, [minBins] is at least 4,
    [maxBins] at most 128, [mortonBits] between 6 and 16 and the cluster
    threshold at least 16; the leaf size, the worker flag and the two SAH
    costs are those of the constructor. *)
Lemma configured_builder_ranges (calls : list ConfigCall) :
  (4 <= minBins (configured calls))%Z
  /\ (maxBins (configured calls) <= 128)%Z
  /\ (6 <= mortonBits (configured calls) <= 16)%Z
  /\ (16 <= mortonClusterThreshold (configured calls))%Z
  /\ maxLeafSize (configured calls) = 8%Z
  /\ useWorker (configured calls) = true
  /\ traversalCost (configured calls) = F64.lit_1
  /\ intersectionCost (configured calls) = F64.lit_1.
Proof.
  unfold configured.
  assert (H : forall b,
             ((4 <= minBins b)%Z
              /\ (maxBins b <= 128)%Z
              /\ (6 <= mortonBits b <= 16)%Z
              /\ (16 <= mortonClusterThreshold b)%Z
              /\ maxLeafSize b = 8%Z
              /\ useWorker b = true
              /\ traversalCost b = F64.lit_1
              /\ intersectionCost b = F64.lit_1) ->
             forall call,
               (4 <= minBins (configure b call))%Z
               /\ (maxBins (configure b call) <= 128)%Z
               /\ (6 <= mortonBits (configure b call) <= 16)%Z
               /\ (16 <= mortonClusterThreshold (configure b call))%Z
               /\ maxLeafSize (configure b call) = 8%Z
               /\ useWorker (configure b call) = true
               /\ traversalCost (configure b call) = F64.lit_1
               /\ intersectionCost (configure b call) = F64.lit_1).
  { intros b Hb [[mn mx base] | [enabled bits threshold] | [om sm]]; cbn;
      try destruct mn; try destruct mx; try destruct bits; try destruct threshold;
      cbn; intuition lia. }
  generalize newBVHBuilder
    (ltac:(cbn; repeat split; (lia || reflexivity))
      : (4 <= minBins newBVHBuilder)%Z
        /\ (maxBins newBVHBuilder <= 128)%Z
        /\ (6 <= mortonBits newBVHBuilder <= 16)%Z
        /\ (16 <= mortonClusterThreshold newBVHBuilder)%Z
        /\ maxLeafSize newBVHBuilder = 8%Z
        /\ useWorker newBVHBuilder = true
        /\ traversalCost newBVHBuilder = F64.lit_1
        /\ intersectionCost newBVHBuilder = F64.lit_1).
  induction calls as [| call calls IH]; intros b Hb; cbn [fold_left]; [ exact Hb |].
  apply IH, H, Hb.
Qed.

(** ** Bins beyond the allocated arrays *)

Lemma evaluateAxis_unbinned (this : BVHBuilder) (infos : list TriangleInfo)
      (parentSA leafCost : F64.float) (n : Z) (best : Best) (axis : Z) :
  binsAxis infos axis = false ->
  evaluateAxis this infos parentSA leafCost n best axis = Returns best.
Proof.
  unfold binsAxis, evaluateAxis. destruct (centroidRange infos axis) as [lo hi]. cbn [fst snd].
  destruct (F64.ltb (F64.sub hi lo) F64.lit_1e_6); [ reflexivity | discriminate ].
Qed.

Lemma evaluateAxis_overflow (this : BVHBuilder) (infos : list TriangleInfo)
      (parentSA leafCost : F64.float) (n : Z) (best : Best) (axis : Z) :
  binsAxis infos axis = true ->
  (Z.max 0 (maxBins this) < n)%Z ->
  evaluateAxis this infos parentSA leafCost n best axis = Throws TypeError.
Proof.
  unfold binsAxis, evaluateAxis, resetBins.
  destruct (centroidRange infos axis) as [lo hi]. cbn [fst snd].
  destruct (F64.ltb (F64.sub hi lo) F64.lit_1e_6); [ discriminate |]. intros _ Hn.
  assert ((Z.max 0 (maxBins this) <? n)%Z = true) as -> by (apply Z.ltb_lt; lia).
  reflexivity.
Qed.

(** X13: nothing keeps the bin count within the allocated arrays.  When
    [getOptimalBinCount] exceeds [maxBins] and the centroids spread by
    [1e-6] or more on some axis, the reset of the bins reads an entry that
    was never allocated: the split search, and with it the call of
    [buildNodeRecursive] on more than [maxLeafSize] triangles, throws. *)
Lemma bins_beyond_maxBins_throw (this : BVHBuilder) (depth : nat) (infos : list TriangleInfo)
      (r : list Triangle) :
  (maxLeafSize this < Z.of_nat (length infos))%Z ->
  (Z.max 0 (maxBins this) < getOptimalBinCount this (length infos))%Z ->
  binsAxis infos 0 || binsAxis infos 1 || binsAxis infos 2 = true ->
  (forall parentNode, findBestSplitPositionSAH this infos parentNode = Throws TypeError)
  /\ buildNodeRecursive this (S depth) infos r = Throws TypeError.
Proof.
  intros Hsize Hbins Haxis.
  assert (Hsah : forall parentNode,
             findBestSplitPositionSAH this infos parentNode = Throws TypeError).
  { intros parentNode. unfold findBestSplitPositionSAH. cbn [foldM].
    destruct (binsAxis infos 0) eqn:E0;
      [ now rewrite evaluateAxis_overflow by assumption |].
    rewrite evaluateAxis_unbinned by assumption. cbn [bind].
    destruct (binsAxis infos 1) eqn:E1;
      [ now rewrite evaluateAxis_overflow by assumption |].
    rewrite evaluateAxis_unbinned by assumption. cbn [bind].
    destruct (binsAxis infos 2) eqn:E2;
      [ now rewrite evaluateAxis_overflow by assumption |].
    discriminate. }
  split; [ exact Hsah |].
  cbn [buildNodeRecursive].
  assert ((Z.of_nat (length infos) <=? maxLeafSize this)%Z = false) as ->
      by (apply Z.leb_gt; lia).
  now rewrite Hsah.
Qed.

Lemma bins_beyond_maxBins_throw_witness :
  (forall parentNode,
      findBestSplitPositionSAH
        (configured [AdaptiveBinCall {| cfg_minBins := Some 100%Z; cfg_maxBins := None;
                                        cfg_baseBins := None |}])
        (toTriangleInfos Examples.evenTen) parentNode = Throws TypeError)
  /\ buildNodeRecursive
       (configured [AdaptiveBinCall {| cfg_minBins := Some 100%Z; cfg_maxBins := None;
                                       cfg_baseBins := None |}])
       (S 29) (toTriangleInfos Examples.evenTen) [] = Throws TypeError.
Proof.
  apply (@bins_beyond_maxBins_throw
           (configured [AdaptiveBinCall {| cfg_minBins := Some 100%Z; cfg_maxBins := None;
                                           cfg_baseBins := None |}])
           29 (toTriangleInfos Examples.evenTen) []);
    vm_compute; reflexivity.
Defined.

(** ** The object-median fallback *)

Lemma widestCentroidAxis_nil : widestCentroidAxis [] = ((-1)%Z, F64.lit_m1).
Proof. reflexivity. Qed.

Lemma centroidAt_sorted (lt : TriangleInfo -> TriangleInfo -> bool) (infos : list TriangleInfo)
      (i : nat) (axis : Z) :
  (i < length infos)%nat ->
  exists c, centroidAt (Array_sort lt infos) i axis = Returns c.
Proof.
  intros Hi. unfold centroidAt.
  destruct (nth_error (Array_sort lt infos) i) as [t |] eqn:E; [ eexists; reflexivity |].
  apply nth_error_None in E.
  rewrite (Permutation_length (Array_sort_Permutation lt infos)) in E. lia.
Qed.

Lemma findObjectMedianSplit_total (this : BVHBuilder) (infos : list TriangleInfo) :
  exists splitInfo, findObjectMedianSplit this infos = Returns splitInfo.
Proof.
  destruct (findObjectMedianSplit this infos) as [splitInfo | e] eqn:E;
    [ now exists splitInfo |].
  exfalso. revert E. unfold findObjectMedianSplit.
  destruct (widestCentroidAxis infos) as [bestAxis bestSpread] eqn:Ew.
  destruct ((bestAxis =? -1)%Z || F64.ltb bestSpread F64.lit_1e_10) eqn:Eb.
  - destruct (enableSpatialMedianFallback this); discriminate.
  - assert (Hne : (0 < length infos)%nat).
    { destruct infos; [| cbn; lia ]. rewrite widestCentroidAxis_nil in Ew.
      inversion Ew; subst. discriminate. }
    match goal with
    | |- context [Array_sort ?lt infos] =>
        set (cmp := lt);
        pose proof (Permutation_length (Array_sort_Permutation cmp infos)) as Hlen;
        set (sorted := Array_sort cmp infos) in *
    end.
    assert (Hmid : (length sorted / 2 < length infos)%nat)
      by (rewrite Hlen; apply Nat.div_lt; lia).
    destruct (@centroidAt_sorted cmp infos (length sorted / 2) bestAxis Hmid) as [c Hc].
    fold sorted in Hc. rewrite Hc. cbn [bind].
    destruct ((countLeft infos bestAxis c =? 0)%nat || _); [| discriminate ].
    destruct (0 <? length sorted / 2)%nat.
    + assert (Hprev : (length sorted / 2 - 1 < length infos)%nat) by lia.
      destruct (@centroidAt_sorted cmp infos (length sorted / 2 - 1) bestAxis Hprev)
        as [c' Hc'].
      fold sorted in Hc'. rewrite Hc'. discriminate.
    + destruct (enableSpatialMedianFallback this); discriminate.
Qed.

(** X14: [findObjectMedianSplit] never throws: the two reads of the sorted
    array are always inside it.  A split it returns is on axis 0, 1 or 2 by
    the object median or, through the fallback, the spatial median. *)
Lemma findObjectMedianSplit_returns (this : BVHBuilder) (infos : list TriangleInfo) :
  exists splitInfo,
    findObjectMedianSplit this infos = Returns splitInfo
    /\ match splitInfo with
       | Split axis _ method =>
           (0 <= axis <= 2)%Z /\ (method = object_median \/ method = spatial_median)
       | NoSplit method =>
           method <> SAH /\ method <> object_median /\ method <> spatial_median
           /\ method <> fallbacks_disabled
       end.
Proof.
  assert (Hspatial : match findSpatialMedianSplit infos with
                     | Split axis _ method =>
                         (0 <= axis <= 2)%Z
                         /\ (method = object_median \/ method = spatial_median)
                     | NoSplit method =>
                         method <> SAH /\ method <> object_median /\ method <> spatial_median
                         /\ method <> fallbacks_disabled
                     end).
  { destruct (findSpatialMedianSplit infos) as [axis pos method | method] eqn:E.
    - split; [ eapply findSpatialMedianSplit_axis; eassumption |].
      revert E. unfold findSpatialMedianSplit.
      destruct (fold_left _ _ _) as [[bestAxis bestSpread] bestBounds].
      repeat match goal with
             | |- context [if ?c then _ else _] => destruct c
             end; intros E; inversion E; now right.
    - revert E. unfold findSpatialMedianSplit.
      destruct (fold_left _ _ _) as [[bestAxis bestSpread] bestBounds].
      repeat match goal with
             | |- context [if ?c then _ else _] => destruct c
             end; intros E; inversion E; repeat split; discriminate. }
  destruct (findObjectMedianSplit_total this infos) as [splitInfo E].
  exists splitInfo. split; [ exact E |].
  destruct splitInfo as [axis pos method | method].
  - split; [ eapply findObjectMedianSplit_axis; eassumption |].
    revert E. unfold findObjectMedianSplit.
    destruct (widestCentroidAxis infos) as [bestAxis bestSpread].
    destruct ((bestAxis =? -1)%Z || F64.ltb bestSpread F64.lit_1e_10).
    + destruct (enableSpatialMedianFallback this); [| discriminate ].
      intros E. inversion E as [E']. rewrite E' in Hspatial. apply Hspatial.
    + repeat match goal with
             | |- context [if ?c then _ else _] => destruct c
             | |- bind ?r _ = _ -> _ => destruct r; cbn [bind]
             end; intros E; try discriminate;
        try (inversion E as [E']; rewrite E' in Hspatial; apply Hspatial);
        inversion E; now left.
  - revert E. unfold findObjectMedianSplit.
    destruct (widestCentroidAxis infos) as [bestAxis bestSpread].
    destruct ((bestAxis =? -1)%Z || F64.ltb bestSpread F64.lit_1e_10).
    + destruct (enableSpatialMedianFallback this).
      * intros E. inversion E as [E']. rewrite E' in Hspatial. apply Hspatial.
      * intros E. inversion E. repeat split; discriminate.
    + repeat match goal with
             | |- context [if ?c then _ else _] => destruct c
             | |- bind ?r _ = _ -> _ => destruct r; cbn [bind]
             end; intros E; try discriminate;
        try (inversion E as [E']; rewrite E' in Hspatial; apply Hspatial);
        inversion E; repeat split; discriminate.
Qed.

(** X27: when the centroids spread by less than [1e-6] on each of the three
    axes, the split search bins nothing and cannot throw: its result is the
    one of the fallback chain, never a split by SAH. *)
Lemma unbinned_axes_never_throw (this : BVHBuilder) (infos : list TriangleInfo)
      (parentNode : CWBVHNode) :
  binsAxis infos 0 || binsAxis infos 1 || binsAxis infos 2 = false ->
  findBestSplitPositionSAH this infos parentNode
  = (if enableObjectMedianFallback this then findObjectMedianSplit this infos
     else if enableSpatialMedianFallback this then Returns (findSpatialMedianSplit infos)
          else Returns (NoSplit fallbacks_disabled))
  /\ exists splitInfo,
      findBestSplitPositionSAH this infos parentNode = Returns splitInfo
      /\ forall axis pos, splitInfo <> Split axis pos SAH.
Proof.
  intros H. apply orb_false_iff in H. destruct H as [H H2].
  apply orb_false_iff in H. destruct H as [H0 H1].
  assert (Hrun : findBestSplitPositionSAH this infos parentNode
                 = (if enableObjectMedianFallback this then findObjectMedianSplit this infos
                    else if enableSpatialMedianFallback this
                         then Returns (findSpatialMedianSplit infos)
                         else Returns (NoSplit fallbacks_disabled))).
  { unfold findBestSplitPositionSAH. cbn [foldM].
    rewrite evaluateAxis_unbinned by assumption. cbn [bind].
    rewrite evaluateAxis_unbinned by assumption. cbn [bind].
    rewrite evaluateAxis_unbinned by assumption. cbn [bind Z.eqb]. reflexivity. }
  split; [ exact Hrun |]. rewrite Hrun.
  destruct (enableObjectMedianFallback this).
  - destruct (findObjectMedianSplit_total this infos) as [splitInfo E].
    exists splitInfo. split; [ exact E |]. intros axis pos ->.
    revert E. unfold findObjectMedianSplit.
    destruct (widestCentroidAxis infos) as [bestAxis bestSpread].
    assert (Hs : forall axis pos, findSpatialMedianSplit infos <> Split axis pos SAH).
    { intros a p. unfold findSpatialMedianSplit.
      destruct (fold_left _ _ _) as [[bA bS] bB].
      repeat match goal with
             | |- context [if ?c then _ else _] => destruct c
             end; discriminate. }
    repeat match goal with
           | |- context [if ?c then _ else _] => destruct c
           | |- bind ?r _ = _ -> _ => destruct r; cbn [bind]
           end; intros E; try discriminate; inversion E as [E']; now apply Hs in E'.
  - destruct (enableSpatialMedianFallback this).
    + exists (findSpatialMedianSplit infos). split; [ reflexivity |].
      intros a p. unfold findSpatialMedianSplit.
      destruct (fold_left _ _ _) as [[bA bS] bB].
      repeat match goal with
             | |- context [if ?c then _ else _] => destruct c
             end; discriminate.
    + exists (NoSplit fallbacks_disabled). split; [ reflexivity | discriminate ].
Qed.

Lemma unbinned_axes_never_throw_witness :
  findBestSplitPositionSAH newBVHBuilder (toTriangleInfos Examples.tinyTen)
    (freshNode (toTriangleInfos Examples.tinyTen))
  = (if enableObjectMedianFallback newBVHBuilder
     then findObjectMedianSplit newBVHBuilder (toTriangleInfos Examples.tinyTen)
     else if enableSpatialMedianFallback newBVHBuilder
          then Returns (findSpatialMedianSplit (toTriangleInfos Examples.tinyTen))
          else Returns (NoSplit fallbacks_disabled))
  /\ exists splitInfo,
      findBestSplitPositionSAH newBVHBuilder (toTriangleInfos Examples.tinyTen)
        (freshNode (toTriangleInfos Examples.tinyTen)) = Returns splitInfo
      /\ forall axis pos, splitInfo <> Split axis pos SAH.
Proof.
  apply (@unbinned_axes_never_throw newBVHBuilder (toTriangleInfos Examples.tinyTen)
           (freshNode (toTriangleInfos Examples.tinyTen))).
  vm_compute. reflexivity.
Defined.

(** ** The caller's array *)

Lemma deliver_rewrites (events : list WorkerEvent) (triangles : list Triangle)
      (p : PromiseState) (after : list Triangle) :
  deliver events triangles = (p, after) ->
  after <> triangles ->
  exists root, p = Fulfilled root /\ In (OnMessage (MsgDone root after)) events.
Proof.
  induction events as [| [[error | progress | bvhRoot newTriangles] | error] events IH];
    cbn [deliver]; intros H Hne; try (inversion H; subst; congruence).
  - destruct (IH H Hne) as [root [Hp Hin]]. exists root. split; [ exact Hp | now right ].
  - inversion H; subst. exists bvhRoot. split; [ reflexivity | now left ].
Qed.

(** X15: [build] rewrites the caller's array only with the array of a
    completion message of a worker: if the array is different afterwards,
    the worker was in use, was started, posted that message, and the promise
    is fulfilled with the root of that message. *)
Lemma caller_array_rewritten_only_by_worker (host : Host) (this : BVHBuilder)
      (triangles : list Triangle) (depth : Z) (reportProgress : bool)
      (p : PromiseState) (after : list Triangle) :
  build host this triangles depth reportProgress = Returns (p, after) ->
  after <> triangles ->
  useWorker this = true
  /\ hasWorker host = true
  /\ exists events root,
      startWorker host triangles depth reportProgress = Started events
      /\ In (OnMessage (MsgDone root after)) events
      /\ p = Fulfilled root.
Proof.
  unfold build. intros H Hne.
  destruct (useWorker this); cbn [andb] in H.
  - destruct (hasWorker host).
    + split; [ reflexivity |]. split; [ reflexivity |].
      destruct (startWorker host triangles depth reportProgress) as [error | error | events].
      * destruct (buildSync this triangles depth []) as [[root reordered] | e];
          inversion H; subst; congruence.
      * destruct (buildSync this triangles depth []) as [[root reordered] | e];
          inversion H; subst; congruence.
      * inversion H as [H']. destruct (deliver_rewrites _ H' Hne) as [root [Hp Hin]].
        exists events, root. repeat split; assumption.
    + destruct (buildSync this triangles depth []) as [[root reordered] | e];
        cbn [bind] in H; inversion H; subst; congruence.
  - destruct (buildSync this triangles depth []) as [[root reordered] | e];
      cbn [bind] in H; inversion H; subst; congruence.
Qed.

Lemma caller_array_rewritten_only_by_worker_witness :
  exists p after,
    build (scriptedHost [OnMessage (MsgProgress 50); OnMessage (MsgDone (emptyLeaf 0) [])])
          newBVHBuilder Examples.evenTen 30 true = Returns (p, after)
    /\ after <> Examples.evenTen
    /\ useWorker newBVHBuilder = true
    /\ hasWorker (scriptedHost [OnMessage (MsgProgress 50);
                                OnMessage (MsgDone (emptyLeaf 0) [])]) = true
    /\ exists events root,
        startWorker (scriptedHost [OnMessage (MsgProgress 50);
                                   OnMessage (MsgDone (emptyLeaf 0) [])])
                    Examples.evenTen 30 true = Started events
        /\ In (OnMessage (MsgDone root after)) events
        /\ p = Fulfilled root.
Proof.
  exists (Fulfilled (emptyLeaf 0)), [].
  assert (E : build (scriptedHost [OnMessage (MsgProgress 50);
                                   OnMessage (MsgDone (emptyLeaf 0) [])])
                    newBVHBuilder Examples.evenTen 30 true
              = Returns (Fulfilled (emptyLeaf 0), [])) by reflexivity.
  assert (Hne : [] <> Examples.evenTen) by discriminate.
  split; [ exact E |]. split; [ exact Hne |].
  apply (@caller_array_rewritten_only_by_worker
           (scriptedHost [OnMessage (MsgProgress 50); OnMessage (MsgDone (emptyLeaf 0) [])])
           newBVHBuilder Examples.evenTen 30 true (Fulfilled (emptyLeaf 0)) [] E Hne).
Defined.

(** ** Ties of the presort *)

Section StableSort.
Context {A : Type}.
Variable key : A -> Z.
Variable idx : A -> nat.

Lemma sort_insert_stable (a : A) (l : list A) :
  StronglySorted (keyThenIndex key idx) l ->
  Forall (fun u => (idx u < idx a)%nat) l ->
  StronglySorted (keyThenIndex key idx) (sort_insert (fun u v => (key u - key v <? 0)%Z) a l).
Proof.
  induction 1 as [| b l Hs IH Hb]; intros Hidx; cbn [sort_insert].
  - constructor; constructor.
  - inversion Hidx as [| ? ? Hba Hrest]; subst.
    destruct (key a - key b <? 0)%Z eqn:E.
    + apply Z.ltb_lt in E. constructor; [ constructor; assumption |].
      constructor; [ left; lia |].
      rewrite Forall_forall in Hb |- *. intros c Hc.
      destruct (Hb c Hc) as [H1 | [H1 H2]]; left; lia.
    + apply Z.ltb_ge in E. constructor; [ now apply IH |].
      rewrite Forall_forall. intros c Hc.
      apply (Permutation_in _ (sort_insert_Permutation _ a l)) in Hc.
      destruct Hc as [<- | Hc].
      * unfold keyThenIndex. destruct (Z.eq_dec (key b) (key a)); [ right; split; lia | left; lia ].
      * rewrite Forall_forall in Hb. now apply Hb.
Qed.

Lemma sort_loop_stable (xs : list A) :
  forall sorted,
    StronglySorted (keyThenIndex key idx) sorted ->
    StronglySorted (fun u v => (idx u < idx v)%nat) xs ->
    Forall (fun u => Forall (fun a => (idx u < idx a)%nat) xs) sorted ->
    StronglySorted (keyThenIndex key idx)
      (fold_left (fun sorted a => sort_insert (fun u v => (key u - key v <? 0)%Z) a sorted)
                 xs sorted).
Proof.
  induction xs as [| a xs IH]; intros sorted Hs Hx Hbelow; cbn [fold_left]; [ exact Hs |].
  inversion Hx as [| ? ? Hx' Ha]; subst.
  apply IH; [| exact Hx' |].
  - apply sort_insert_stable; [ exact Hs |].
    rewrite Forall_forall in Hbelow |- *. intros u Hu.
    specialize (Hbelow u Hu). now inversion Hbelow.
  - rewrite Forall_forall in Hbelow |- *. intros u Hu.
    apply (Permutation_in _ (sort_insert_Permutation _ a sorted)) in Hu.
    destruct Hu as [<- | Hu]; [ exact Ha |].
    specialize (Hbelow u Hu). now inversion Hbelow.
Qed.

Lemma Array_sort_stable (xs : list A) :
  StronglySorted (fun u v => (idx u < idx v)%nat) xs ->
  StronglySorted (keyThenIndex key idx) (Array_sort (fun u v => (key u - key v <? 0)%Z) xs).
Proof.
  intros Hx. unfold Array_sort. apply sort_loop_stable; [ constructor | exact Hx | constructor ].
Qed.

End StableSort.

Lemma StronglySorted_under_map {A B : Type} (R : B -> B -> Prop) (f : A -> B) (l : list A) :
  StronglySorted (fun u v => R (f u) (f v)) l <-> StronglySorted R (map f l).
Proof.
  induction l as [| a l IH]; cbn [map]; split; intros H; try (constructor; fail).
  - inversion H as [| ? ? Hs Hf]; subst. constructor; [ now apply IH |].
    rewrite Forall_forall in Hf |- *. intros b Hb.
    apply in_map_iff in Hb. destruct Hb as [v [<- Hv]]. now apply Hf.
  - inversion H as [| ? ? Hs Hf]; subst. constructor; [ now apply IH |].
    rewrite Forall_forall in Hf |- *. intros v Hv. apply Hf. now apply in_map.
Qed.

Lemma seq_sorted (n : nat) : forall start, StronglySorted lt (seq start n).
Proof.
  induction n as [| n IH]; intros start; cbn [seq]; constructor; [ apply IH |].
  apply Forall_forall. intros k Hk. apply in_seq in Hk. lia.
Qed.

Lemma index_toTriangleInfos (triangles : list Triangle) :
  map index (toTriangleInfos triangles) = seq 0 (length triangles).
Proof.
  unfold toTriangleInfos. rewrite map_map.
  generalize 0%nat. induction triangles as [| t ts IH]; intros start; cbn; [ reflexivity |].
  f_equal. apply IH.
Qed.

(** X16: the presort keeps the input order among triangles of equal Morton
    code: when it runs on the infos of an input, its result is ascending by
    Morton code and, within one code, by the original index. *)
Lemma presort_ties_keep_input_order (this : BVHBuilder) (triangles : list Triangle) :
  useMortonCodes this = true ->
  (mortonClusterThreshold this <= Z.of_nat (length triangles))%Z ->
  StronglySorted codeThenIndex (sortTrianglesByMortonCode this (toTriangleInfos triangles)).
Proof.
  intros Hm Ht. unfold sortTrianglesByMortonCode. rewrite Hm. cbn [negb orb].
  assert (Hl : length (toTriangleInfos triangles) = length triangles).
  { rewrite <- (length_map triangle). now rewrite triangle_toTriangleInfos. }
  rewrite Hl.
  assert ((Z.of_nat (length triangles) <? mortonClusterThreshold this)%Z = false) as ->
      by (apply Z.ltb_ge; lia).
  destruct (sceneBounds (toTriangleInfos triangles)) as [sceneMin sceneMax].
  apply (Array_sort_stable mortonCode index).
  apply StronglySorted_under_map. rewrite map_map. cbn [withMortonCode index].
  change (map (fun x => index x) (toTriangleInfos triangles))
    with (map index (toTriangleInfos triangles)).
  rewrite index_toTriangleInfos. apply seq_sorted.
Qed.

Lemma presort_ties_keep_input_order_witness :
  StronglySorted codeThenIndex
    (sortTrianglesByMortonCode Examples.sixteenThreshold
       (toTriangleInfos (repeat (Examples.triAt 5) 8 ++ repeat (Examples.triAt 0) 8))).
Proof.
  apply (@presort_ties_keep_input_order Examples.sixteenThreshold
           (repeat (Examples.triAt 5) 8 ++ repeat (Examples.triAt 0) 8));
    [ reflexivity | vm_compute; discriminate ].
Defined.

(** ** The clusters of [recursiveMortonCluster] *)

Section Clusters.
Variable f : TriangleInfo -> Z.

Lemma clusterPush_keys (clusters : list (Z * list TriangleInfo)) (key : Z) (t : TriangleInfo) :
  map fst (clusterPush clusters key t)
  = if existsb (fun k => (k =? key)%Z) (map fst clusters)
    then map fst clusters else map fst clusters ++ [key].
Proof.
  induction clusters as [| [k members] clusters IH]; cbn [clusterPush map existsb fst app];
    [ reflexivity |].
  destruct (k =? key)%Z; cbn [orb map fst]; [ reflexivity |].
  rewrite IH. now destruct (existsb _ _).
Qed.

Lemma existsb_key (keys : list Z) (key : Z) :
  existsb (fun k => (k =? key)%Z) keys = true <-> In key keys.
Proof.
  rewrite existsb_exists. split.
  - intros [k [Hin E]]. apply Z.eqb_eq in E. now subst.
  - intros Hin. exists key. split; [ exact Hin | apply Z.eqb_refl ].
Qed.

Lemma filter_snoc (p : TriangleInfo -> bool) (seen : list TriangleInfo) (t : TriangleInfo) :
  filter p (seen ++ [t]) = if p t then filter p seen ++ [t] else filter p seen.
Proof.
  rewrite filter_app. cbn [filter]. destruct (p t); [ reflexivity | apply app_nil_r ].
Qed.

Lemma clusterPush_grouped (t : TriangleInfo) (seen : list TriangleInfo) :
  forall clusters,
    NoDup (map fst clusters) ->
    Forall (fun c => snd c = filter (fun u => (f u =? fst c)%Z) seen) clusters ->
    (~ In (f t) (map fst clusters) -> filter (fun u => (f u =? f t)%Z) seen = []) ->
    Forall (fun c => snd c = filter (fun u => (f u =? fst c)%Z) (seen ++ [t]))
           (clusterPush clusters (f t) t).
Proof.
  induction clusters as [| [k members] clusters IH]; intros Hnd Hm Hnew; cbn [clusterPush].
  - constructor; [| constructor ]. cbn [fst snd]. rewrite filter_snoc, Z.eqb_refl.
    rewrite Hnew by (intros []). reflexivity.
  - cbn [map fst] in Hnd. inversion Hnd as [| ? ? Hk Hnd']; subst.
    inversion Hm as [| ? ? Hhead Hrest]; subst. cbn [fst snd] in Hhead.
    destruct (k =? f t)%Z eqn:E.
    + apply Z.eqb_eq in E. subst k. constructor.
      * cbn [fst snd]. rewrite filter_snoc, Z.eqb_refl. now rewrite Hhead.
      * rewrite Forall_forall in Hrest |- *. intros c Hc. rewrite filter_snoc.
        destruct (f t =? fst c)%Z eqn:E'; [| now apply Hrest ].
        apply Z.eqb_eq in E'. exfalso. apply Hk. rewrite E'. now apply in_map.
    + constructor.
      * cbn [fst snd]. rewrite filter_snoc.
        rewrite Z.eqb_sym in E. now rewrite E.
      * apply IH; [ exact Hnd' | exact Hrest |].
        intros Hnot. apply Hnew. cbn [map fst]. intros [Hk' | Hin]; [| now apply Hnot ].
        apply Z.eqb_neq in E. congruence.
Qed.

Lemma cluster_loop_grouped (infos : list TriangleInfo) :
  forall clusters seen,
    NoDup (map fst clusters) ->
    Forall (fun c => snd c = filter (fun u => (f u =? fst c)%Z) seen) clusters ->
    (forall k, In k (map fst clusters) <-> exists u, In u seen /\ f u = k) ->
    let final := fold_left (fun clusters t => clusterPush clusters (f t) t) infos clusters in
    NoDup (map fst final)
    /\ Forall (fun c => snd c = filter (fun u => (f u =? fst c)%Z) (seen ++ infos)) final
    /\ forall k, In k (map fst final) <-> exists u, In u (seen ++ infos) /\ f u = k.
Proof.
  induction infos as [| t infos IH]; intros clusters seen Hnd Hm Hkeys; cbn [fold_left].
  - rewrite app_nil_r. repeat split; try assumption; apply Hkeys.
  - replace (seen ++ t :: infos) with ((seen ++ [t]) ++ infos)
      by (now rewrite <- app_assoc).
    apply IH.
    + rewrite clusterPush_keys.
      destruct (existsb _ _) eqn:E; [ exact Hnd |].
      apply NoDup_app; repeat split; try assumption.
      * constructor; [ intros [] | constructor ].
      * intros k Hk [<- | []]. apply existsb_key in Hk. congruence.
    + apply clusterPush_grouped; [ exact Hnd | exact Hm |].
      intros Hnot. destruct (filter _ seen) as [| u rest] eqn:Ef; [ reflexivity |].
      exfalso. apply Hnot. apply Hkeys. exists u.
      assert (Hu : In u (filter (fun u => (f u =? f t)%Z) seen)) by (rewrite Ef; now left).
      apply filter_In in Hu. destruct Hu as [Hu E]. apply Z.eqb_eq in E. now split.
    + intros k. rewrite clusterPush_keys.
      destruct (existsb _ _) eqn:E.
      * apply existsb_key in E. rewrite Hkeys. split.
        -- intros [u [Hu Hf]]. exists u. split; [ apply in_or_app; now left | exact Hf ].
        -- intros [u [Hu Hf]]. apply in_app_or in Hu. destruct Hu as [Hu | [<- | []]].
           ++ now exists u.
           ++ subst k. now apply Hkeys.
      * rewrite in_app_iff, Hkeys. split.
        -- intros [[u [Hu Hf]] | [<- | []]].
           ++ exists u. split; [ apply in_or_app; now left | exact Hf ].
           ++ exists t. split; [ apply in_or_app; right; now left | reflexivity ].
        -- intros [u [Hu Hf]]. apply in_app_or in Hu. destruct Hu as [Hu | [<- | []]].
           ++ left. now exists u.
           ++ right. now left.
Qed.

End Clusters.

Lemma strictly_sorted (keys : list Z) :
  StronglySorted Z.le keys -> NoDup keys -> StronglySorted Z.lt keys.
Proof.
  induction 1 as [| k keys Hs IH Hk]; intros Hnd; constructor;
    inversion Hnd as [| ? ? Hnot Hnd']; subst.
  - now apply IH.
  - rewrite Forall_forall in Hk |- *. intros k' Hin.
    specialize (Hk k' Hin). assert (k <> k') by (intros ->; contradiction). lia.
Qed.

Lemma flat_map_keys {A B C : Type} (g : A -> list C) (h : B -> list C) (key : A -> B)
      (l : list A) :
  (forall a, In a l -> g a = h (key a)) -> flat_map g l = flat_map h (map key l).
Proof.
  induction l as [| a l IH]; intros H; cbn [flat_map map]; [ reflexivity |].
  rewrite (H a) by now left. f_equal. apply IH. intros b Hb. apply H. now right.
Qed.

(** X17: above [maxClusterSize], [recursiveMortonCluster] returns the
    clusters of equal coarse key one after the other, in strictly ascending
    order of the key; a cluster is the elements of that key in input order,
    passed through [sortTrianglesByMortonCode] on its own. *)
Lemma recursiveMortonCluster_groups (this : BVHBuilder) (infos : list TriangleInfo)
      (maxClusterSize : Z) :
  (maxClusterSize < Z.of_nat (length infos))%Z ->
  exists keys,
    StronglySorted Z.lt keys
    /\ (forall k, In k keys <-> exists t, In t infos /\ coarseKey this infos t = k)
    /\ recursiveMortonCluster this infos maxClusterSize
       = flat_map (fun k => sortTrianglesByMortonCode this (withCoarseKey this infos k)) keys.
Proof.
  intros Hbig. unfold recursiveMortonCluster.
  assert ((Z.of_nat (length infos) <=? maxClusterSize)%Z = false) as ->
      by (apply Z.leb_gt; lia).
  unfold withCoarseKey, coarseKey.
  destruct (sceneBounds infos) as [sceneMin sceneMax]. cbn [fst snd].
  set (f := fun t => mortonCodeAt (Z.max 6 (mortonBits this - 2)) (centroid t) sceneMin sceneMax).
  destruct (@cluster_loop_grouped f infos [] [])
    as [Hnd [Hm Hkeys]];
    [ constructor | constructor | cbn; split; [ intros [] | intros [u [[] _]] ] |].
  cbn [app] in Hm, Hkeys.
  set (clusters := fold_left (fun clusters t => clusterPush clusters (f t) t) infos []) in *.
  set (sortedClusters := Array_sort (fun a b => (fst a - fst b <? 0)%Z) clusters).
  pose proof (Array_sort_Permutation (fun a b => (fst a - fst b <? 0)%Z) clusters) as HP.
  fold sortedClusters in HP.
  exists (map fst sortedClusters). split; [| split ].
  - apply strictly_sorted.
    + apply (proj1 (@StronglySorted_under_map _ _ Z.le fst sortedClusters)).
      apply (@Array_sort_sorted _ fst).
    + apply (Permutation_NoDup (Permutation_sym (Permutation_map fst HP))). exact Hnd.
  - intros k. transitivity (In k (map fst clusters)); [| exact (Hkeys k) ].
    split; apply Permutation_in;
      [ apply Permutation_map; exact HP | apply Permutation_sym, Permutation_map; exact HP ].
  - apply flat_map_keys. intros c Hc.
    apply (Permutation_in _ HP) in Hc. rewrite Forall_forall in Hm. now rewrite (Hm c Hc).
Qed.

Lemma recursiveMortonCluster_groups_witness :
  exists keys,
    StronglySorted Z.lt keys
    /\ (forall k, In k keys <->
                  exists t, In t (toTriangleInfos Examples.descendingSixteen)
                            /\ coarseKey Examples.sixteenThreshold
                                 (toTriangleInfos Examples.descendingSixteen) t = k)
    /\ recursiveMortonCluster Examples.sixteenThreshold
         (toTriangleInfos Examples.descendingSixteen) 3
       = flat_map (fun k => sortTrianglesByMortonCode Examples.sixteenThreshold
                              (withCoarseKey Examples.sixteenThreshold
                                 (toTriangleInfos Examples.descendingSixteen) k)) keys.
Proof.
  apply (@recursiveMortonCluster_groups Examples.sixteenThreshold
           (toTriangleInfos Examples.descendingSixteen) 3).
  vm_compute. reflexivity.
Defined.

(** ** Progress reports *)

Lemma Math_min_99 (a : F64.float) :
  F64.is_nan (F64.Math_min a (F64.ofZ 99)) = true
  \/ F64.leb (F64.Math_min a (F64.ofZ 99)) (F64.ofZ 99) = true.
Proof.
  destruct a as [s | s | | s m e]; try (left; reflexivity);
    try (right; destruct s; reflexivity).
  right. set (c := F64.ofZ 99). vm_compute in c.
  unfold F64.Math_min. subst c.
  match goal with
  | |- context [SFltb ?c ?a] => destruct (SFltb c a) eqn:E; [ reflexivity |];
                                  unfold F64.leb, SFleb; unfold SFltb in E;
                                  rewrite (SFcompare_swap c a);
                                  destruct (SFcompare c a) as [[| |] |] eqn:Ec
  end; try reflexivity; try discriminate.
Qed.

(** X18: a value that [updateProgress] passes to the callback is at most 99
    or NaN, and it is NaN when no triangle is counted yet and the total is
    0; a report is made only once the interval has passed, and it moves
    [lastProgressUpdate] to the time of the call. *)
Lemma updateProgress_reports_at_most_99 (this : ProgressState) (trianglesProcessed : nat)
      (now : F64.float) (after : ProgressState) (progress : F64.float) :
  updateProgress this trianglesProcessed true now = (after, Some progress) ->
  (F64.is_nan progress = true \/ F64.leb progress (F64.ofZ 99) = true)
  /\ ((processedTriangles this + trianglesProcessed = 0)%nat ->
      totalTriangles this = 0%nat -> F64.is_nan progress = true)
  /\ F64.ltb (F64.sub now (lastProgressUpdate this)) (progressUpdateInterval this) = false
  /\ lastProgressUpdate after = now
  /\ processedTriangles after = (processedTriangles this + trianglesProcessed)%nat.
Proof.
  unfold updateProgress. cbn [negb].
  destruct (F64.ltb (F64.sub now (lastProgressUpdate this)) (progressUpdateInterval this));
    [ discriminate |].
  intros H. inversion H; subst. clear H. split; [ apply Math_min_99 |].
  split; [| repeat split ].
  intros -> ->. reflexivity.
Qed.

Lemma updateProgress_reports_at_most_99_witness :
  exists after progress,
    updateProgress {| processedTriangles := 5; totalTriangles := 10;
                      lastProgressUpdate := F64.zero;
                      progressUpdateInterval := F64.ofZ 100 |} 3 true (F64.ofZ 250)
    = (after, Some progress)
    /\ (F64.is_nan progress = true \/ F64.leb progress (F64.ofZ 99) = true)
    /\ ((5 + 3 = 0)%nat -> 10%nat = 0%nat -> F64.is_nan progress = true)
    /\ F64.ltb (F64.sub (F64.ofZ 250) F64.zero) (F64.ofZ 100) = false
    /\ lastProgressUpdate after = F64.ofZ 250
    /\ processedTriangles after = (5 + 3)%nat.
Proof.
  destruct (updateProgress {| processedTriangles := 5; totalTriangles := 10;
                              lastProgressUpdate := F64.zero;
                              progressUpdateInterval := F64.ofZ 100 |} 3 true (F64.ofZ 250))
    as [after [progress |]] eqn:E; [| vm_compute in E; discriminate ].
  exists after, progress. split; [ reflexivity |].
  apply (@updateProgress_reports_at_most_99 _ _ _ after progress E).
Defined.

(** ** The method of a split and the fallback configuration *)

Lemma findSpatialMedianSplit_method (infos : list TriangleInfo) :
  match findSpatialMedianSplit infos with
  | Split _ _ method => method = spatial_median
  | NoSplit method => method = spatial_median_failed \/ method = spatial_median_degenerate
  end.
Proof.
  unfold findSpatialMedianSplit.
  destruct (fold_left _ _ _) as [[bestAxis bestSpread] bestBounds].
  repeat match goal with
         | |- context [if ?c then _ else _] => destruct c
         end; auto.
Qed.

Ltac solve_method Hs :=
  match goal with
  | |- methodAllowed _ (findSpatialMedianSplit ?i) =>
      destruct (findSpatialMedianSplit i) as [? ? method | method];
      [ subst method | destruct Hs; subst method ]; cbn [methodAllowed]; auto
  | _ => cbn [methodAllowed]; auto
  end.

Lemma findObjectMedianSplit_method (this : BVHBuilder) (infos : list TriangleInfo)
      (splitInfo : SplitInfo) :
  enableObjectMedianFallback this = true ->
  findObjectMedianSplit this infos = Returns splitInfo ->
  methodAllowed this splitInfo.
Proof.
  intros Ho. pose proof (findSpatialMedianSplit_method infos) as Hs.
  unfold findObjectMedianSplit.
  destruct (widestCentroidAxis infos) as [bestAxis bestSpread].
  destruct (enableSpatialMedianFallback this) eqn:Es;
    repeat match goal with
           | |- context [if ?c then _ else _] => destruct c
           | |- bind ?r _ = _ -> _ => destruct r; cbn [bind]
           end;
    intros H; try discriminate; inversion H; subst; clear H; solve_method Hs.
Qed.

(** X21: the result of the split search agrees with the fallback
    configuration: a split is by SAH or by a fallback that is enabled, on
    axis 0, 1 or 2, and a failure names the fallbacks that were not
    available. *)
Lemma split_method_follows_configuration (this : BVHBuilder) (infos : list TriangleInfo)
      (parentNode : CWBVHNode) (splitInfo : SplitInfo) :
  findBestSplitPositionSAH this infos parentNode = Returns splitInfo ->
  methodAllowed this splitInfo
  /\ match splitInfo with
     | Split axis _ _ => (0 <= axis <= 2)%Z
     | NoSplit _ => True
     end.
Proof.
  intros H. split.
  - revert H. unfold findBestSplitPositionSAH.
    match goal with
    | |- bind ?r _ = _ -> _ => destruct r as [[[bestCost bestAxis] bestPos] | e]
    end; cbn [bind]; [| discriminate ].
    destruct (bestAxis =? -1)%Z; [| intros H; inversion H; exact I ].
    destruct (enableObjectMedianFallback this) eqn:Eo;
      [ now apply findObjectMedianSplit_method |].
    pose proof (findSpatialMedianSplit_method infos) as Hs.
    destruct (enableSpatialMedianFallback this) eqn:Es; intros H; inversion H; subst; clear H.
    + solve_method Hs.
    + solve_method Hs.
  - destruct splitInfo as [axis pos method | method]; [| exact I ].
    eapply findBestSplitPositionSAH_axis; eassumption.
Qed.

Lemma split_method_follows_configuration_witness :
  exists splitInfo,
    findBestSplitPositionSAH
      (setFallbackConfig newBVHBuilder
         {| cfg_objectMedian := Some false; cfg_spatialMedian := Some true |})
      (toTriangleInfos Examples.nineSame) (freshNode (toTriangleInfos Examples.nineSame))
    = Returns splitInfo
    /\ methodAllowed
         (setFallbackConfig newBVHBuilder
            {| cfg_objectMedian := Some false; cfg_spatialMedian := Some true |}) splitInfo
    /\ match splitInfo with
       | Split axis _ _ => (0 <= axis <= 2)%Z
       | NoSplit _ => True
       end.
Proof.
  destruct (findBestSplitPositionSAH
              (setFallbackConfig newBVHBuilder
                 {| cfg_objectMedian := Some false; cfg_spatialMedian := Some true |})
              (toTriangleInfos Examples.nineSame)
              (freshNode (toTriangleInfos Examples.nineSame)))
    as [splitInfo | e] eqn:E; [| vm_compute in E; discriminate ].
  exists splitInfo. split; [ reflexivity |].
  apply (@split_method_follows_configuration _ _ _ splitInfo E).
Defined.

(** ** The depth budget and the array that is passed in *)

Lemma depth_cutoff (this : BVHBuilder) :
  forall depth infos r node r',
    buildNodeRecursive this depth infos r = Returns (node, r') ->
    (height node < depth)%nat ->
    forall depth', (depth <= depth')%nat ->
                   buildNodeRecursive this depth' infos r = Returns (node, r').
Proof.
  induction depth as [| depth IH]; intros infos r node r' H Hh depth' Hd; [ lia |].
  destruct depth' as [| depth']; [ lia |].
  cbn [buildNodeRecursive] in H |- *.
  destruct (Z.of_nat (length infos) <=? maxLeafSize this)%Z; [ exact H |].
  destruct (findBestSplitPositionSAH this infos (freshNode infos))
    as [[axis pos method | method] | e]; cbn [bind] in H |- *; try exact H.
  destruct (partitionTrianglesOptimized infos axis pos) as [[leftTris rightTris] | e];
    cbn [bind] in H |- *; [| exact H ].
  destruct ((length leftTris =? 0)%nat || (length rightTris =? 0)%nat); [ exact H |].
  destruct (buildNodeRecursive this depth leftTris r) as [[leftNode r1] | e] eqn:El;
    cbn [bind] in H; [| discriminate ].
  destruct (buildNodeRecursive this depth rightTris r1) as [[rightNode r2] | e] eqn:Er;
    cbn [bind] in H; [| discriminate ].
  inversion H; subst; clear H.
  change (height (splitNode infos leftNode rightNode) < S depth)%nat in Hh.
  rewrite height_splitNode in Hh.
  rewrite (IH _ _ _ _ El ltac:(lia) depth' ltac:(lia)). cbn [bind].
  rewrite (IH _ _ _ _ Er ltac:(lia) depth' ltac:(lia)). reflexivity.
Qed.

(** X22: the depth only cuts the tree off: when the tree is lower than the
    depth passed in, every larger depth gives the same tree and the same
    array. *)
Lemma depth_is_only_a_cutoff (this : BVHBuilder) (triangles : list Triangle) (depth : Z)
      (r : list Triangle) (root : CWBVHNode) (reordered : list Triangle) :
  buildSync this triangles depth r = Returns (root, reordered) ->
  (Z.of_nat (height root) < depth)%Z ->
  forall depth', (depth <= depth')%Z ->
                 buildSync this triangles depth' r = Returns (root, reordered).
Proof.
  unfold buildSync. intros H Hh depth' Hd.
  eapply depth_cutoff; [ exact H | lia | lia ].
Qed.

Lemma depth_is_only_a_cutoff_witness :
  exists root reordered,
    buildSync newBVHBuilder Examples.outlierTen 3 [] = Returns (root, reordered)
    /\ forall depth', (3 <= depth')%Z ->
                      buildSync newBVHBuilder Examples.outlierTen depth' []
                      = Returns (root, reordered).
Proof.
  destruct (buildSync newBVHBuilder Examples.outlierTen 3 [])
    as [[root reordered] | e] eqn:E; [| vm_compute in E; discriminate ].
  exists root, reordered. split; [ reflexivity |].
  apply (@depth_is_only_a_cutoff newBVHBuilder Examples.outlierTen 3 [] root reordered E).
  pose proof E as E'. vm_compute in E'. inversion E'. vm_compute. reflexivity.
Defined.

Lemma shiftLeaves_emitLeaf (infos : list TriangleInfo) (r : list Triangle) :
  emitLeaf (freshNode infos) infos r
  = (shiftLeaves (length r) (fst (emitLeaf (freshNode infos) infos [])),
     r ++ snd (emitLeaf (freshNode infos) infos [])).
Proof. unfold emitLeaf. cbn. now rewrite Nat.add_0_r. Qed.

Lemma shiftLeaves_add (a b : nat) :
  forall bound n, (height n <= bound)%nat ->
                  shiftLeaves a (shiftLeaves b n) = shiftLeaves (a + b) n.
Proof.
  induction bound as [| bound IH]; intros [lo hi [l |] [rn |] offset count] Hh;
    cbn [height] in Hh; try lia; cbn [shiftLeaves];
    try (f_equal; lia);
    rewrite ?IH by lia; reflexivity.
Qed.

Lemma buildNodeRecursive_appends (this : BVHBuilder) :
  forall depth infos r,
    buildNodeRecursive this depth infos r
    = match buildNodeRecursive this depth infos [] with
      | Returns (node, out) => Returns (shiftLeaves (length r) node, r ++ out)
      | Throws e => Throws e
      end.
Proof.
  induction depth as [| depth IH]; intros infos r; cbn [buildNodeRecursive].
  - now rewrite shiftLeaves_emitLeaf.
  - destruct (Z.of_nat (length infos) <=? maxLeafSize this)%Z;
      [ now rewrite shiftLeaves_emitLeaf |].
    destruct (findBestSplitPositionSAH this infos (freshNode infos))
      as [[axis pos method | method] | e]; cbn [bind];
      [| now rewrite shiftLeaves_emitLeaf | reflexivity ].
    destruct (partitionTrianglesOptimized infos axis pos) as [[leftTris rightTris] | e];
      cbn [bind]; [| reflexivity ].
    destruct ((length leftTris =? 0)%nat || (length rightTris =? 0)%nat);
      [ now rewrite shiftLeaves_emitLeaf |].
    rewrite (IH leftTris r).
    destruct (buildNodeRecursive this depth leftTris []) as [[leftNode outl] | e] eqn:El;
      cbn [bind]; [| reflexivity ].
    rewrite (IH rightTris (r ++ outl)), (IH rightTris outl).
    destruct (buildNodeRecursive this depth rightTris []) as [[rightNode outr] | e] eqn:Er;
      cbn [bind]; [| reflexivity ].
    rewrite length_app, <- app_assoc.
    rewrite <- (@shiftLeaves_add (length r) (length outl) (height rightNode) rightNode)
      by lia.
    reflexivity.
Qed.

(** X23: a build into an array that already holds entries appends to it:
    the result is the one of a build into an empty array with the entries in
    front and every leaf offset moved by their number, and it throws exactly
    when that build throws. *)
Lemma buildSync_appends (this : BVHBuilder) (triangles : list Triangle) (depth : Z)
      (r : list Triangle) :
  buildSync this triangles depth r
  = match buildSync this triangles depth [] with
    | Returns (root, reordered) => Returns (shiftLeaves (length r) root, r ++ reordered)
    | Throws e => Throws e
    end.
Proof. apply buildNodeRecursive_appends. Qed.

(** ** CDFValidator *)

Lemma count_loop (data : list F64.float) :
  forall nanCount infCount,
    fold_left
      (fun '(nanCount, infCount) v =>
         (if F64.is_nan v then S nanCount else nanCount,
          if negb (F64.is_finite v) && negb (F64.is_nan v) then S infCount else infCount))
      data (nanCount, infCount)
    = ((nanCount + length (filter F64.is_nan data))%nat,
       (infCount
        + length (filter (fun v => negb (F64.is_finite v) && negb (F64.is_nan v)) data))%nat).
Proof.
  induction data as [| v data IH]; intros n i; cbn [fold_left filter length].
  - now rewrite !Nat.add_0_r.
  - rewrite IH. destruct v as [s | s | | s m e];
      cbn [F64.is_nan F64.is_finite negb andb length]; f_equal; lia.
Qed.

(** X19: [checkForInvalidValues] counts the NaN elements and the infinite
    elements; together with the finite ones they are the whole array, and
    [hasInvalidValues] is false exactly when every element is finite. *)
Lemma checkForInvalidValues_counts (data : list F64.float) :
  snd (fst (CDFValidator.checkForInvalidValues data)) = length (filter F64.is_nan data)
  /\ snd (CDFValidator.checkForInvalidValues data)
     = length (filter (fun v => negb (F64.is_finite v) && negb (F64.is_nan v)) data)
  /\ (snd (fst (CDFValidator.checkForInvalidValues data))
      + snd (CDFValidator.checkForInvalidValues data)
      + length (filter F64.is_finite data) = length data)%nat
  /\ (fst (fst (CDFValidator.checkForInvalidValues data)) = false
      <-> forallb F64.is_finite data = true).
Proof.
  unfold CDFValidator.checkForInvalidValues. rewrite count_loop. cbn [fst snd Nat.add].
  split; [ reflexivity |]. split; [ reflexivity |].
  assert (H : (length (filter F64.is_nan data)
               + length (filter (fun v => negb (F64.is_finite v) && negb (F64.is_nan v)) data)
               + length (filter F64.is_finite data) = length data)%nat
              /\ ((length (filter F64.is_nan data)
                   + length (filter (fun v => negb (F64.is_finite v) && negb (F64.is_nan v))
                               data) = 0)%nat
                  <-> forallb F64.is_finite data = true)).
  { induction data as [| v data [IH1 IH2]]; cbn [filter length forallb];
      [ split; [ reflexivity | split; reflexivity ] |].
    destruct v as [s | s | | s m e]; cbn [F64.is_nan F64.is_finite negb andb length];
      (split; [ lia |]); rewrite ?andb_true_l; try exact IH2;
      (split; [ lia | discriminate ]). }
  destruct H as [H1 H2]. split; [ exact H1 |].
  rewrite <- H2. rewrite orb_false_iff, !Nat.ltb_ge. lia.
Qed.

Lemma ltb_nan_l (a b : F64.float) : F64.is_nan a = true -> F64.ltb a b = false.
Proof. destruct a; try discriminate. reflexivity. Qed.

Lemma gtb_nan_l (a b : F64.float) : F64.is_nan a = true -> F64.gtb a b = false.
Proof. destruct a; try discriminate. destruct b as [s | s | | s m e]; reflexivity. Qed.

Lemma checkCell_nan (data : list F64.float) (cdfSize rowIndex : nat) (lastCDF : F64.float)
      (x : nat) :
  F64.is_nan (Float32Array.get data
                ((Z.of_nat rowIndex * Z.of_nat cdfSize + Z.of_nat x) * 4)) = true ->
  F64.is_nan (Float32Array.get data
                ((Z.of_nat rowIndex * Z.of_nat cdfSize + Z.of_nat x) * 4 + 1)) = true ->
  fst (CDFValidator.checkCell data cdfSize rowIndex ([], lastCDF) x) = [].
Proof.
  intros Hc Hp. unfold CDFValidator.checkCell.
  rewrite !ltb_nan_l by assumption. rewrite gtb_nan_l by assumption. reflexivity.
Qed.

(** X20: [validateConditionalCDF] reports nothing for a row whose CDF and
    PDF values are NaN or lie beyond the array: every comparison is false
    on NaN, whatever the row and the size. *)
Lemma validateConditionalCDF_passes_NaN (data : list F64.float) (cdfSize rowIndex : nat) :
  (forall x, (x < cdfSize)%nat ->
             F64.is_nan (Float32Array.get data
                           ((Z.of_nat rowIndex * Z.of_nat cdfSize + Z.of_nat x) * 4)) = true
             /\ F64.is_nan (Float32Array.get data
                              ((Z.of_nat rowIndex * Z.of_nat cdfSize + Z.of_nat x) * 4 + 1))
                = true) ->
  CDFValidator.validateConditionalCDF data cdfSize rowIndex = [].
Proof.
  intros Hrow. unfold CDFValidator.validateConditionalCDF.
  assert (Hloop : forall xs lastCDF,
             (forall x, In x xs -> (x < cdfSize)%nat) ->
             fst (fold_left (CDFValidator.checkCell data cdfSize rowIndex) xs ([], lastCDF))
             = []).
  { induction xs as [| x xs IH]; intros lastCDF Hxs; cbn [fold_left]; [ reflexivity |].
    destruct (Hrow x (Hxs x (or_introl eq_refl))) as [Hc Hp].
    pose proof (checkCell_nan data cdfSize rowIndex lastCDF x Hc Hp) as Hcell.
    destruct (CDFValidator.checkCell data cdfSize rowIndex ([], lastCDF) x) as [errors last'].
    cbn [fst] in Hcell. subst errors. apply IH. intros x' Hx'. apply Hxs. now right. }
  specialize (Hloop (seq 0 cdfSize) F64.zero
                    (fun x Hx => proj2 (proj1 (in_seq _ _ _) Hx))).
  destruct (fold_left _ _ _) as [errors last]. cbn [fst] in Hloop. subst errors.
  assert (Hfinal : F64.is_nan
                     (Float32Array.get data
                        ((Z.of_nat rowIndex * Z.of_nat cdfSize + (Z.of_nat cdfSize - 1)) * 4))
                   = true).
  { destruct cdfSize as [| n].
    - unfold Float32Array.get.
      assert (((Z.of_nat rowIndex * Z.of_nat 0 + (Z.of_nat 0 - 1)) * 4 <? 0)%Z = true) as ->
          by (apply Z.ltb_lt; lia).
      reflexivity.
    - destruct (Hrow n (Nat.lt_succ_diag_r n)) as [Hc _].
      replace (Z.of_nat (S n) - 1)%Z with (Z.of_nat n) by lia. exact Hc. }
  destruct (Float32Array.get data _) as [s | s | | s m e]; try discriminate. reflexivity.
Qed.

Lemma validateConditionalCDF_passes_NaN_witness :
  CDFValidator.validateConditionalCDF (repeat F64.nan 16) 2 1 = [].
Proof.
  apply (@validateConditionalCDF_passes_NaN (repeat F64.nan 16) 2 1).
  intros x Hx.
  assert (Hcases : x = 0%nat \/ x = 1%nat) by lia.
  destruct Hcases as [-> | ->]; split; reflexivity.
Defined.

(** ** The data of the CDF texture *)

Lemma length_setNth (a : list F64.float) (v : F64.float) :
  forall i, length (Float32Array.setNth a i v) = length a.
Proof.
  induction a as [| v0 a IH]; intros [| i]; cbn [Float32Array.setNth length]; try reflexivity.
  now rewrite IH.
Qed.

Lemma length_set (a : list F64.float) (i : Z) (v : F64.float) :
  length (Float32Array.set a i v) = length a.
Proof. unfold Float32Array.set. destruct (i <? 0)%Z; [ reflexivity | apply length_setNth ]. Qed.

Lemma nth_setNth (a : list F64.float) (v : F64.float) :
  forall i j,
    nth j (Float32Array.setNth a i v) F64.nan
    = if (j =? i)%nat && (i <? length a)%nat then v else nth j a F64.nan.
Proof.
  induction a as [| v0 a IH]; intros [| i] [| j]; cbn [Float32Array.setNth nth length];
    try reflexivity.
  - now rewrite andb_false_r.
  - rewrite IH. reflexivity.
Qed.

Lemma get_set (a : list F64.float) (i j : Z) (v : F64.float) :
  Float32Array.get (Float32Array.set a i v) j
  = if ((j =? i) && (0 <=? i) && (i <? Z.of_nat (length a)))%Z
    then Float32Array.fround v else Float32Array.get a j.
Proof.
  unfold Float32Array.get, Float32Array.set.
  destruct (i <? 0)%Z eqn:Ei.
  - apply Z.ltb_lt in Ei.
    assert ((0 <=? i)%Z = false) as -> by (apply Z.leb_gt; lia).
    now rewrite andb_false_r.
  - apply Z.ltb_ge in Ei.
    assert ((0 <=? i)%Z = true) as -> by (apply Z.leb_le; lia).
    rewrite andb_true_r.
    destruct (j <? 0)%Z eqn:Ej.
    + apply Z.ltb_lt in Ej.
      assert ((j =? i)%Z = false) as -> by (apply Z.eqb_neq; lia). reflexivity.
    + apply Z.ltb_ge in Ej. rewrite nth_setNth.
      destruct (j =? i)%Z eqn:E.
      * apply Z.eqb_eq in E. subst j. rewrite Nat.eqb_refl. cbn [andb].
        destruct (i <? Z.of_nat (length a))%Z eqn:El.
        -- apply Z.ltb_lt in El.
           assert ((Z.to_nat i <? length a)%nat = true) as -> by (apply Nat.ltb_lt; lia).
           reflexivity.
        -- apply Z.ltb_ge in El.
           assert ((Z.to_nat i <? length a)%nat = false) as -> by (apply Nat.ltb_ge; lia).
           reflexivity.
      * apply Z.eqb_neq in E.
        assert ((Z.to_nat j =? Z.to_nat i)%nat = false) as -> by (apply Nat.eqb_neq; lia).
        reflexivity.
Qed.

Ltac split_reads :=
  repeat (rewrite get_set; rewrite ?length_set);
  repeat match goal with
         | |- context [(?a =? ?b)%Z] => destruct (Z.eqb_spec a b); try lia; cbn [andb]
         | |- context [(?a <=? ?b)%Z] => destruct (Z.leb_spec a b); try lia; cbn [andb]
         | |- context [(?a <? ?b)%Z] => destruct (Z.ltb_spec a b); try lia; cbn [andb]
         end;
  try reflexivity; try assumption.

Section Rows.
Variables (cdfSize rowY : nat) (rowData : list F64.float) (rowSum : F64.float).

Lemma writeCell_length (d : list F64.float) (cum : F64.float) (x : nat) :
  length (fst (EnvironmentCDFBuilder.writeCell cdfSize rowY rowData rowSum (d, cum) x))
  = length d.
Proof. unfold EnvironmentCDFBuilder.writeCell. cbn [fst]. now rewrite !length_set. Qed.

Lemma writeCell_keeps_closed (d : list F64.float) (cum : F64.float) (x : nat) (q : Z) :
  cellClosed d (q * 4) ->
  cellClosed (fst (EnvironmentCDFBuilder.writeCell cdfSize rowY rowData rowSum (d, cum) x))
             (q * 4).
Proof.
  unfold cellClosed, EnvironmentCDFBuilder.writeCell. cbn [fst]. intros [H2 H3].
  split; split_reads.
Qed.

Lemma writeCell_closes (d : list F64.float) (cum : F64.float) (x : nat) :
  (cellIndex cdfSize rowY x + 3 < Z.of_nat (length d))%Z ->
  cellClosed (fst (EnvironmentCDFBuilder.writeCell cdfSize rowY rowData rowSum (d, cum) x))
             (cellIndex cdfSize rowY x).
Proof.
  unfold cellClosed, cellIndex, EnvironmentCDFBuilder.writeCell. cbn [fst]. intros Hin.
  split; split_reads.
Qed.

Lemma writeCell_keeps_value (d : list F64.float) (cum : F64.float) (x : nat) (q : Z) :
  q <> (Z.of_nat rowY * Z.of_nat cdfSize + Z.of_nat x)%Z ->
  Float32Array.get
    (fst (EnvironmentCDFBuilder.writeCell cdfSize rowY rowData rowSum (d, cum) x)) (q * 4)
  = Float32Array.get d (q * 4).
Proof.
  unfold EnvironmentCDFBuilder.writeCell. cbn [fst]. intros Hq. split_reads.
Qed.

Lemma writeCells (xs : list nat) :
  forall d cum,
    let d' := fst (fold_left (EnvironmentCDFBuilder.writeCell cdfSize rowY rowData rowSum)
                             xs (d, cum)) in
    length d' = length d
    /\ (forall q, cellClosed d (q * 4) -> cellClosed d' (q * 4))
    /\ (forall x, In x xs ->
                  (cellIndex cdfSize rowY x + 3 < Z.of_nat (length d))%Z ->
                  cellClosed d' (cellIndex cdfSize rowY x))
    /\ (forall q, (forall x, In x xs ->
                             q <> (Z.of_nat rowY * Z.of_nat cdfSize + Z.of_nat x)%Z) ->
                  Float32Array.get d' (q * 4) = Float32Array.get d (q * 4)).
Proof.
  induction xs as [| x xs IH]; intros d cum; cbn [fold_left fst].
  - split; [ reflexivity |]. split; [ auto |]. split; [ intros x [] | reflexivity ].
  - destruct (EnvironmentCDFBuilder.writeCell cdfSize rowY rowData rowSum (d, cum) x)
      as [d1 cum1] eqn:E.
    assert (E1 : d1 = fst (EnvironmentCDFBuilder.writeCell cdfSize rowY rowData rowSum
                             (d, cum) x)) by now rewrite E.
    destruct (IH d1 cum1) as [Hl [Hk [Hc Hv]]]. cbn zeta in *.
    assert (Hl1 : length d1 = length d) by (rewrite E1; apply writeCell_length).
    split; [ congruence |]. split; [| split ].
    + intros q Hq. apply Hk. rewrite E1. now apply writeCell_keeps_closed.
    + intros x' [<- | Hin] Hr.
      * unfold cellIndex. apply Hk. fold (cellIndex cdfSize rowY x).
        rewrite E1. now apply writeCell_closes.
      * apply Hc; [ exact Hin | now rewrite Hl1 ].
    + intros q Hq. rewrite Hv by (intros x' Hx'; apply Hq; now right).
      rewrite E1. apply writeCell_keeps_value. apply Hq. now left.
Qed.

Lemma writeRow_spec (d : list F64.float) :
  let d' := EnvironmentCDFBuilder.writeRow cdfSize rowY (rowData, rowSum) d in
  length d' = length d
  /\ (forall q, cellClosed d (q * 4) -> cellClosed d' (q * 4))
  /\ (forall x, (x < cdfSize)%nat ->
                (cellIndex cdfSize rowY x + 3 < Z.of_nat (length d))%Z ->
                cellClosed d' (cellIndex cdfSize rowY x))
  /\ (forall q, (forall x, (x < cdfSize)%nat ->
                           q <> (Z.of_nat rowY * Z.of_nat cdfSize + Z.of_nat x)%Z) ->
                Float32Array.get d (q * 4) = F64.lit_1 ->
                Float32Array.get d' (q * 4) = F64.lit_1)
  /\ ((1 <= cdfSize)%nat ->
      (cellIndex cdfSize rowY (cdfSize - 1) < Z.of_nat (length d))%Z ->
      Float32Array.get d' (cellIndex cdfSize rowY (cdfSize - 1)) = F64.lit_1).
Proof.
  unfold EnvironmentCDFBuilder.writeRow.
  pose proof (writeCells (seq 0 cdfSize) d F64.zero) as H. cbn zeta in H.
  destruct (fold_left _ _ _) as [d1 cum1]. cbn [fst] in H.
  destruct H as [Hl [Hk [Hc Hv]]]. cbn zeta.
  split; [ now rewrite length_set |]. split; [| split; [| split ] ].
  - intros q Hq. destruct (Hk q Hq) as [H2 H3]. unfold cellClosed. split; split_reads.
  - intros x Hx Hr.
    assert (Hin : In x (seq 0 cdfSize)) by (apply in_seq; lia).
    destruct (Hc x Hin Hr) as [H2 H3].
    unfold cellClosed, cellIndex in *. split; split_reads.
  - intros q Hq H1. rewrite get_set.
    destruct (_ && _); [ reflexivity |].
    rewrite Hv; [ exact H1 |]. intros x Hx. apply Hq. apply in_seq in Hx. lia.
  - intros Hn Hr. unfold cellIndex in *. rewrite get_set, Hl.
    replace (Z.of_nat (cdfSize - 1)) with (Z.of_nat cdfSize - 1)%Z in * by lia.
    rewrite Z.eqb_refl. cbn [andb].
    destruct (Z.leb_spec 0 ((Z.of_nat rowY * Z.of_nat cdfSize + (Z.of_nat cdfSize - 1)) * 4));
      [| nia ].
    destruct (Z.ltb_spec ((Z.of_nat rowY * Z.of_nat cdfSize + (Z.of_nat cdfSize - 1)) * 4)
                         (Z.of_nat (length d))); [ reflexivity | lia ].
Qed.

End Rows.

Lemma cell_in_texture (cdfSize row x : nat) :
  (row <= cdfSize)%nat -> (x < cdfSize)%nat ->
  (0 <= cellIndex cdfSize row x
   /\ cellIndex cdfSize row x + 3 < Z.of_nat (cdfSize * (cdfSize + 1) * 4))%Z.
Proof. unfold cellIndex. intros Hr Hx. nia. Qed.

Lemma cells_of_rows_differ (cdfSize row row' x x' : nat) :
  row <> row' -> (x < cdfSize)%nat -> (x' < cdfSize)%nat ->
  (Z.of_nat row * Z.of_nat cdfSize + Z.of_nat x
   <> Z.of_nat row' * Z.of_nat cdfSize + Z.of_nat x')%Z.
Proof.
  intros Hr Hx Hx'.
  assert (row < row' \/ row' < row)%nat as [H | H] by lia.
  - assert ((Z.of_nat row + 1) * Z.of_nat cdfSize <= Z.of_nat row' * Z.of_nat cdfSize)%Z
      by (apply Z.mul_le_mono_nonneg_r; lia).
    lia.
  - assert ((Z.of_nat row' + 1) * Z.of_nat cdfSize <= Z.of_nat row * Z.of_nat cdfSize)%Z
      by (apply Z.mul_le_mono_nonneg_r; lia).
    lia.
Qed.

Lemma writeRow_rows (cdfSize row' : nat) (row : list F64.float * F64.float)
      (d : list F64.float) :
  length d = (cdfSize * (cdfSize + 1) * 4)%nat ->
  (row' <= cdfSize)%nat ->
  length (EnvironmentCDFBuilder.writeRow cdfSize row' row d) = length d
  /\ rowComplete (EnvironmentCDFBuilder.writeRow cdfSize row' row d) cdfSize row'
  /\ forall r, rowComplete d cdfSize r ->
               rowComplete (EnvironmentCDFBuilder.writeRow cdfSize row' row d) cdfSize r.
Proof.
  intros Hl Hr. destruct row as [rowData rowSum].
  destruct (writeRow_spec cdfSize row' rowData rowSum d) as [Hlen [Hk [Hc [Hv Hf]]]].
  cbn zeta in *.
  assert (Hown : rowComplete (EnvironmentCDFBuilder.writeRow cdfSize row' (rowData, rowSum) d)
                             cdfSize row').
  { split.
    - intros x Hx. apply Hc; [ exact Hx |].
      rewrite Hl. now apply cell_in_texture.
    - intros Hn. apply Hf; [ exact Hn |].
      rewrite Hl. assert (cdfSize - 1 < cdfSize)%nat by lia.
      pose proof (@cell_in_texture cdfSize row' (cdfSize - 1) Hr ltac:(lia)). lia. }
  split; [ exact Hlen |]. split; [ exact Hown |].
  intros r [Hcells Hlast]. destruct (Nat.eq_dec r row') as [-> | Hne]; [ exact Hown |].
  split.
  - intros x Hx. unfold cellIndex.
    apply (Hk (Z.of_nat r * Z.of_nat cdfSize + Z.of_nat x)%Z). exact (Hcells x Hx).
  - intros Hn. unfold cellIndex.
    apply (Hv (Z.of_nat r * Z.of_nat cdfSize + Z.of_nat (cdfSize - 1))%Z);
      [| exact (Hlast Hn) ].
    intros x Hx. apply cells_of_rows_differ; [ exact Hne | lia | exact Hx ].
Qed.

Lemma conditionalRows (luminance : list F64.float) (width height cdfSize : nat)
      (threshold : F64.float) (rows : list nat) :
  forall d,
    length d = (cdfSize * (cdfSize + 1) * 4)%nat ->
    (forall r, In r rows -> (r <= cdfSize)%nat) ->
    length (fold_left (EnvironmentCDFBuilder.conditionalRow luminance width height cdfSize
                                                             threshold) rows d)
    = length d
    /\ forall r, In r rows ->
                 rowComplete
                   (fold_left (EnvironmentCDFBuilder.conditionalRow luminance width height
                                                                     cdfSize threshold)
                              rows d)
                   cdfSize r.
Proof.
  induction rows as [| row' rows IH] using rev_ind; intros d Hl Hrows.
  - split; [ reflexivity | intros r [] ].
  - rewrite fold_left_app. cbn [fold_left].
    destruct (IH d Hl (fun r Hr => Hrows r (in_or_app _ _ _ (or_introl Hr)))) as [Hlen Hdone].
    unfold EnvironmentCDFBuilder.conditionalRow at 1 3.
    match goal with
    | |- context [EnvironmentCDFBuilder.writeRow cdfSize row' ?row ?d1] =>
        destruct (@writeRow_rows cdfSize row' row d1) as [Hl1 [Hown Hkeep]];
        [ congruence | apply Hrows, in_or_app; right; now left |]
    end.
    split; [ congruence |].
    intros r Hr. apply in_app_or in Hr. destruct Hr as [Hr | [<- | []]].
    + apply Hkeep, Hdone, Hr.
    + exact Hown.
Qed.

Lemma built_rows (threshold : F64.float) (luminance : list F64.float)
      (width height cdfSize : nat) :
  length (fst (EnvironmentCDFBuilder.buildCDFTextureFixed threshold luminance width height
                                                          cdfSize))
  = (cdfSize * (cdfSize + 1) * 4)%nat
  /\ forall row, (row <= cdfSize)%nat ->
                 rowComplete
                   (fst (EnvironmentCDFBuilder.buildCDFTextureFixed threshold luminance width
                                                                    height cdfSize))
                   cdfSize row.
Proof.
  unfold EnvironmentCDFBuilder.buildCDFTextureFixed. cbn [fst].
  assert (Hl0 : length (Float32Array.make (cdfSize * (cdfSize + 1) * 4))
                = (cdfSize * (cdfSize + 1) * 4)%nat) by apply repeat_length.
  destruct (@conditionalRows luminance width height cdfSize threshold (seq 0 cdfSize)
              (Float32Array.make (cdfSize * (cdfSize + 1) * 4)) Hl0)
    as [Hl1 Hdone]; [ intros r Hr; apply in_seq in Hr; lia |].
  match goal with
  | |- context [EnvironmentCDFBuilder.writeRow cdfSize cdfSize ?row ?d1] =>
      destruct (@writeRow_rows cdfSize cdfSize row d1) as [Hl2 [Hown Hkeep]];
      [ congruence | lia |]
  end.
  split; [ congruence |].
  intros row Hrow. destruct (Nat.eq_dec row cdfSize) as [-> | Hne]; [ exact Hown |].
  apply Hkeep, Hdone. apply in_seq. lia.
Qed.

(** X24: whatever the luminance, the sizes and the threshold, the texture
    that [buildCDFTextureFixed] returns has [cdfSize + 1] rows of [cdfSize]
    cells of four numbers; in every cell the unused number is 0 and alpha is
    1, and the CDF value of the last cell of every row, the marginal row
    included, is exactly 1. *)
Theorem built_texture_layout (threshold : F64.float) (luminance : list F64.float)
        (width height cdfSize : nat) :
  snd (EnvironmentCDFBuilder.buildCDFTextureFixed threshold luminance width height cdfSize)
  = (cdfSize + 1)%nat
  /\ length (fst (EnvironmentCDFBuilder.buildCDFTextureFixed threshold luminance width height
                                                             cdfSize))
     = (cdfSize * (cdfSize + 1) * 4)%nat
  /\ forall row, (row <= cdfSize)%nat ->
                 rowComplete
                   (fst (EnvironmentCDFBuilder.buildCDFTextureFixed threshold luminance width
                                                                    height cdfSize))
                   cdfSize row.
Proof. split; [ reflexivity | apply built_rows ]. Qed.

Lemma checkCell_kinds (data : list F64.float) (cdfSize rowIndex : nat)
      (errors : list CDFValidator.CDFError) (lastCDF : F64.float) (x : nat) :
  (forall r v, ~ In (CDFValidator.FinalNotOne r v) errors) ->
  forall r v,
    ~ In (CDFValidator.FinalNotOne r v)
         (fst (CDFValidator.checkCell data cdfSize rowIndex (errors, lastCDF) x)).
Proof.
  intros H r v. unfold CDFValidator.checkCell. cbn [fst].
  repeat match goal with
         | |- context [if ?c then _ else _] => destruct c
         end;
    rewrite ?in_app_iff; cbn [In]; intros Hin;
    repeat match goal with
           | Hin : _ \/ _ |- _ => destruct Hin as [Hin | Hin]
           end;
    try discriminate; try contradiction; eapply H; eassumption.
Qed.

Lemma checkCells_kinds (data : list F64.float) (cdfSize rowIndex : nat) (xs : list nat) :
  forall errors lastCDF,
    (forall r v, ~ In (CDFValidator.FinalNotOne r v) errors) ->
    forall r v,
      ~ In (CDFValidator.FinalNotOne r v)
           (fst (fold_left (CDFValidator.checkCell data cdfSize rowIndex) xs
                           (errors, lastCDF))).
Proof.
  induction xs as [| x xs IH]; intros errors lastCDF H; cbn [fold_left fst]; [ exact H |].
  pose proof (@checkCell_kinds data cdfSize rowIndex errors lastCDF x H) as Hx.
  destruct (CDFValidator.checkCell data cdfSize rowIndex (errors, lastCDF) x)
    as [errors1 last1].
  apply IH. exact Hx.
Qed.

(** X25: the final-value check of [validateConditionalCDF] never fails on a
    texture that [buildCDFTextureFixed] built, for any row: a row of the
    texture ends in exactly 1, and the check is false on the NaN of a row
    beyond it or of an empty row. *)
Theorem built_texture_passes_final_check (threshold : F64.float) (luminance : list F64.float)
        (width height cdfSize row : nat) (r : nat) (finalCDF : F64.float) :
  ~ In (CDFValidator.FinalNotOne r finalCDF)
       (CDFValidator.validateConditionalCDF
          (fst (EnvironmentCDFBuilder.buildCDFTextureFixed threshold luminance width height
                                                           cdfSize))
          cdfSize row).
Proof.
  destruct (built_rows threshold luminance width height cdfSize) as [Hlen Hrows].
  set (data := fst (EnvironmentCDFBuilder.buildCDFTextureFixed threshold luminance width height
                                                               cdfSize)) in *.
  unfold CDFValidator.validateConditionalCDF.
  pose proof (@checkCells_kinds data cdfSize row (seq 0 cdfSize) [] F64.zero
                (fun _ _ H => H)) as Hcells.
  destruct (fold_left _ _ _) as [errors last]. cbn [fst] in Hcells.
  assert (Hfinal : F64.gtb
                     (CDFValidator.Math_abs
                        (F64.sub
                           (Float32Array.get data
                              ((Z.of_nat row * Z.of_nat cdfSize + (Z.of_nat cdfSize - 1)) * 4))
                           F64.lit_1))
                     CDFValidator.lit_1e_3 = false).
  { destruct (Nat.eq_dec cdfSize 0) as [-> | Hn].
    - unfold Float32Array.get.
      assert (((Z.of_nat row * Z.of_nat 0 + (Z.of_nat 0 - 1)) * 4 <? 0)%Z = true) as ->
          by (apply Z.ltb_lt; lia).
      reflexivity.
    - destruct (le_lt_dec row cdfSize) as [Hr | Hr].
      + destruct (Hrows row Hr) as [_ Hlast]. unfold cellIndex in Hlast.
        replace (Z.of_nat (cdfSize - 1)) with (Z.of_nat cdfSize - 1)%Z in Hlast by lia.
        rewrite Hlast by lia. reflexivity.
      + unfold Float32Array.get.
        assert (((Z.of_nat row * Z.of_nat cdfSize + (Z.of_nat cdfSize - 1)) * 4 <? 0)%Z
                = false) as -> by (apply Z.ltb_ge; nia).
        rewrite nth_overflow by (rewrite Hlen; nia). reflexivity. }
  rewrite Hfinal. apply Hcells.
Qed.

(** ** Every box contains its triangles *)

Lemma leb_refl (a : F64.float) : F64.is_nan a = false -> F64.leb a a = true.
Proof.
  destruct a as [s | s | | s m e]; try discriminate; intros _;
    unfold F64.leb, SFleb, SFcompare; try (destruct s; reflexivity).
  destruct s; rewrite Z.compare_refl, ?Pos.compare_cont_refl, ?Pos.compare_refl; reflexivity.
Qed.

Lemma ltb_leb (a b : F64.float) : F64.ltb a b = true -> F64.leb a b = true.
Proof.
  unfold F64.ltb, F64.leb, SFltb, SFleb. destruct (SFcompare a b) as [[| |] |]; auto.
Qed.

Lemma not_ltb_leb (a b : F64.float) :
  F64.is_nan a = false -> F64.is_nan b = false -> F64.ltb b a = false -> F64.leb a b = true.
Proof.
  intros Ha Hb. unfold F64.ltb, F64.leb, SFltb, SFleb. rewrite (SFcompare_swap b a).
  destruct (SFcompare b a) as [[| |] |] eqn:E; cbn; try reflexivity; try discriminate.
  intros _. destruct a as [sa | sa | | sa ma ea], b as [sb | sb | | sb mb eb];
    try discriminate; cbn in E; try discriminate;
    destruct sa, sb; try discriminate.
Qed.

Lemma compare_finite_trans (s : bool) (m1 m2 m3 : positive) (e1 e2 e3 : Z) :
  SFleb (S754_finite s m1 e1) (S754_finite s m2 e2) = true ->
  SFleb (S754_finite s m2 e2) (S754_finite s m3 e3) = true ->
  SFleb (S754_finite s m1 e1) (S754_finite s m3 e3) = true.
Proof.
  unfold SFleb, SFcompare.
  destruct s;
    destruct (Z.compare_spec e1 e2), (Z.compare_spec e2 e3), (Z.compare_spec e1 e3);
    try lia; try reflexivity; try discriminate; subst;
    rewrite ?Pos.compare_cont_spec; cbn [CompOpp];
    destruct (Pos.compare_spec m1 m2), (Pos.compare_spec m2 m3), (Pos.compare_spec m1 m3);
    cbn; try lia; try reflexivity; try discriminate.
Qed.

Lemma leb_trans (a b c : F64.float) :
  F64.leb a b = true -> F64.leb b c = true -> F64.leb a c = true.
Proof.
  unfold F64.leb. intros H1 H2.
  destruct a as [sa | sa | | sa ma ea], b as [sb | sb | | sb mb eb],
           c as [sc | sc | | sc mc ec];
    repeat match goal with
           | s : bool |- _ => destruct s
           end;
    first [ eapply compare_finite_trans; eassumption
          | reflexivity
          | discriminate H1
          | discriminate H2 ].
Qed.

Lemma Math_min_below (a b : F64.float) :
  F64.is_nan a = false -> F64.is_nan b = false ->
  F64.is_nan (F64.Math_min a b) = false
  /\ F64.leb (F64.Math_min a b) a = true
  /\ F64.leb (F64.Math_min a b) b = true.
Proof.
  intros Ha Hb.
  assert (Hcases : (exists sa sb, a = S754_zero sa /\ b = S754_zero sb)
                   \/ F64.Math_min a b = if SFltb b a then b else a).
  { destruct a as [sa | sa | | sa ma ea], b as [sb | sb | | sb mb eb];
      try discriminate; try (right; reflexivity). left. now exists sa, sb. }
  destruct Hcases as [[sa [sb [-> ->]]] | ->].
  - destruct sa, sb; repeat split; reflexivity.
  - destruct (SFltb b a) eqn:E.
    + repeat split; [ exact Hb | now apply ltb_leb | now apply leb_refl ].
    + repeat split; [ exact Ha | now apply leb_refl | now apply not_ltb_leb ].
Qed.

Lemma Math_max_above (a b : F64.float) :
  F64.is_nan a = false -> F64.is_nan b = false ->
  F64.is_nan (F64.Math_max a b) = false
  /\ F64.leb a (F64.Math_max a b) = true
  /\ F64.leb b (F64.Math_max a b) = true.
Proof.
  intros Ha Hb.
  assert (Hcases : (exists sa sb, a = S754_zero sa /\ b = S754_zero sb)
                   \/ F64.Math_max a b = if SFltb a b then b else a).
  { destruct a as [sa | sa | | sa ma ea], b as [sb | sb | | sb mb eb];
      try discriminate; try (right; reflexivity). left. now exists sa, sb. }
  destruct Hcases as [[sa [sb [-> ->]]] | ->].
  - destruct sa, sb; repeat split; reflexivity.
  - destruct (SFltb a b) eqn:E.
    + repeat split; [ exact Hb | now apply ltb_leb | now apply leb_refl ].
    + repeat split; [ exact Ha | now apply leb_refl | now apply not_ltb_leb ].
Qed.

(** One coordinate: an interval [lo, hi] of numbers, and its union with
    another. *)
Lemma interval_union (lo hi lo' hi' v : F64.float) :
  F64.is_nan lo = false -> F64.is_nan hi = false ->
  F64.is_nan lo' = false -> F64.is_nan hi' = false ->
  (F64.is_nan (F64.Math_min lo lo') = false /\ F64.is_nan (F64.Math_max hi hi') = false)
  /\ (F64.leb lo v && F64.leb v hi = true ->
      F64.leb (F64.Math_min lo lo') v && F64.leb v (F64.Math_max hi hi') = true)
  /\ (F64.leb lo' v && F64.leb v hi' = true ->
      F64.leb (F64.Math_min lo lo') v && F64.leb v (F64.Math_max hi hi') = true).
Proof.
  intros Hlo Hhi Hlo' Hhi'.
  destruct (Math_min_below lo lo' Hlo Hlo') as [Hn [Hl Hl']].
  destruct (Math_max_above hi hi' Hhi Hhi') as [Hx [Hh Hh']].
  split; [ now split |].
  split; intros H; apply andb_true_iff in H; destruct H as [H1 H2];
    apply andb_true_iff; split.
  - exact (leb_trans _ _ _ Hl H1).
  - exact (leb_trans _ _ _ H2 Hh).
  - exact (leb_trans _ _ _ Hl' H1).
  - exact (leb_trans _ _ _ H2 Hh').
Qed.

Lemma numbers_iff (v : Vector3) :
  numbers v = true
  <-> F64.is_nan (x v) = false /\ F64.is_nan (y v) = false /\ F64.is_nan (z v) = false.
Proof.
  unfold numbers. rewrite !andb_true_iff, !negb_true_iff. tauto.
Qed.

Lemma contains_iff (b : Bounds) (v : Vector3) :
  contains b v = true
  <-> F64.leb (x (bmin b)) (x v) && F64.leb (x v) (x (bmax b)) = true
      /\ F64.leb (y (bmin b)) (y v) && F64.leb (y v) (y (bmax b)) = true
      /\ F64.leb (z (bmin b)) (z v) && F64.leb (z v) (z (bmax b)) = true.
Proof. unfold contains. rewrite !andb_true_iff. tauto. Qed.

Lemma box_union (a b : Vector3 * Vector3) :
  numbers (fst a) = true -> numbers (snd a) = true ->
  numbers (fst b) = true -> numbers (snd b) = true ->
  (numbers (fst (unionBox a b)) = true /\ numbers (snd (unionBox a b)) = true)
  /\ forall v,
      (contains (mkBounds (fst a) (snd a)) v = true ->
       contains (mkBounds (fst (unionBox a b)) (snd (unionBox a b))) v = true)
      /\ (contains (mkBounds (fst b) (snd b)) v = true ->
          contains (mkBounds (fst (unionBox a b)) (snd (unionBox a b))) v = true).
Proof.
  rewrite !numbers_iff. intros [Hax [Hay Haz]] [Hbx [Hby Hbz]] [Hcx [Hcy Hcz]] [Hdx [Hdy Hdz]].
  unfold unionBox, Vec.min, Vec.max. cbn [fst snd].
  split.
  - rewrite ?numbers_iff. cbn [x y z].
    pose proof (fun v => interval_union _ _ _ _ v Hax Hbx Hcx Hdx) as Hx.
    pose proof (fun v => interval_union _ _ _ _ v Hay Hby Hcy Hdy) as Hy.
    pose proof (fun v => interval_union _ _ _ _ v Haz Hbz Hcz Hdz) as Hz.
    destruct (Hx F64.zero) as [[? ?] _], (Hy F64.zero) as [[? ?] _],
             (Hz F64.zero) as [[? ?] _].
    repeat split; assumption.
  - intros v. rewrite !contains_iff. cbn [bmin bmax x y z].
    destruct (interval_union _ _ _ _ (x v) Hax Hbx Hcx Hdx) as [_ [Hx Hx']].
    destruct (interval_union _ _ _ _ (y v) Hay Hby Hcy Hdy) as [_ [Hy Hy']].
    destruct (interval_union _ _ _ _ (z v) Haz Hbz Hcz Hdz) as [_ [Hz Hz']].
    split; intros [H1 [H2 H3]]; repeat split; auto.
Qed.

Lemma triangleBox_contains (t : Triangle) :
  numericTriangle t = true ->
  (numbers (fst (triangleBox t)) = true /\ numbers (snd (triangleBox t)) = true)
  /\ containsTriangle (mkBounds (fst (triangleBox t)) (snd (triangleBox t))) t = true.
Proof.
  unfold numericTriangle, containsTriangle. rewrite !andb_true_iff, !numbers_iff.
  intros [[[Hax [Hay Haz]] [Hbx [Hby Hbz]]] [Hcx [Hcy Hcz]]].
  unfold triangleBox, boxOf. cbn [newTriangleInfo bounds bmin bmax fst snd].
  unfold F64.Math_min3, F64.Math_max3.
  assert (Hcoord : forall a b c,
             F64.is_nan a = false -> F64.is_nan b = false -> F64.is_nan c = false ->
             (F64.is_nan (F64.Math_min (F64.Math_min a b) c) = false
              /\ F64.is_nan (F64.Math_max (F64.Math_max a b) c) = false)
             /\ F64.leb (F64.Math_min (F64.Math_min a b) c) a
                && F64.leb a (F64.Math_max (F64.Math_max a b) c) = true
             /\ F64.leb (F64.Math_min (F64.Math_min a b) c) b
                && F64.leb b (F64.Math_max (F64.Math_max a b) c) = true
             /\ F64.leb (F64.Math_min (F64.Math_min a b) c) c
                && F64.leb c (F64.Math_max (F64.Math_max a b) c) = true).
  { intros a b c Ha Hb Hc.
    destruct (Math_min_below a b Ha Hb) as [Hn1 [Hl1 Hl2]].
    destruct (Math_min_below _ c Hn1 Hc) as [Hn2 [Hl3 Hl4]].
    destruct (Math_max_above a b Ha Hb) as [Hx1 [Hh1 Hh2]].
    destruct (Math_max_above _ c Hx1 Hc) as [Hx2 [Hh3 Hh4]].
    split; [ now split |]. rewrite !andb_true_iff.
    repeat split; try assumption.
    - exact (leb_trans _ _ _ Hl3 Hl1).
    - exact (leb_trans _ _ _ Hh1 Hh3).
    - exact (leb_trans _ _ _ Hl3 Hl2).
    - exact (leb_trans _ _ _ Hh2 Hh3). }
  destruct (Hcoord _ _ _ Hax Hbx Hcx) as [[? ?] [? [? ?]]].
  destruct (Hcoord _ _ _ Hay Hby Hcy) as [[? ?] [? [? ?]]].
  destruct (Hcoord _ _ _ Haz Hbz Hcz) as [[? ?] [? [? ?]]].
  rewrite ?numbers_iff, !contains_iff. cbn [bmin bmax x y z].
  repeat split; assumption.
Qed.

Lemma computeBounds_contains (triangles : list Triangle) :
  forallb numericTriangle triangles = true ->
  (numbers (bmin (computeBounds triangles)) = true
   /\ numbers (bmax (computeBounds triangles)) = true)
  /\ forall t, In t triangles -> containsTriangle (computeBounds triangles) t = true.
Proof.
  intros Hnum.
  pose proof (computeBounds_fold triangles) as Hfold.
  assert (H : (numbers (fst (fold_right unionBox emptyBox (map triangleBox triangles))) = true
               /\ numbers (snd (fold_right unionBox emptyBox (map triangleBox triangles)))
                  = true)
              /\ forall t, In t triangles ->
                           containsTriangle
                             (mkBounds
                                (fst (fold_right unionBox emptyBox (map triangleBox triangles)))
                                (snd (fold_right unionBox emptyBox (map triangleBox triangles))))
                             t = true).
  { clear Hfold. induction triangles as [| t0 ts IH]; cbn [map fold_right].
    - split; [ split; reflexivity | intros t [] ].
    - cbn [forallb] in Hnum. apply andb_true_iff in Hnum. destruct Hnum as [H0 Hts].
      destruct (IH Hts) as [[Hn1 Hn2] Hin].
      destruct (triangleBox_contains t0 H0) as [[Hb1 Hb2] Hc0].
      destruct (box_union (triangleBox t0) _ Hb1 Hb2 Hn1 Hn2) as [Hnum' Hcont].
      split; [ exact Hnum' |].
      intros t [<- | Ht].
      + unfold containsTriangle in *. rewrite !andb_true_iff in *.
        destruct Hc0 as [[Ha Hb] Hc]. repeat split; now apply (proj1 (Hcont _)).
      + specialize (Hin t Ht). unfold containsTriangle in *. rewrite !andb_true_iff in *.
        destruct Hin as [[Ha Hb] Hc]. repeat split; now apply (proj2 (Hcont _)). }
  rewrite <- Hfold in H. cbn [fst snd] in H.
  destruct (computeBounds triangles) as [lo hi]. exact H.
Qed.

Lemma In_slice {A : Type} (a : A) (n k : nat) (l : list A) :
  In a (firstn n (skipn k l)) -> In a l.
Proof.
  intros H. rewrite <- (firstn_skipn k l). apply in_or_app. right.
  rewrite <- (firstn_skipn n (skipn k l)). apply in_or_app. now left.
Qed.

(** X26: when no coordinate of the input is NaN, the box of every node
    contains, on the three axes, every vertex of every triangle that the
    leaves below the node refer to in the reordered array. *)
Theorem node_boxes_contain_their_triangles (this : BVHBuilder) (triangles : list Triangle)
        (depth : Z) (root : CWBVHNode) (reordered : list Triangle)
        (n : CWBVHNode) (t : Triangle) :
  forallb numericTriangle triangles = true ->
  buildSync this triangles depth [] = Returns (root, reordered) ->
  In n (nodes root) ->
  In t (subtreeSlice n reordered) ->
  containsTriangle (nodeBounds n) t = true.
Proof.
  intros Hnum H Hn Ht. apply buildSync_Built in H.
  destruct (Built_boxes H (asConstructed_presortedInfos this triangles)) as [_ Hb].
  specialize (Hb []). rewrite app_nil_r in Hb. rewrite Forall_forall in Hb.
  rewrite (Hb n Hn).
  apply computeBounds_contains; [| exact Ht ].
  apply forallb_forall. intros t' Ht'. apply In_slice in Ht'.
  destruct (Built_output H) as [out [Hout HP]]. cbn [app] in Hout. subst out.
  rewrite forallb_forall in Hnum. apply Hnum.
  apply (Permutation_in _ (presortedInfos_triangles this triangles)).
  apply (Permutation_in _ HP). exact Ht'.
Qed.

Lemma node_boxes_contain_their_triangles_witness :
  exists root reordered,
    buildSync newBVHBuilder Examples.outlierTen 30 [] = Returns (root, reordered)
    /\ forall t, In t (subtreeSlice root reordered) ->
                 containsTriangle (nodeBounds root) t = true.
Proof.
  destruct (buildSync newBVHBuilder Examples.outlierTen 30 [])
    as [[root reordered] | e] eqn:E; [| vm_compute in E; discriminate ].
  exists root, reordered. split; [ reflexivity |].
  intros t Ht.
  apply (@node_boxes_contain_their_triangles newBVHBuilder Examples.outlierTen 30 root
           reordered root t);
    [ vm_compute; reflexivity | exact E | apply In_nodes_root | exact Ht ].
Defined.

(* ================================================================= *)
(** ** Ten triangles on the lattice *)

Local Open Scope Z_scope.

(** *** The tables *)


















(** *** Flat and spread axes *)






(** *** The range of the centroids *)









(** *** The binned split on a spread axis *)






(** *** The object median on a spread axis *)










Section SplitOnLattice.

Variable this : BVHBuilder.
Hypothesis Hmin : minBins this = 8.
Hypothesis Hmax : 8 <= maxBins this.
Hypothesis Hobject : enableObjectMedianFallback this = true.



(** *** The split of a call *)


End SplitOnLattice.



(** *** The build on the lattice *)




Section BuildOnLattice.

Variable this : BVHBuilder.
Hypothesis Hleaf : maxLeafSize this = 8.
Hypothesis Hmin : minBins this = 8.
Hypothesis Hmax : 8 <= maxBins this.
Hypothesis Hobject : enableObjectMedianFallback this = true.




End BuildOnLattice.



